(** * Lead-staleness notifications of the CRM: model and properties

    The development embeds the notification generator of the CRM as it is
    written at its three call sites

    - [GenerateAdminNotifications.serve]
      (supabase/functions/generate-admin-notifications/index.ts),
    - [AutoGenerateNotifications.serve]
      (supabase/functions/auto-generate-notifications/index.ts),
    - [AdminNotifications.generateNotifications] (the admin screen),

    the monitoring screen ([MonitoringRoom.fetchSalesmen],
    [MonitoringRoom.generateAFKNotifications]) and the inline lead update
    of the salesman screen ([SalesmanNotifications.handleStatusUpdate]).

    Timestamps are milliseconds since the epoch, as [Date.getTime] gives
    them; the database compares timestamp columns by instant, so the ISO
    strings of the source are the integers they denote.  A query of the
    supabase client settles in one of three ways ([Reply]); which one is
    fixed per query by the [faults] of the [Backend], so that every error
    path of the source can be exercised.

    The properties are numbered C1 to C10 after the statements of the
    specification they settle.  Where a statement does not hold of the code
    as written, the theorem proves the form that does hold and a closed
    lemma gives an input at which the statement fails. *)

From Stdlib Require Import ZArith List String Ascii Bool Lia DecimalString.
From Stdlib Require Import Sorted Permutation.
Import ListNotations.

Local Open Scope string_scope.
Local Open Scope Z_scope.
Local Open Scope list_scope.

(** ** JavaScript helpers *)

Module Js.

(** [`${n}`] for a length. *)
Definition toString (n : nat) : string :=
  NilZero.string_of_uint (Nat.to_uint n).

(** [a || b] on strings: the empty string is falsy. *)
Definition or_else (a : option string) (b : string) : string :=
  match a with
  | Some s => if String.eqb s "" then b else s
  | None => b
  end.

(** [arr.slice(0, n)]. *)
Definition slice0 {A : Type} (n : nat) (arr : list A) : list A := firstn n arr.

Definition includes (x : string) (l : list string) : bool :=
  existsb (String.eqb x) l.

(** [[...new Set(arr)]]: insertion order, first occurrence kept. *)
Fixpoint uniq (seen : list string) (arr : list string) : list string :=
  match arr with
  | [] => []
  | x :: rest =>
      if includes x seen then uniq seen rest else x :: uniq (x :: seen) rest
  end.

Definition spreadSet (arr : list string) : list string := uniq [] arr.

(** [s.split('@')[0]]. *)
Fixpoint beforeAt (s : string) : string :=
  match s with
  | EmptyString => EmptyString
  | String c rest => if Ascii.eqb c "@"%char then EmptyString else String c (beforeAt rest)
  end.

End Js.

(** ** Data model *)

Definition Timestamp := Z.

(** A row of table [leads]. *)
Record Lead := mkLead {
  lead_id : string;
  lead_user_id : option string;
  lead_name : string;
  lead_company : string;
  lead_phone : string;
  lead_status : string;
  lead_call_status : string;
  lead_last_contact : Timestamp;
  lead_created_at : Timestamp
}.

(** What a [select('id, name, company, ...')] returns for a lead: the
    columns that were not selected are absent. *)
Record LeadSummary := mkSummary {
  sum_id : string;
  sum_name : string;
  sum_company : string;
  sum_last_contact : option Timestamp;
  sum_call_status : option string;
  sum_created_at : option Timestamp
}.

(** A row of table [user_roles]. *)
Record UserRole := mkUserRole {
  role_user_id : string;
  role_email : string
}.

(** A row of table [activity_logs]. *)
Record ActivityLog := mkActivity {
  act_user_email : string;
  act_timestamp : Timestamp
}.

Inductive NotificationType := stale_lead | no_calls | inactive_salesman.

Inductive Priority := low | medium | high.

(** The [data] payload is free-form JSON; these are the values the
    generators put in it. *)
Inductive Json :=
| JNumber (z : Z)
| JString (s : string)
| JTimestamp (t : Z)
| JNull
| JLeads (leads : list LeadSummary).

(** The object literal pushed on [notifications]. *)
Record Notification := mkNotification {
  n_type : NotificationType;
  n_title : string;
  n_message : string;
  n_salesman_id : string;
  n_salesman_email : string;
  n_priority : Priority;
  n_data : list (string * Json)
}.

(** [{ ...n, is_read: false }]: what is sent to [insert]. *)
Record NewRow := mkNewRow {
  new_notification : Notification;
  new_is_read : bool
}.

(** A row of table [admin_notifications]: the database adds the primary
    key and the creation time.  Keys are numbered; key [0] stands for the
    nil uuid [00000000-0000-0000-0000-000000000000]. *)
Record Row := mkRow {
  row_id : nat;
  row_created_at : Timestamp;
  row_is_read : bool;
  row_notification : Notification
}.

Record Store := mkStore {
  rows : list Row;
  next_id : nat
}.

(** ** The supabase client *)

Inductive Fault :=
| Healthy
| Fails (message : string)      (* the call resolves to [{ data: null, error }] *)
| Rejects (message : string).   (* the awaited promise rejects: an exception *)

Inductive Query :=
| SelectUserIds
| SelectEmail (userId : string)
| SelectOverdue (userId : string)
| SelectStale (userId : string)
| SelectUncalled (userId : string)
| DeleteNotifications
| InsertNotifications
| UpdateNotifications
| SelectUserRole (email : string)
| SelectRecentActivity (email : string)
| CountActivity (email : string)
| UpdateLead.

Record Backend := mkBackend {
  leads : list Lead;
  user_roles : list UserRole;
  activity_logs : list ActivityLog;
  faults : Query -> Fault
}.

Inductive Reply (A : Type) :=
| Data (data : A)
| Error (error : string)
| Rejected (reason : string).

Arguments Data {A} data.
Arguments Error {A} error.
Arguments Rejected {A} reason.

Definition run_query {A : Type} (be : Backend) (q : Query) (result : A) : Reply A :=
  match faults be q with
  | Healthy => Data result
  | Fails e => Error e
  | Rejects e => Rejected e
  end.

(** [const { data } = ...]. *)
Definition data_of {A : Type} (r : Reply A) : option A :=
  match r with Data d => Some d | _ => None end.

(** [const { error } = ...]. *)
Definition error_of {A : Type} (r : Reply A) : option string :=
  match r with Error e => Some e | _ => None end.

(** *** Filters of the query builder *)

Definition eq_user_id (userId : string) (l : Lead) : bool :=
  match lead_user_id l with
  | Some u => String.eqb u userId
  | None => false
  end.

Definition neq_status (s : string) (l : Lead) : bool :=
  negb (String.eqb (lead_status l) s).

Definition lt_last_contact (t : Timestamp) (l : Lead) : bool :=
  lead_last_contact l <? t.

Definition lt_created_at (t : Timestamp) (l : Lead) : bool :=
  lead_created_at l <? t.

Definition eq_call_status (s : string) (l : Lead) : bool :=
  String.eqb (lead_call_status l) s.

(** [.select('user_id').not('user_id', 'is', null)]. *)
Fixpoint select_user_ids (ls : list Lead) : list string :=
  match ls with
  | [] => []
  | l :: rest =>
      match lead_user_id l with
      | Some u => u :: select_user_ids rest
      | None => select_user_ids rest
      end
  end.

(** [.single()]: exactly one row, or an error. *)
Definition single {A : Type} (found : list A) : Reply A :=
  match found with
  | [r] => Data r
  | _ => Error "JSON object requested, multiple (or no) rows returned"
  end.

(** [.maybeSingle()]: no row is [null], several rows are an error. *)
Definition maybeSingle {A : Type} (found : list A) : Reply (option A) :=
  match found with
  | [] => Data None
  | [r] => Data (Some r)
  | _ => Error "JSON object requested, multiple (or no) rows returned"
  end.

(** [.from('user_roles').select('email').eq('user_id', userId).single()]. *)
Definition select_email (be : Backend) (userId : string) : Reply UserRole :=
  match faults be (SelectEmail userId) with
  | Healthy =>
      single (filter (fun r => String.eqb (role_user_id r) userId) (user_roles be))
  | Fails e => Error e
  | Rejects e => Rejected e
  end.

(** *** Table [admin_notifications] *)

Fixpoint number_rows (id : nat) (created_at : Timestamp) (news : list NewRow) : list Row :=
  match news with
  | [] => []
  | n :: rest =>
      mkRow id created_at (new_is_read n) (new_notification n)
        :: number_rows (S id) created_at rest
  end.

(** [.insert(news)] at database time [t]. *)
Definition insert_rows (t : Timestamp) (news : list NewRow) (s : Store) : Store :=
  mkStore (rows s ++ number_rows (next_id s) t news)
          (next_id s + List.length news)%nat.

(** [.delete()] of the rows a filter matches. *)
Definition delete_where (matches : Row -> bool) (s : Store) : Store :=
  mkStore (filter (fun r => negb (matches r)) (rows s)) (next_id s).

(** [.update({ is_read: true })] of the rows a filter matches. *)
Definition update_is_read (matches : Row -> bool) (s : Store) : Store :=
  mkStore
    (map (fun r =>
            if matches r
            then mkRow (row_id r) (row_created_at r) true (row_notification r)
            else r)
         (rows s))
    (next_id s).

Definition gte_created_at (t : Timestamp) (r : Row) : bool := t <=? row_created_at r.
Definition lt_row_created_at (t : Timestamp) (r : Row) : bool := row_created_at r <? t.
Definition neq_id (id : nat) (r : Row) : bool := negb (Nat.eqb (row_id r) id).
Definition eq_id (id : nat) (r : Row) : bool := Nat.eqb (row_id r) id.
Definition eq_is_read (b : bool) (r : Row) : bool := Bool.eqb (row_is_read r) b.

(** [notifications.map(n => ({ ...n, is_read: false }))]. *)
Definition with_is_read_false (notifications : list Notification) : list NewRow :=
  map (fun n => mkNewRow n false) notifications.

(** ** Console and control flow *)

(** Only [console.error] lines are kept: the progress lines written with
    [console.log] carry no decision. *)
Inductive LogEntry :=
| ConsoleError (label : string) (error : string).

(** How a block of statements ends. *)
Inductive Completion (A : Type) :=
| Normal (value : A)
| Continue                      (* [continue] of the enclosing loop *)
| Throw (error : string).

Arguments Normal {A} value.
Arguments Continue {A}.
Arguments Throw {A} error.

Definition Eff (A : Type) : Type := (list LogEntry * Completion A)%type.

Definition ret {A : Type} (a : A) : Eff A := ([], Normal a).

Definition bind {A B : Type} (m : Eff A) (k : A -> Eff B) : Eff B :=
  match m with
  | (l1, Normal a) => let (l2, c) := k a in (l1 ++ l2, c)
  | (l1, Continue) => (l1, Continue)
  | (l1, Throw e) => (l1, Throw e)
  end.

Notation "x <- m ;; k" := (bind m (fun x => k))
  (at level 61, m at next level, right associativity).
Notation "m ;;; k" := (bind m (fun _ => k))
  (at level 61, right associativity).

Definition console_error (label error : string) : Eff unit :=
  ([ConsoleError label error], Normal tt).

Definition continue {A : Type} : Eff A := ([], Continue).

Definition throw {A : Type} (e : string) : Eff A := ([], Throw e).

(** [await query]: a rejected promise throws at the [await]. *)
Definition await {A : Type} (r : Reply A) : Eff (Reply A) :=
  match r with
  | Rejected e => throw e
  | _ => ret r
  end.

(** [try { body } catch (error) { handler }]; a [continue] leaves the
    [try] block and goes on with the next iteration. *)
Definition try_catch {A : Type} (body : Eff A) (handler : string -> Eff A) : Eff A :=
  match body with
  | (l1, Throw e) => let (l2, c) := handler e in (l1 ++ l2, c)
  | other => other
  end.

(** The per-salesman loop [for (const x of items) { body }] where the body
    pushes on the shared [notifications] array: a [continue] goes on with
    the next item, an exception that escapes the body ends the loop. *)
Fixpoint for_of {A : Type} (items : list string) (body : string -> Eff (list A))
  : Eff (list A) :=
  match items with
  | [] => ret []
  | x :: rest =>
      match body x with
      | (l, Throw e) => (l, Throw e)
      | (l, Continue) =>
          let (l', c) := for_of rest body in (l ++ l', c)
      | (l, Normal pushed) =>
          let (l', c) := for_of rest body in
          (l ++ l',
           match c with
           | Normal more => Normal (pushed ++ more)
           | Continue => Continue
           | Throw e => Throw e
           end)
      end
  end.

(** Statements that also read or write table [admin_notifications]. *)
Definition Task (A : Type) : Type := Store -> Store * Eff A.

Definition tret {A : Type} (a : A) : Task A := fun s => (s, ret a).

Definition lift {A : Type} (m : Eff A) : Task A := fun s => (s, m).

Definition tbind {A B : Type} (m : Task A) (k : A -> Task B) : Task B :=
  fun s =>
    match m s with
    | (s1, (l1, Normal a)) =>
        match k a s1 with
        | (s2, (l2, c)) => (s2, (l1 ++ l2, c))
        end
    | (s1, (l1, Continue)) => (s1, (l1, Continue))
    | (s1, (l1, Throw e)) => (s1, (l1, Throw e))
    end.

Notation "x <~ m ;; k" := (tbind m (fun x => k))
  (at level 61, m at next level, right associativity).
Notation "m ~;; k" := (tbind m (fun _ => k))
  (at level 61, right associativity).

Definition ttry_catch {A : Type} (body : Task A) (handler : string -> Task A) : Task A :=
  fun s =>
    match body s with
    | (s1, (l1, Throw e)) =>
        match handler e s1 with
        | (s2, (l2, c)) => (s2, (l1 ++ l2, c))
        end
    | other => other
    end.

(** A statement on table [admin_notifications]: a healthy one changes the
    table, a failed or rejected one leaves it as it was. *)
Definition statement (be : Backend) (q : Query) (change : Store -> Store)
  : Task (Reply unit) :=
  fun s =>
    match faults be q with
    | Healthy => (change s, ret (Data tt))
    | Fails e => (s, ret (Error e))
    | Rejects e => (s, throw e)
    end.

(** ** HTTP responses *)

(** [BodySuccess n u] is the JSON object
    [{ success: true, notifications_created: n, users_processed: u }]
    (the last field only where the function sends it), [BodyError m] is
    [{ error: m }]. *)
Inductive Body :=
| BodyText (text : string)
| BodySuccess (notifications_created : nat) (users_processed : option nat)
| BodyError (error : string).

Record Response := mkResponse {
  status : Z;
  body : Body
}.

(** The clock readings of one invocation: [clock_start] is the reading taken
    once per run, [clock_user] the one taken inside the loop for a
    salesman, [clock_insert] the database time that becomes [created_at]
    of the inserted rows. *)
Record Clock := mkClock {
  clock_start : Timestamp;
  clock_user : string -> Timestamp;
  clock_insert : Timestamp
}.

(** The columns each generator selects. *)
Definition select_contact_call (l : Lead) : LeadSummary :=
  mkSummary (lead_id l) (lead_name l) (lead_company l)
            (Some (lead_last_contact l)) (Some (lead_call_status l)) None.

Definition select_created (l : Lead) : LeadSummary :=
  mkSummary (lead_id l) (lead_name l) (lead_company l)
            None None (Some (lead_created_at l)).

Definition select_contact (l : Lead) : LeadSummary :=
  mkSummary (lead_id l) (lead_name l) (lead_company l)
            (Some (lead_last_contact l)) None None.

(** The two staleness filters are written the same way at every call site:
    [.eq('user_id', userId).lt('last_contact', t)
     .neq('status', 'closed-won').neq('status', 'closed-lost')]. *)
Definition not_contacted_since (userId : string) (t : Timestamp) (l : Lead) : bool :=
  eq_user_id userId l
  && lt_last_contact t l
  && neq_status "closed-won" l
  && neq_status "closed-lost" l.

(** [.eq('user_id', userId).eq('call_status', 'not_called')
     .lt('created_at', t)]. *)
Definition never_called_since (userId : string) (t : Timestamp) (l : Lead) : bool :=
  eq_user_id userId l
  && eq_call_status "not_called" l
  && lt_created_at t l.

(** ** supabase/functions/generate-admin-notifications/index.ts *)

Module GenerateAdminNotifications.

Definition overdueLeads (be : Backend) (userId : string) (now : Timestamp)
  : list LeadSummary :=
  let fourDaysAgo := now - 4 * 24 * 60 * 60 * 1000 in
  map select_contact_call (filter (not_contacted_since userId fourDaysAgo) (leads be)).

Definition staleLeads (be : Backend) (userId : string) (now : Timestamp)
  : list LeadSummary :=
  let twoWeeksAgo := now - 14 * 24 * 60 * 60 * 1000 in
  map select_contact_call (filter (not_contacted_since userId twoWeeksAgo) (leads be)).

Definition uncalledLeads (be : Backend) (userId : string) (now : Timestamp)
  : list LeadSummary :=
  let twoWeeksAgo := now - 14 * 24 * 60 * 60 * 1000 in
  map select_created (filter (never_called_since userId twoWeeksAgo) (leads be)).

Definition overdue_priority (count : nat) : Priority :=
  if (20 <? count)%nat then high else if (10 <? count)%nat then medium else low.

Definition uncalled_priority (count : nat) : Priority :=
  if (5 <? count)%nat then high else if (2 <? count)%nat then medium else low.

Definition overdue_notification (userId userEmail : string) (found : list LeadSummary)
  : Notification :=
  let n := Js.toString (List.length found) in
  {| n_type := stale_lead;
     n_title := ("📈 " ++ n ++ " Overdue Leads (4+ Days) - " ++ userEmail)%string;
     n_message := (userEmail ++ " has " ++ n ++ " leads not contacted in 4+ days. Regular follow-up needed to keep leads warm.")%string;
     n_salesman_id := userId;
     n_salesman_email := userEmail;
     n_priority := overdue_priority (List.length found);
     n_data := [ ("count", JNumber (Z.of_nat (List.length found)));
                 ("leads", JLeads (Js.slice0 10 found));
                 ("days_overdue", JNumber 4);
                 ("notification_type", JString "overdue_leads") ] |}.

Definition stale_notification (userId userEmail : string) (found : list LeadSummary)
  : Notification :=
  let n := Js.toString (List.length found) in
  {| n_type := stale_lead;
     n_title := ("🚨 CRITICAL: " ++ n ++ " Stale Leads (2+ Weeks) - " ++ userEmail)%string;
     n_message := (userEmail ++ " has " ++ n ++ " leads not contacted in 2+ weeks. URGENT: These leads are at high risk of being lost!")%string;
     n_salesman_id := userId;
     n_salesman_email := userEmail;
     n_priority := high;
     n_data := [ ("count", JNumber (Z.of_nat (List.length found)));
                 ("leads", JLeads (Js.slice0 10 found));
                 ("days_overdue", JNumber 14);
                 ("notification_type", JString "stale_leads") ] |}.

Definition uncalled_notification (userId userEmail : string) (found : list LeadSummary)
  : Notification :=
  let n := Js.toString (List.length found) in
  {| n_type := no_calls;
     n_title := ("📞 " ++ n ++ " Uncalled Leads - " ++ userEmail)%string;
     n_message := (userEmail ++ " has " ++ n ++ " leads that have never been called (2+ weeks old). Initial contact is critical.")%string;
     n_salesman_id := userId;
     n_salesman_email := userEmail;
     n_priority := uncalled_priority (List.length found);
     n_data := [ ("count", JNumber (Z.of_nat (List.length found)));
                 ("leads", JLeads (Js.slice0 10 found));
                 ("days_old", JNumber 14);
                 ("notification_type", JString "uncalled_leads") ] |}.

(** [if (found && found.length > 0) notifications.push(make(found))]. *)
Definition push_if_any (make : list LeadSummary -> Notification)
           (found : list LeadSummary) : list Notification :=
  if (0 <? List.length found)%nat then [make found] else [].

(** [if (error) { console.error(label, error); continue }]. *)
Definition or_continue {A : Type} (label : string) (r : Reply A) : Eff A :=
  match r with
  | Data d => ret d
  | Error e => console_error label e ;;; continue
  | Rejected e => throw e
  end.

Definition userEmail (userId : string) (userRole : option UserRole) : string :=
  Js.or_else (option_map role_email userRole) ("user-" ++ userId ++ "@unknown.com")%string.

(** The body of the [try] block of one loop iteration (lines 50-159). *)
Definition process_user (be : Backend) (now : Timestamp) (userId : string)
  : Eff (list Notification) :=
  r <- await (select_email be userId) ;;
  let email := userEmail userId (data_of r) in
  overdue <- await (run_query be (SelectOverdue userId) (overdueLeads be userId now)) ;;
  overdue <- or_continue ("Error fetching overdue leads for " ++ email ++ ":")%string overdue ;;
  stale <- await (run_query be (SelectStale userId) (staleLeads be userId now)) ;;
  stale <- or_continue ("Error fetching stale leads for " ++ email ++ ":")%string stale ;;
  uncalled <- await (run_query be (SelectUncalled userId) (uncalledLeads be userId now)) ;;
  uncalled <- or_continue ("Error fetching uncalled leads for " ++ email ++ ":")%string uncalled ;;
  ret (push_if_any (overdue_notification userId email) overdue
       ++ push_if_any (stale_notification userId email) stale
       ++ push_if_any (uncalled_notification userId email) uncalled).

(** One loop iteration: the [try] block and its [catch] (lines 49-163). *)
Definition iteration (be : Backend) (clock : Clock) (userId : string)
  : Eff (list Notification) :=
  try_catch (process_user be (clock_user clock userId) userId)
    (fun error =>
       console_error ("Error processing user " ++ userId ++ ":")%string error ;;;
       ret []).

(** The [try] block of the handler (lines 15-192). *)
Definition generate (be : Backend) (clock : Clock) : Task Response :=
  deleted <~ statement be DeleteNotifications
               (delete_where (gte_created_at (clock_start clock - 24 * 60 * 60 * 1000))) ;;
  match error_of deleted with
  | Some deleteError => lift (console_error "Error clearing old notifications:" deleteError)
  | None => tret tt
  end ~;;
  userIds <~ lift (await (run_query be SelectUserIds (select_user_ids (leads be)))) ;;
  match userIds with
  | Error userIdsError => lift (throw userIdsError)
  | Rejected e => lift (throw e)
  | Data userIds =>
      let uniqueUserIds := Js.spreadSet userIds in
      notifications <~ lift (for_of uniqueUserIds (iteration be clock)) ;;
      (if (0 <? List.length notifications)%nat
       then
         inserted <~ statement be InsertNotifications
                       (insert_rows (clock_insert clock) (with_is_read_false notifications)) ;;
         match error_of inserted with
         | Some insertError =>
             lift (console_error "Error inserting notifications:" insertError) ~;;
             lift (throw insertError)
         | None => tret tt
         end
       else tret tt) ~;;
      tret (mkResponse 200
              (BodySuccess (List.length notifications)
                           (Some (List.length uniqueUserIds))))
  end.

Definition serve (method : string) (be : Backend) (clock : Clock) : Task Response :=
  if String.eqb method "OPTIONS"
  then tret (mkResponse 200 (BodyText "ok"))
  else
    ttry_catch (generate be clock)
      (fun error =>
         lift (console_error "Error in generate-admin-notifications:" error) ~;;
         tret (mkResponse 500 (BodyError error))).

End GenerateAdminNotifications.

(** ** supabase/functions/auto-generate-notifications/index.ts *)

Module AutoGenerateNotifications.

Definition overdueLeads (be : Backend) (userId : string) (now : Timestamp)
  : list LeadSummary :=
  let fourDaysAgo := now - 4 * 24 * 60 * 60 * 1000 in
  map select_contact (filter (not_contacted_since userId fourDaysAgo) (leads be)).

Definition staleLeads (be : Backend) (userId : string) (now : Timestamp)
  : list LeadSummary :=
  let twoWeeksAgo := now - 14 * 24 * 60 * 60 * 1000 in
  map select_contact (filter (not_contacted_since userId twoWeeksAgo) (leads be)).

Definition overdue_priority (count : nat) : Priority :=
  if (10 <? count)%nat then high else medium.

Definition overdue_notification (userId userEmail : string) (found : list LeadSummary)
  : Notification :=
  let n := Js.toString (List.length found) in
  {| n_type := stale_lead;
     n_title := (n ++ " Overdue Leads - " ++ userEmail)%string;
     n_message := (userEmail ++ " has " ++ n ++ " leads not contacted in 4+ days")%string;
     n_salesman_id := userId;
     n_salesman_email := userEmail;
     n_priority := overdue_priority (List.length found);
     n_data := [ ("leads", JLeads (Js.slice0 5 found)) ] |}.

Definition stale_notification (userId userEmail : string) (found : list LeadSummary)
  : Notification :=
  let n := Js.toString (List.length found) in
  {| n_type := stale_lead;
     n_title := ("🚨 CRITICAL: " ++ n ++ " Stale Leads - " ++ userEmail)%string;
     n_message := (userEmail ++ " has " ++ n ++ " leads not contacted in 2+ weeks")%string;
     n_salesman_id := userId;
     n_salesman_email := userEmail;
     n_priority := high;
     n_data := [ ("leads", JLeads (Js.slice0 5 found)) ] |}.

(** [if (found && found.length > 0) notifications.push(make(found))]:
    here [found] is the [data] of a reply whose [error] is not looked at,
    [null] when the query failed. *)
Definition push_if_any (make : list LeadSummary -> Notification)
           (found : option (list LeadSummary)) : list Notification :=
  match found with
  | Some leads => if (0 <? List.length leads)%nat then [make leads] else []
  | None => []
  end.

Definition userEmail (userId : string) (userRole : option UserRole) : string :=
  Js.or_else (option_map role_email userRole) ("user-" ++ userId ++ "@unknown.com")%string.

(** The body of the [try] block of one loop iteration (lines 50-100). *)
Definition process_user (be : Backend) (now : Timestamp) (userId : string)
  : Eff (list Notification) :=
  r <- await (select_email be userId) ;;
  let email := userEmail userId (data_of r) in
  overdue <- await (run_query be (SelectOverdue userId) (overdueLeads be userId now)) ;;
  stale <- await (run_query be (SelectStale userId) (staleLeads be userId now)) ;;
  ret (push_if_any (overdue_notification userId email) (data_of overdue)
       ++ push_if_any (stale_notification userId email) (data_of stale)).

(** One loop iteration: the [try] block and its [catch] (lines 49-104). *)
Definition iteration (be : Backend) (now : Timestamp) (userId : string)
  : Eff (list Notification) :=
  try_catch (process_user be now userId)
    (fun error =>
       console_error ("Error processing user " ++ userId ++ ":")%string error ;;;
       ret []).

(** The [try] block of the handler (lines 15-129). *)
Definition generate (be : Backend) (clock : Clock) : Task Response :=
  userIds <~ lift (await (run_query be SelectUserIds (select_user_ids (leads be)))) ;;
  match userIds with
  | Error userIdsError => lift (throw userIdsError)
  | Rejected e => lift (throw e)
  | Data userIds =>
      let uniqueUserIds := Js.spreadSet userIds in
      let now := clock_start clock in
      statement be DeleteNotifications
        (delete_where (lt_row_created_at (now - 24 * 60 * 60 * 1000))) ~;;
      notifications <~ lift (for_of uniqueUserIds (iteration be now)) ;;
      (if (0 <? List.length notifications)%nat
       then
         inserted <~ statement be InsertNotifications
                       (insert_rows (clock_insert clock) (with_is_read_false notifications)) ;;
         match error_of inserted with
         | Some insertError =>
             lift (console_error "Error inserting notifications:" insertError)
         | None => tret tt
         end
       else tret tt) ~;;
      tret (mkResponse 200 (BodySuccess (List.length notifications) None))
  end.

Definition serve (method : string) (be : Backend) (clock : Clock) : Task Response :=
  if String.eqb method "OPTIONS"
  then tret (mkResponse 200 (BodyText "ok"))
  else
    ttry_catch (generate be clock)
      (fun error =>
         lift (console_error "Error in auto-generate-notifications:" error) ~;;
         tret (mkResponse 500 (BodyError error))).

End AutoGenerateNotifications.

(** ** The admin screen (component [AdminNotifications]) *)

Module AdminNotifications.

(** The screen builds the same two notifications as the
    auto-generate function (lines 470-492 against its lines 78-100). *)
Definition process_user := AutoGenerateNotifications.process_user.

Definition iteration (be : Backend) (now : Timestamp) (userId : string)
  : Eff (list Notification) :=
  try_catch (process_user be now userId)
    (fun error =>
       console_error ("Error processing user " ++ userId ++ ":")%string error ;;;
       ret []).

(** [generateNotifications]: the store is wiped first (every row whose
    [id] is not the nil uuid), then filled again.  The final
    [fetchNotifications] only reads the table into the component state
    and is not part of the model. *)
Definition generateNotifications (be : Backend) (clock : Clock) : Task unit :=
  ttry_catch
    (statement be DeleteNotifications (delete_where (neq_id 0)) ~;;
     userIds <~ lift (await (run_query be SelectUserIds (select_user_ids (leads be)))) ;;
     match userIds with
     | Error userIdsError => lift (throw userIdsError)
     | Rejected e => lift (throw e)
     | Data userIds =>
         let uniqueUserIds := Js.spreadSet userIds in
         let now := clock_start clock in
         notifications <~ lift (for_of uniqueUserIds (iteration be now)) ;;
         if (0 <? List.length notifications)%nat
         then
           inserted <~ statement be InsertNotifications
                         (insert_rows (clock_insert clock) (with_is_read_false notifications)) ;;
           match error_of inserted with
           | Some insertError =>
               lift (console_error "Error inserting notifications:" insertError)
           | None => tret tt
           end
         else tret tt
     end)
    (fun error => lift (console_error "Error generating notifications:" error)).

(** [markAsRead]: the reply of the update is not looked at. *)
Definition markAsRead (be : Backend) (notificationId : nat) : Task unit :=
  ttry_catch
    (statement be UpdateNotifications (update_is_read (eq_id notificationId)) ~;;
     tret tt)
    (fun error => lift (console_error "Error marking notification as read:" error)).

Definition markAllAsRead (be : Backend) : Task unit :=
  ttry_catch
    (statement be UpdateNotifications (update_is_read (eq_is_read false)) ~;;
     tret tt)
    (fun error => lift (console_error "Error marking all as read:" error)).

(** [handleConfirmDelete] for the notification the dialog was opened on. *)
Definition handleConfirmDelete (be : Backend) (notificationId : nat) : Task unit :=
  ttry_catch
    (statement be DeleteNotifications (delete_where (eq_id notificationId)) ~;;
     tret tt)
    (fun error => lift (console_error "Error deleting notification:" error)).

End AdminNotifications.

(** ** The monitoring screen (component [MonitoringRoom]) *)

Module MonitoringRoom.

Inductive OnlineStatus := online | idle | afk | offline.

Definition OnlineStatus_eqb (a b : OnlineStatus) : bool :=
  match a, b with
  | online, online | idle, idle | afk, afk | offline, offline => true
  | _, _ => false
  end.

Record Salesman := mkSalesman {
  user_id : string;
  email : string;
  last_activity : option Timestamp;
  total_actions : nat;
  online_status : OnlineStatus
}.

Definition AFK_THRESHOLD : Z := 10 * 60 * 1000.
Definition IDLE_THRESHOLD : Z := 30 * 60 * 1000.

Definition salesmenEmails : list string :=
  [ "jukka@envaire.com"; "tuomas@envaire.com"; "jesse@envaire.com"; "tuukka@envaire.com" ].

(** Lines 171-193: the status ladder. *)
Definition onlineStatus (isOnline : bool) (lastActivity : option Timestamp)
           (now : Timestamp) : OnlineStatus :=
  match isOnline, lastActivity with
  | true, Some lastActivityTime =>
      let timeDiff := now - lastActivityTime in
      if timeDiff <? 5 * 60 * 1000 then online
      else if timeDiff <? AFK_THRESHOLD then idle
      else if timeDiff <? IDLE_THRESHOLD then afk
      else idle
  | true, None => online
  | false, Some _ => offline
  | false, None => offline
  end.

(** [.eq('user_email', email).order('timestamp', { ascending: false })
     .limit(1)]: the latest timestamp, if any. *)
Fixpoint latest (ts : list Timestamp) : option Timestamp :=
  match ts with
  | [] => None
  | t :: rest =>
      match latest rest with
      | Some m => Some (Z.max t m)
      | None => Some t
      end
  end.

Definition timestamps_of (be : Backend) (mail : string) : list Timestamp :=
  map act_timestamp
      (filter (fun a => String.eqb (act_user_email a) mail) (activity_logs be)).

(** The session record: the [user_roles] row of the email.  A failed or
    rejected lookup leaves [userRole] undefined (the rejection is caught
    and reported with [console.log]). *)
Definition userRole (be : Backend) (mail : string) : option UserRole :=
  match run_query be (SelectUserRole mail) tt with
  | Data _ =>
      match maybeSingle (filter (fun r => String.eqb (role_email r) mail) (user_roles be)) with
      | Data found => found
      | _ => None
      end
  | _ => None
  end.

Definition lastActivity (be : Backend) (mail : string) : option Timestamp :=
  match run_query be (SelectRecentActivity mail) (latest (timestamps_of be mail)) with
  | Data found => found
  | _ => None
  end.

(** [count || 0] of today's activity. *)
Definition activityCount (be : Backend) (today : Timestamp) (mail : string) : nat :=
  match run_query be (CountActivity mail)
          (List.length (filter (fun t => today <=? t) (timestamps_of be mail))) with
  | Data count => count
  | _ => 0%nat
  end.

(** One iteration of the loop of [fetchSalesmen] (lines 112-202). *)
Definition salesman_of (be : Backend) (clock : Clock) (today : Timestamp)
           (mail : string) : Salesman :=
  let role := userRole be mail in
  let userId :=
    match role with
    | Some r => role_user_id r
    | None => ("demo-" ++ Js.beforeAt mail)%string
    end in
  let isOnline := match role with Some _ => true | None => false end in
  let last := lastActivity be mail in
  {| user_id := userId;
     email := mail;
     last_activity := last;
     total_actions := activityCount be today mail;
     online_status := onlineStatus isOnline last (clock_user clock mail) |}.

(** [fetchSalesmen]: the value given to [setSalesmen]. *)
Definition fetchSalesmen (be : Backend) (clock : Clock) (today : Timestamp)
  : list Salesman :=
  map (salesman_of be clock today) salesmenEmails.

Definition afk_notification (salesman : Salesman) : Notification :=
  {| n_type := inactive_salesman;
     n_title := ("🚨 AFK Alert: " ++ email salesman)%string;
     n_message := (email salesman ++ " has been inactive for over 10 minutes. They may need attention.")%string;
     n_salesman_id := user_id salesman;
     n_salesman_email := email salesman;
     n_priority := medium;
     n_data := [ ("last_activity",
                  match last_activity salesman with
                  | Some t => JTimestamp t
                  | None => JNull
                  end);
                 ("total_actions_today", JNumber (Z.of_nat (total_actions salesman)));
                 ("notification_type", JString "afk_detection") ] |}.

Definition is_afk (s : Salesman) : bool := OnlineStatus_eqb (online_status s) afk.

(** [generateAFKNotifications] (lines 214-252). *)
Definition generateAFKNotifications (be : Backend) (clock : Clock)
           (isAdmin : bool) (salesmen : list Salesman) : Task unit :=
  if negb isAdmin then tret tt
  else
    ttry_catch
      (let afkSalesmen := filter is_afk salesmen in
       if (0 <? List.length afkSalesmen)%nat
       then
         let notifications := map afk_notification afkSalesmen in
         inserted <~ statement be InsertNotifications
                       (insert_rows (clock_insert clock) (with_is_read_false notifications)) ;;
         match error_of inserted with
         | Some error => lift (console_error "Error creating AFK notifications:" error)
         | None => tret tt
         end
       else tret tt)
      (fun error => lift (console_error "Error generating AFK notifications:" error)).

(** Lines 255-263: the two-minute timer is armed only for an admin; what
    one expiry of the timer runs, when there is a timer. *)
Definition afkCheckInterval (be : Backend) (clock : Clock)
           (isAdmin : bool) (salesmen : list Salesman) : option (Task unit) :=
  if negb isAdmin then None
  else Some (generateAFKNotifications be clock isAdmin salesmen).

End MonitoringRoom.

(** ** The salesman screen (src/components/SalesmanNotifications.tsx) *)

Module SalesmanNotifications.

(** [field: 'status' | 'call_status']. *)
Inductive Field := status_field | call_status_field.

(** The object given to [update]: the columns it names. *)
Record UpdateData := mkUpdate {
  set_status : option string;
  set_call_status : option string;
  set_last_contact : option Timestamp
}.

(** Lines 173-178. *)
Definition updateData (field : Field) (value : string) (now : Timestamp) : UpdateData :=
  let named :=
    match field with
    | status_field => mkUpdate (Some value) None None
    | call_status_field => mkUpdate None (Some value) None
    end in
  match field with
  | call_status_field =>
      if String.eqb value "answered"
      then mkUpdate (set_status named) (set_call_status named) (Some now)
      else named
  | status_field => named
  end.

Definition or_keep {A : Type} (new : option A) (old : A) : A :=
  match new with Some v => v | None => old end.

(** What the database does to one row for [update(data)]. *)
Definition apply_update (data : UpdateData) (l : Lead) : Lead :=
  {| lead_id := lead_id l;
     lead_user_id := lead_user_id l;
     lead_name := lead_name l;
     lead_company := lead_company l;
     lead_phone := lead_phone l;
     lead_status := or_keep (set_status data) (lead_status l);
     lead_call_status := or_keep (set_call_status data) (lead_call_status l);
     lead_last_contact := or_keep (set_last_contact data) (lead_last_contact l);
     lead_created_at := lead_created_at l |}.

(** [.from('leads').update(data).eq('id', leadId)]. *)
Definition update_leads (data : UpdateData) (leadId : string) (table : list Lead)
  : list Lead :=
  map (fun l => if String.eqb (lead_id l) leadId then apply_update data l else l) table.

(** [handleStatusUpdate] (lines 171-195): the table [leads] afterwards and
    what was reported.  The closing [generateNotifications] reads the
    table into the component state and writes nothing. *)
Definition handleStatusUpdate (be : Backend) (now : Timestamp)
           (leadId : string) (field : Field) (value : string)
  : list Lead * Eff unit :=
  let data := updateData field value now in
  match faults be UpdateLead with
  | Healthy => (update_leads data leadId (leads be), ret tt)
  | Fails error => (leads be, console_error "Error updating lead:" error)
  | Rejects error => (leads be, console_error "Error updating lead:" error)
  end.

End SalesmanNotifications.

(** ** Vocabulary of the properties *)

(** What a block has written on the console, and what it pushed on
    [notifications] when it ended normally. *)
Definition logged {A : Type} (m : Eff A) : list LogEntry := fst m.

Definition pushed {A : Type} (m : Eff (list A)) : list A :=
  match snd m with
  | Normal ns => ns
  | _ => []
  end.

Definition throws {A : Type} (m : Eff A) : Prop :=
  exists e, snd m = Throw e.

(** The backend with the same tables and other faults. *)
Definition with_faults (be : Backend) (f : Query -> Fault) : Backend :=
  mkBackend (leads be) (user_roles be) (activity_logs be) f.

(** The queries one loop iteration issues for a salesman. *)
Definition concerns (userId : string) (q : Query) : bool :=
  match q with
  | SelectEmail u | SelectOverdue u | SelectStale u | SelectUncalled u =>
      String.eqb u userId
  | _ => false
  end.

(** What the table holds, without the keys and times the database adds. *)
Definition contents (s : Store) : list NewRow :=
  map (fun r => mkNewRow (row_notification r) (row_is_read r)) (rows s).

(** No stored row carries the nil uuid, and none will be given it. *)
Definition proper_keys (s : Store) : Prop :=
  Forall (fun r => row_id r <> 0%nat) (rows s) /\ next_id s <> 0%nat.

(** The leads named by the [data.leads] sample of a notification. *)
Fixpoint sample (data : list (string * Json)) : list LeadSummary :=
  match data with
  | [] => []
  | (_, JLeads ls) :: rest => ls ++ sample rest
  | _ :: rest => sample rest
  end.

Definition days (n : Z) : Z := n * 24 * 60 * 60 * 1000.
Definition minutes (n : Z) : Z := n * 60 * 1000.

(** Elapsed time since a lead was last contacted. *)
Definition elapsed (now : Timestamp) (l : Lead) : Z := now - lead_last_contact l.

Definition closed (l : Lead) : Prop :=
  lead_status l = "closed-won" \/ lead_status l = "closed-lost".

(** The notifications one run of each generator collects in its loop. *)
Definition collected_admin (be : Backend) (clock : Clock) : list Notification :=
  pushed (for_of (Js.spreadSet (select_user_ids (leads be)))
                 (GenerateAdminNotifications.iteration be clock)).

Definition collected_auto (be : Backend) (clock : Clock) : list Notification :=
  pushed (for_of (Js.spreadSet (select_user_ids (leads be)))
                 (AutoGenerateNotifications.iteration be (clock_start clock))).

Definition collected_screen (be : Backend) (clock : Clock) : list Notification :=
  pushed (for_of (Js.spreadSet (select_user_ids (leads be)))
                 (AdminNotifications.iteration be (clock_start clock))).

(** [id] is the primary key of table [leads]. *)
Definition primary_key (be : Backend) : Prop := NoDup (map lead_id (leads be)).

(** A lead is in a bucket when the bucket has a row with its [id]. *)
Definition in_bucket (l : Lead) (bucket : list LeadSummary) : Prop :=
  In (lead_id l) (map sum_id bucket).

(** Every query of the loop iteration of a salesman is answered. *)
Definition healthy_for (be : Backend) (userId : string) : Prop :=
  forall q, concerns userId q = true -> faults be q = Healthy.

(** The address the generators use for a salesman. *)
Definition email_of (be : Backend) (userId : string) : string :=
  GenerateAdminNotifications.userEmail userId (data_of (select_email be userId)).

(** What the loop of each generator wrote on the console. *)
Definition loop_log_admin (be : Backend) (clock : Clock) : list LogEntry :=
  logged (for_of (Js.spreadSet (select_user_ids (leads be)))
                 (GenerateAdminNotifications.iteration be clock)).

Definition loop_log_auto (be : Backend) (clock : Clock) : list LogEntry :=
  logged (for_of (Js.spreadSet (select_user_ids (leads be)))
                 (AutoGenerateNotifications.iteration be (clock_start clock))).

Definition loop_log_screen (be : Backend) (clock : Clock) : list LogEntry :=
  logged (for_of (Js.spreadSet (select_user_ids (leads be)))
                 (AdminNotifications.iteration be (clock_start clock))).

(** The table after the deletion step of each generator: a deletion that
    fails removes nothing. *)
Definition cleared_admin (be : Backend) (clock : Clock) (s : Store) : Store :=
  match faults be DeleteNotifications with
  | Healthy => delete_where (gte_created_at (clock_start clock - 24 * 60 * 60 * 1000)) s
  | _ => s
  end.

Definition cleared_auto (be : Backend) (clock : Clock) (s : Store) : Store :=
  match faults be DeleteNotifications with
  | Healthy => delete_where (lt_row_created_at (clock_start clock - 24 * 60 * 60 * 1000)) s
  | _ => s
  end.

Definition cleared_screen (be : Backend) (s : Store) : Store :=
  match faults be DeleteNotifications with
  | Healthy => delete_where (neq_id 0) s
  | _ => s
  end.

Definition clear_log_admin (be : Backend) : list LogEntry :=
  match faults be DeleteNotifications with
  | Fails e => [ConsoleError "Error clearing old notifications:" e]
  | _ => []
  end.

(** The three lead queries of generate-admin-notifications for a
    salesman. *)
Definition lead_query (userId : string) (q : Query) : Prop :=
  q = SelectOverdue userId \/ q = SelectStale userId \/ q = SelectUncalled userId.

(** The statements on table [admin_notifications] and the query for the
    user ids are answered. *)
Definition store_healthy (be : Backend) : Prop :=
  faults be SelectUserIds = Healthy
  /\ faults be DeleteNotifications = Healthy
  /\ faults be InsertNotifications = Healthy.

(** The table after one run of each generator. *)
Definition after_admin (be : Backend) (clock : Clock) (s : Store) : Store :=
  fst (GenerateAdminNotifications.serve "POST" be clock s).

Definition after_auto (be : Backend) (clock : Clock) (s : Store) : Store :=
  fst (AutoGenerateNotifications.serve "POST" be clock s).

Definition after_screen (be : Backend) (clock : Clock) (s : Store) : Store :=
  fst (AdminNotifications.generateNotifications be clock s).

(** Everything the sources do to table [admin_notifications]. *)
Inductive Operation :=
| GenerateAdmin (method : string) (clock : Clock)
| AutoGenerate (method : string) (clock : Clock)
| ScreenGenerate (clock : Clock)
| AfkCheck (clock : Clock) (isAdmin : bool) (salesmen : list MonitoringRoom.Salesman)
| MarkAsRead (notificationId : nat)
| MarkAllAsRead
| ConfirmDelete (notificationId : nat).

Definition run (be : Backend) (op : Operation) (s : Store) : Store :=
  match op with
  | GenerateAdmin method clock =>
      fst (GenerateAdminNotifications.serve method be clock s)
  | AutoGenerate method clock =>
      fst (AutoGenerateNotifications.serve method be clock s)
  | ScreenGenerate clock =>
      fst (AdminNotifications.generateNotifications be clock s)
  | AfkCheck clock isAdmin salesmen =>
      fst (MonitoringRoom.generateAFKNotifications be clock isAdmin salesmen s)
  | MarkAsRead notificationId =>
      fst (AdminNotifications.markAsRead be notificationId s)
  | MarkAllAsRead =>
      fst (AdminNotifications.markAllAsRead be s)
  | ConfirmDelete notificationId =>
      fst (AdminNotifications.handleConfirmDelete be notificationId s)
  end.

Definition marks_read (op : Operation) : bool :=
  match op with
  | MarkAsRead _ | MarkAllAsRead => true
  | _ => false
  end.

(** Between two states of the table: every row of the second is a row of
    the first or is unread. *)
Definition only_unread_added (s s' : Store) : Prop :=
  forall r, In r (rows s') -> In r (rows s) \/ row_is_read r = false.

(** A task that keeps [only_unread_added] from wherever it starts. *)
Definition adds_unread {A : Type} (t : Task A) : Prop :=
  forall s, only_unread_added s (fst (t s)).

(** ** Sample data

    The leads that [createTestLeads] of the test screen inserts for the
    signed-in salesman, and a few more at the edges of the thresholds. *)

Definition healthy : Query -> Fault := fun _ => Healthy.

Definition sample_now : Timestamp := 1000 * 24 * 60 * 60 * 1000.

Definition sample_clock : Clock :=
  mkClock sample_now (fun _ => sample_now) sample_now.

Definition lead_aged (id name company status call_status : string)
           (contact_age created_age : Z) : Lead :=
  mkLead id (Some "u1") name company "+1234567890" status call_status
         (sample_now - contact_age) (sample_now - created_age).

Definition testLeads : list Lead :=
  [ lead_aged "t1" "Test Lead - 5 Days Overdue" "Test Company A"
              "prospect" "not_called" (days 5) (days 10);
    lead_aged "t2" "Test Lead - 1 Week Overdue" "Test Company B"
              "qualified" "answered" (days 7) (days 14);
    lead_aged "t3" "Test Lead - 2 Weeks Overdue (CRITICAL)" "Test Company C"
              "proposal" "voicemail" (days 15) (days 20);
    lead_aged "t4" "Test Lead - 3 Weeks Overdue (CRITICAL)" "Test Company D"
              "negotiation" "no_response" (days 22) (days 30);
    lead_aged "t5" "Test Lead - Never Called (2+ weeks old)" "Test Company E"
              "prospect" "not_called" (days 16) (days 16) ].

(** A lead last contacted exactly four days ago. *)
Definition lead_at_four_days : Lead :=
  lead_aged "e1" "Edge" "Edge Oy" "prospect" "answered" (days 4) (days 4).

(** A won deal that was never called and is three weeks old. *)
Definition lead_won_uncalled : Lead :=
  lead_aged "w1" "Won" "Won Oy" "closed-won" "not_called" (days 21) (days 21).

(** [n] leads of salesman [u1], each last contacted five days ago. *)
Definition overdue_leads (n : nat) : list Lead :=
  map (fun i => lead_aged ("o" ++ Js.toString i)%string "Lead" "Company"
                          "prospect" "answered" (days 5) (days 5))
      (seq 1 n).

(** The bulk insert resolves with an error; everything else is answered. *)
Definition insert_fails : Query -> Fault :=
  fun q =>
    match q with
    | InsertNotifications => Fails "new row violates row-level security policy"
    | _ => Healthy
    end.

(** The overdue query of salesman [u1] resolves with an error. *)
Definition overdue_query_fails : Query -> Fault :=
  fun q =>
    match q with
    | SelectOverdue u => if String.eqb u "u1" then Fails "statement timeout" else Healthy
    | _ => Healthy
    end.

(** The monitoring screen: jukka holds a session record and was last
    active [age] milliseconds before [sample_now]. *)
Definition monitoring_backend (age : Z) : Backend :=
  mkBackend [] [mkUserRole "u1" "jukka@envaire.com"]
            [mkActivity "jukka@envaire.com" (sample_now - age - 60 * 60 * 1000);
             mkActivity "jukka@envaire.com" (sample_now - age);
             mkActivity "tuomas@envaire.com" (sample_now - 1000)]
            healthy.

(** The state of the monitoring screen: one salesman of each status. *)
Definition sample_salesmen : list MonitoringRoom.Salesman :=
  [ MonitoringRoom.mkSalesman "u1" "jukka@envaire.com" (Some (sample_now - 11 * 60 * 1000)) 7
      MonitoringRoom.afk;
    MonitoringRoom.mkSalesman "u2" "tuomas@envaire.com" (Some (sample_now - 1000)) 3
      MonitoringRoom.online;
    MonitoringRoom.mkSalesman "u3" "jesse@envaire.com" (Some (sample_now - 6 * 60 * 1000)) 1
      MonitoringRoom.idle;
    MonitoringRoom.mkSalesman "demo-tuukka" "tuukka@envaire.com" None 0
      MonitoringRoom.offline ].

Definition backend_of (ls : list Lead) (f : Query -> Fault) : Backend :=
  mkBackend ls [mkUserRole "u1" "jukka@envaire.com"] [] f.

Definition empty_store : Store := mkStore [] 1.

(** ** Vocabulary of the further properties *)

(** A task that keeps every stored row satisfying [P]. *)
Definition keeps_rows {A : Type} (P : Row -> Prop) (t : Task A) : Prop :=
  forall s r, In r (rows s) -> P r -> In r (rows (fst (t s))).

(** The backend after table [leads] was written. *)
Definition with_leads (be : Backend) (table : list Lead) : Backend :=
  mkBackend table (user_roles be) (activity_logs be) (faults be).

(** A row older than the 24-hour window of a run. *)
Definition older_than_window (clock : Clock) (r : Row) : Prop :=
  row_created_at r < clock_start clock - 24 * 60 * 60 * 1000.

(** A task that maintains an invariant of the table. *)
Definition maintains {A : Type} (I : Store -> Prop) (t : Task A) : Prop :=
  forall s, I s -> I (fst (t s)).

(** The alerts the AFK check sends for the salesmen on the screen. *)
Definition afk_alerts (salesmen : list MonitoringRoom.Salesman) : list NewRow :=
  with_is_read_false
    (map MonitoringRoom.afk_notification (filter MonitoringRoom.is_afk salesmen)).

(** ** The admin screen: component state *)

Module AdminScreen.




(** [{ ...n, is_read: true }]. *)
Definition read (n : Row) : Row :=
  mkRow (row_id n) (row_created_at n) true (row_notification n).

(** [markAsRead] with the state of the component: the reply of the update
    is not looked at, the state is updated unless the call was rejected. *)
Definition markAsRead (be : Backend) (notificationId : nat) (notifications : list Row)
  : Task (list Row) :=
  ttry_catch
    (statement be UpdateNotifications (update_is_read (eq_id notificationId)) ~;;
     tret (map (fun n => if Nat.eqb (row_id n) notificationId then read n else n)
               notifications))
    (fun error =>
       lift (console_error "Error marking notification as read:" error) ~;;
       tret notifications).

Definition markAllAsRead (be : Backend) (notifications : list Row) : Task (list Row) :=
  ttry_catch
    (statement be UpdateNotifications (update_is_read (eq_is_read false)) ~;;
     tret (map read notifications))
    (fun error =>
       lift (console_error "Error marking all as read:" error) ~;;
       tret notifications).

(** [handleConfirmDelete] with the state of the component. *)
Definition handleConfirmDelete (be : Backend) (notificationId : nat)
           (notifications : list Row) : Task (list Row) :=
  ttry_catch
    (statement be DeleteNotifications (delete_where (eq_id notificationId)) ~;;
     tret (List.filter (fun n => negb (Nat.eqb (row_id n) notificationId)) notifications))
    (fun error =>
       lift (console_error "Error deleting notification:" error) ~;;
       tret notifications).

End AdminScreen.


(** ** The monitoring screen: what is shown *)

Module MonitoringView.

(** [`${n}`] for an integer. *)
Definition numberToString (z : Z) : string := NilZero.string_of_int (Z.to_int z).

(** [formatTimestamp] (lines 339-349 of the component).  [Math.floor] of
    the quotient of two integers is the floored division; the date format
    of the browser, used from one day on, is a parameter. *)
Definition formatTimestamp (toLocaleString : Timestamp -> string)
           (now timestamp : Timestamp) : string :=
  let diff := now - timestamp in
  if diff <? 60000 then (numberToString (diff / 1000) ++ "s ago")%string
  else if diff <? 3600000 then (numberToString (diff / 60000) ++ "m ago")%string
  else if diff <? 86400000 then (numberToString (diff / 3600000) ++ "h ago")%string
  else toLocaleString timestamp.

End MonitoringView.

(** The backend after an inline update on the salesman screen. *)
Definition after_update (be : Backend) (now : Timestamp) (leadId : string)
           (field : SalesmanNotifications.Field) (value : string) : Backend :=
  with_leads be (fst (SalesmanNotifications.handleStatusUpdate be now leadId field value)).

(** ** The salesman screen: the notifications of one salesman *)

(** [.order(column, { ascending: true })]: rows with equal keys stay in
    table order. *)
Fixpoint insert_by {A : Type} (key : A -> Z) (x : A) (sorted : list A) : list A :=
  match sorted with
  | [] => [x]
  | y :: rest => if key x <=? key y then x :: sorted else y :: insert_by key x rest
  end.

Fixpoint order_by {A : Type} (key : A -> Z) (table : list A) : list A :=
  match table with
  | [] => []
  | x :: rest => insert_by key x (order_by key rest)
  end.

Module SalesmanScreen.

(** The [Lead] of the component: a selected row with its overdue days. *)
Record Card := mkCard {
  card_id : string;
  card_name : string;
  card_company : string;
  card_phone : string;
  card_last_contact : Timestamp;
  card_days_overdue : Z;
  card_status : string;
  card_call_status : string
}.

Inductive Kind := overdue_calls | stale_leads.

Record SalesmanNotification := mkSalesmanNotification {
  sn_id : string;
  sn_type : Kind;
  sn_title : string;
  sn_message : string;
  sn_lead_count : nat;
  sn_leads : list Card;
  sn_created_at : Timestamp;
  sn_is_read : bool
}.

(** The instants [generateNotifications] takes from the clock.  The two
    thresholds come from [setDate(getDate() - 4)] and
    [setDate(getDate() - 14)], calendar arithmetic in the time zone of the
    browser, and are taken as they come; [now_for] is the reading inside
    the [map] callback for a lead. *)
Record Instants := mkInstants {
  fourDaysAgo : Timestamp;
  twoWeeksAgo : Timestamp;
  now_for : string -> Timestamp;
  recent_id_stamp : Timestamp;
  recent_created_at : Timestamp;
  critical_id_stamp : Timestamp;
  critical_created_at : Timestamp
}.

(** The callback of [map] (lines 87-102 and 118-133). *)
Definition card_of (at_ : Instants) (lead : Lead) : Card :=
  let daysOverdue :=
    (now_for at_ (lead_id lead) - lead_last_contact lead) / (1000 * 60 * 60 * 24) in
  {| card_id := lead_id lead;
     card_name := lead_name lead;
     card_company := lead_company lead;
     card_phone := Js.or_else (Some (lead_phone lead)) "No phone";
     card_last_contact := lead_last_contact lead;
     card_days_overdue := daysOverdue;
     card_status := lead_status lead;
     card_call_status := lead_call_status lead |}.

(** The two queries (lines 59-76). *)
Definition overdue_rows (be : Backend) (userId : string) (threshold : Timestamp)
  : list Lead :=
  order_by lead_last_contact (filter (not_contacted_since userId threshold) (leads be)).

Definition recent_notification (at_ : Instants) (recentOverdueLeads : list Lead)
  : SalesmanNotification :=
  let n := Js.toString (List.length recentOverdueLeads) in
  {| sn_id := ("recent-overdue-" ++ MonitoringView.numberToString (recent_id_stamp at_))%string;
     sn_type := overdue_calls;
     sn_title := (n ++ " Leads Need Follow-up (4+ Days)")%string;
     sn_message := ("You have " ++ n ++ " leads that haven't been contacted in 4+ days. Regular follow-up is important to keep leads warm!")%string;
     sn_lead_count := List.length recentOverdueLeads;
     sn_leads := map (card_of at_) recentOverdueLeads;
     sn_created_at := recent_created_at at_;
     sn_is_read := false |}.

Definition critical_notification (at_ : Instants) (criticalOverdueLeads : list Lead)
  : SalesmanNotification :=
  let n := Js.toString (List.length criticalOverdueLeads) in
  {| sn_id := ("critical-overdue-" ++ MonitoringView.numberToString (critical_id_stamp at_))%string;
     sn_type := stale_leads;
     sn_title := ("ðŸš¨ " ++ n ++ " CRITICAL Leads Need Immediate Attention")%string;
     sn_message := ("You have " ++ n ++ " leads that haven't been contacted in over 2 weeks! These leads are at risk of going cold. Call them TODAY!")%string;
     sn_lead_count := List.length criticalOverdueLeads;
     sn_leads := map (card_of at_) criticalOverdueLeads;
     sn_created_at := critical_created_at at_;
     sn_is_read := false |}.

Definition push_if_any {A : Type} (make : list Lead -> A) (found : list Lead) : list A :=
  if (0 <? List.length found)%nat then [make found] else [].

(** [generateNotifications] (lines 44-153): what is given to
    [setNotifications], or nothing when the function returns before it.
    [user] is the signed-in user; the two faults are those of the two
    queries. *)
Definition generateNotifications (be : Backend) (at_ : Instants) (user : option string)
           (recentFault criticalFault : Fault)
  : Eff (option (list SalesmanNotification)) :=
  match user with
  | None => ret None
  | Some userId =>
      try_catch
        (recent <- await (match recentFault with
                          | Healthy => Data (overdue_rows be userId (fourDaysAgo at_))
                          | Fails e => Error e
                          | Rejects e => Rejected e
                          end) ;;
         critical <- await (match criticalFault with
                            | Healthy => Data (overdue_rows be userId (twoWeeksAgo at_))
                            | Fails e => Error e
                            | Rejects e => Rejected e
                            end) ;;
         match recent, critical with
         | Error recentError, _ =>
             console_error "Error fetching overdue leads:" recentError ;;; ret None
         | _, Error criticalError =>
             console_error "Error fetching overdue leads:" criticalError ;;; ret None
         | Data recentOverdueLeads, Data criticalOverdueLeads =>
             ret (Some (push_if_any (recent_notification at_) recentOverdueLeads
                        ++ push_if_any (critical_notification at_) criticalOverdueLeads))
         | _, _ => ret None
         end)
        (fun error => console_error "Error generating notifications:" error ;;; ret None)
  end.

(** [markAsRead], once its timer has fired, and [markAllAsRead]. *)
Definition read (n : SalesmanNotification) : SalesmanNotification :=
  mkSalesmanNotification (sn_id n) (sn_type n) (sn_title n) (sn_message n)
                         (sn_lead_count n) (sn_leads n) (sn_created_at n) true.

Definition markAsRead (notificationId : string) (notifications : list SalesmanNotification)
  : list SalesmanNotification :=
  map (fun n => if String.eqb (sn_id n) notificationId then read n else n) notifications.

Definition markAllAsRead (notifications : list SalesmanNotification)
  : list SalesmanNotification :=
  map read notifications.

Definition unreadCount (notifications : list SalesmanNotification) : nat :=
  List.length (filter (fun n => negb (sn_is_read n)) notifications).

End SalesmanScreen.

(** ** The sidebar badge (src/components/Sidebar.tsx) *)

Module Sidebar.

(** [checkNotifications] (lines 32-58): the count given to
    [setNotificationCount], if any. *)
Definition checkNotifications (be : Backend) (fourDaysAgo : Timestamp)
           (user : option string) (fault : Fault) : Eff (option nat) :=
  match user with
  | None => ret None
  | Some userId =>
      try_catch
        (reply <- await (match fault with
                         | Healthy =>
                             Data (map lead_id
                                       (filter (not_contacted_since userId fourDaysAgo)
                                               (leads be)))
                         | Fails e => Error e
                         | Rejects e => Rejected e
                         end) ;;
         match reply with
         | Error error => throw error
         | Data overdueLeads => ret (Some (List.length overdueLeads))
         | Rejected e => throw e
         end)
        (fun error => console_error "Error checking notifications:" error ;;; ret None)
  end.

End Sidebar.

(** The instants of the sample clock: thresholds exactly 4 and 14 days
    before [sample_now]. *)
Definition sample_instants : SalesmanScreen.Instants :=
  SalesmanScreen.mkInstants (sample_now - 4 * 24 * 60 * 60 * 1000)
                            (sample_now - 14 * 24 * 60 * 60 * 1000)
                            (fun _ => sample_now)
                            sample_now sample_now sample_now sample_now.

(** The threshold behind a notification of the salesman screen. *)
Definition threshold_of (at_ : SalesmanScreen.Instants) (k : SalesmanScreen.Kind)
  : Timestamp :=
  match k with
  | SalesmanScreen.overdue_calls => SalesmanScreen.fourDaysAgo at_
  | SalesmanScreen.stale_leads => SalesmanScreen.twoWeeksAgo at_
  end.

(** ** The CSV import (component [CSVImport]) *)

Module CSVImport.

(** [s.includes(needle)]. *)
Fixpoint includes (needle s : string) : bool :=
  if String.prefix needle s then true
  else match s with
       | EmptyString => false
       | String _ rest => includes needle rest
       end.

(** [s.split(sep)] for a one-character separator. *)
Fixpoint split (sep : ascii) (s : string) : list string :=
  match s with
  | EmptyString => [EmptyString]
  | String c rest =>
      if Ascii.eqb c sep then EmptyString :: split sep rest
      else match split sep rest with
           | first :: others => String c first :: others
           | [] => [String c EmptyString]
           end
  end.

(** A parsed line (lines 65-77). *)
Record CsvRow := mkCsvRow {
  firm : string;
  revenue : string;
  website : string;
  go_skip : string;
  phone : string;
  whose_phone : string;
  ceo : string;
  called : string;
  last_contact : string;
  notes : string;
  status : string
}.

(** The object given to [insert] (lines 133-151). *)
Record LeadData := mkLeadData {
  ld_user_id : string;
  ld_name : string;
  ld_company : string;
  ld_email : string;
  ld_phone : string;
  ld_position : string;
  ld_status : string;
  ld_call_status : string;
  ld_industry : string;
  ld_value : Z;
  ld_notes : string;
  ld_website : string;
  ld_revenue : string;
  ld_ceo : string;
  ld_whose_phone : string;
  ld_go_skip : string;
  ld_last_contact : Timestamp
}.

Record ImportResult := mkImportResult {
  imported : nat;
  duplicates : nat;
  errors : list string
}.

Section Engine.

(** What the JavaScript engine provides: the Unicode case mapping, the
    Unicode [trim], the parsing of a date text ([None] for an invalid
    date, whose [toISOString] throws a [RangeError]) and the message of
    that error. *)
Variable toLowerCase : string -> string.
Variable trim : string -> string.
Variable parseDate : string -> option Timestamp.
Variable invalidTime : string.

(** [values[i]?.trim() || '']. *)
Definition column (values : list string) (i : nat) : string :=
  Js.or_else (option_map trim (nth_error values i)) "".

Definition truthy (s : string) : bool := negb (String.eqb s "").

(** [parseCSV] (lines 57-80). *)
Definition parseCSV (csvText : string) : list CsvRow :=
  let lines := split "010"%char csvText in
  filter (fun row => truthy (firm row))
    (map (fun line =>
            let values := split ","%char line in
            mkCsvRow (column values 0) (column values 1) (column values 2)
                     (column values 3) (column values 4) (column values 5)
                     (column values 6) (column values 7) (column values 8)
                     (column values 9) (column values 10))
         (filter (fun line => truthy (trim line)) (tl lines))).

(** [mapCallStatus] (lines 82-90). *)
Definition mapCallStatus (called : string) : string :=
  let callLower := toLowerCase called in
  if includes "answered" callLower then "answered"
  else if includes "no response" callLower then "no_response"
  else if includes "voicemail" callLower then "voicemail"
  else if includes "busy" callLower then "busy"
  else if includes "wrong" callLower || includes "not in use" callLower then "wrong_number"
  else "not_called".

(** [mapStatus] (lines 92-98). *)
Definition mapStatus (status : string) : string :=
  let statusLower := toLowerCase status in
  if includes "lost" statusLower then "closed-lost"
  else if includes "booked" statusLower || includes "meeting" statusLower then "qualified"
  else if includes "later" statusLower then "proposal"
  else "prospect".

(** [leadData] of a row; [None] when the date text is invalid and
    [toISOString] throws. *)
Definition leadData (userId industry : string) (now : Timestamp) (row : CsvRow)
  : option LeadData :=
  match (if truthy (last_contact row)
         then parseDate (last_contact row ++ " 2024")%string
         else Some now) with
  | None => None
  | Some contact =>
      Some {| ld_user_id := userId;
              ld_name := firm row;
              ld_company := firm row;
              ld_email := "";
              ld_phone := phone row;
              ld_position := Js.or_else (Some (whose_phone row)) "";
              ld_status := mapStatus (status row);
              ld_call_status := mapCallStatus (called row);
              ld_industry := industry;
              ld_value := 0;
              ld_notes := notes row;
              ld_website := website row;
              ld_revenue := revenue row;
              ld_ceo := ceo row;
              ld_whose_phone := whose_phone row;
              ld_go_skip := go_skip row;
              ld_last_contact := contact |}
  end.

(** The state of the loop over the rows (lines 111-166): the counters, the
    set of company names seen, and the rows the database accepted. *)
Record Progress := mkProgress {
  result : ImportResult;
  existingCompanies : list string;
  inserted : list LeadData
}.

(** One iteration; [reply] is how the insert of this row settles (a
    rejection carries an [Error] object, as the client's do) and [now] the
    clock reading of this row. *)
Definition import_row (userId industry : string) (now : Timestamp) (reply : Fault)
           (p : Progress) (row : CsvRow) : Progress :=
  let r := result p in
  if Js.includes (toLowerCase (firm row)) (existingCompanies p)
  then mkProgress (mkImportResult (imported r) (S (duplicates r)) (errors r))
                  (existingCompanies p) (inserted p)
  else
    match leadData userId industry now row with
    | None =>
        mkProgress (mkImportResult (imported r) (duplicates r)
                      (errors r ++ [(firm row ++ ": " ++ invalidTime)%string]))
                   (existingCompanies p) (inserted p)
    | Some data =>
        match reply with
        | Healthy =>
            mkProgress (mkImportResult (S (imported r)) (duplicates r) (errors r))
                       (existingCompanies p ++ [toLowerCase (firm row)])
                       (inserted p ++ [data])
        | Fails message | Rejects message =>
            mkProgress (mkImportResult (imported r) (duplicates r)
                          (errors r ++ [(firm row ++ ": " ++ message)%string]))
                       (existingCompanies p) (inserted p)
        end
    end.

Fixpoint import_rows (userId industry : string) (now : nat -> Timestamp)
         (replies : nat -> Fault) (index : nat) (p : Progress) (rows : list CsvRow)
  : Progress :=
  match rows with
  | [] => p
  | row :: rest =>
      import_rows userId industry now replies (S index)
                  (import_row userId industry (now index) (replies index) p row) rest
  end.

(** The companies the user already has (lines 116-123), [company] being a
    text in every row: the reply of the query is not checked, a failed
    query gives no company. *)
Definition existing (be : Backend) (userId : string) (fault : Fault) : list string :=
  match fault with
  | Healthy => map (fun l => toLowerCase (lead_company l))
                   (filter (eq_user_id userId) (leads be))
  | _ => []
  end.

(** [handleImport] for a file that was read (lines 106-180): the result
    shown, the rows accepted by the database, and whether [onSuccess] was
    called.  [None] when there is no signed-in user. *)
Definition handleImport (be : Backend) (user : option string) (industry csvText : string)
           (existingFault : Fault) (now : nat -> Timestamp) (replies : nat -> Fault)
  : option (ImportResult * list LeadData * bool) :=
  match user with
  | None => None
  | Some userId =>
      match existingFault with
      | Rejects _ => Some (mkImportResult 0 0 ["Failed to parse CSV file"], [], false)
      | _ =>
          let p := import_rows userId industry now replies 0
                     (mkProgress (mkImportResult 0 0 []) (existing be userId existingFault) [])
                     (parseCSV csvText) in
          Some (result p, inserted p, (0 <? imported (result p))%nat)
      end
  end.

End Engine.

End CSVImport.

(** ** The activity list of the monitoring room ([fetchActivities]) *)

Module ActivityFeed.

(** The [filter] state: ['all' | 'today' | 'hour']. *)
Inductive TimeFilter := all | today | hour.

(** The lower bound on [timestamp] (lines 279-286); [midnight] is the local
    midnight that [setHours(0, 0, 0, 0)] gives. *)
Definition since (filter : TimeFilter) (midnight now : Timestamp) : option Timestamp :=
  match filter with
  | today => Some midnight
  | hour => Some (now - 60 * 60 * 1000)
  | all => None
  end.

(** [.eq('user_email', mail)] with the optional [.gte('timestamp', t)]. *)
Definition selected (mail : string) (bound : option Timestamp) (a : ActivityLog) : bool :=
  String.eqb (act_user_email a) mail
  && match bound with
     | Some t => t <=? act_timestamp a
     | None => true
     end.

(** [.order('timestamp', { ascending: false }) ... .limit(100)]. *)
Definition query (be : Backend) (mail : string) (bound : option Timestamp)
  : list ActivityLog :=
  firstn 100 (order_by (fun a => - act_timestamp a)
                       (filter (selected mail bound) (activity_logs be))).

(** [fetchActivities] (lines 265-301): the list given to [setActivities],
    if it is called. *)
Definition fetchActivities (be : Backend) (salesmen : list MonitoringRoom.Salesman)
           (filter : TimeFilter) (midnight now : Timestamp) (fault : Fault)
           (userId : string) : Eff (option (list ActivityLog)) :=
  try_catch
    (match find (fun s => String.eqb (MonitoringRoom.user_id s) userId) salesmen with
     | None => ret None
     | Some salesman =>
         reply <- await (match fault with
                         | Healthy =>
                             Data (query be (MonitoringRoom.email salesman)
                                         (since filter midnight now))
                         | Fails e => Error e
                         | Rejects e => Rejected e
                         end) ;;
         match reply with
         | Error error =>
             console_error "Error fetching activities:" error ;;; ret (Some [])
         | Data data => ret (Some data)
         | Rejected e => throw e
         end
     end)
    (fun error => console_error "Error fetching activities:" error ;;; ret (Some [])).

End ActivityFeed.

(** ** Vocabulary of the import properties *)

(** The key under which the import remembers a company. *)
Definition company_key (toLowerCase : string -> string) (d : CSVImport.LeadData) : string :=
  toLowerCase (CSVImport.ld_company d).

(** What holds of the import loop after [done] rows, [known] being the
    companies found in the table beforehand. *)
Definition import_invariant (toLowerCase : string -> string) (known : list string)
           (done : nat) (p : CSVImport.Progress) : Prop :=
  CSVImport.existingCompanies p
  = known ++ map (company_key toLowerCase) (CSVImport.inserted p)
  /\ NoDup (map (company_key toLowerCase) (CSVImport.inserted p))
  /\ (forall d, In d (CSVImport.inserted p) -> ~ In (company_key toLowerCase d) known)
  /\ CSVImport.imported (CSVImport.result p) = List.length (CSVImport.inserted p)
  /\ (CSVImport.imported (CSVImport.result p) + CSVImport.duplicates (CSVImport.result p)
      + List.length (CSVImport.errors (CSVImport.result p)) = done)%nat.

(** The values [mapStatus] and [mapCallStatus] can give. *)
Definition import_statuses : list string :=
  [ "closed-lost"; "qualified"; "proposal"; "prospect" ].

Definition import_call_statuses : list string :=
  [ "answered"; "no_response"; "voicemail"; "busy"; "wrong_number"; "not_called" ].

(** Whether a character occurs in a text. *)
Fixpoint has_char (c : ascii) (s : string) : bool :=
  match s with
  | EmptyString => false
  | String x rest => Ascii.eqb x c || has_char c rest
  end.

Definition comma : ascii := ","%char.
Definition newline : ascii := "010"%char.

Definition fields (row : CSVImport.CsvRow) : list string :=
  [ CSVImport.firm row; CSVImport.revenue row; CSVImport.website row;
    CSVImport.go_skip row; CSVImport.phone row; CSVImport.whose_phone row;
    CSVImport.ceo row; CSVImport.called row; CSVImport.last_contact row;
    CSVImport.notes row; CSVImport.status row ].

(** A row written as a line, and rows written as a file under a header. *)
Definition line_of (row : CSVImport.CsvRow) : string :=
  String.concat (String comma EmptyString) (fields row).

Definition csv_text (header : string) (rows : list CSVImport.CsvRow) : string :=
  String.concat (String newline EmptyString) (header :: map line_of rows).

(** A row that survives being written and read: the columns are trimmed
    and hold no comma and no line break, the company is not empty, and the
    line does not trim to nothing. *)
Definition plain_row (trim : string -> string) (row : CSVImport.CsvRow) : Prop :=
  Forall (fun f => trim f = f /\ has_char comma f = false /\ has_char newline f = false)
         (fields row)
  /\ CSVImport.firm row <> ""
  /\ trim (line_of row) <> "".

(** A sample file of three rows, two of them the same company, and a table
    that holds one company already. *)
Definition sample_header : string :=
  "Firm,Revenue,Website,Go/Skip,Phone,Whose,CEO,Called,Last contact,Notes,Status".

Definition sample_rows : list CSVImport.CsvRow :=
  [ CSVImport.mkCsvRow "Acme" "1M" "acme.fi" "go" "0401" "ceo" "Ann" "answered" ""
                       "" "meeting booked";
    CSVImport.mkCsvRow "Beta" "2M" "beta.fi" "go" "0402" "" "Bob" "" "" "" "";
    CSVImport.mkCsvRow "Acme" "" "" "" "" "" "" "" "" "" "" ].

Definition sample_csv : string := csv_text sample_header sample_rows.

Definition sample_table : Backend :=
  backend_of [ mkLead "l1" (Some "u1") "Beta" "Beta" "" "prospect" "not_called" 0 0 ] healthy.

(** The activity entries a query is about. *)
Definition matching (be : Backend) (mail : string) (bound : option Timestamp)
  : list ActivityLog :=
  filter (ActivityFeed.selected mail bound) (activity_logs be).

(** The engine functions on ASCII text, for the sample file. *)
Definition lower_char (c : ascii) : ascii :=
  let n := nat_of_ascii c in
  if ((65 <=? n) && (n <=? 90))%nat then ascii_of_nat (n + 32) else c.

Fixpoint lower_ascii (s : string) : string :=
  match s with
  | EmptyString => EmptyString
  | String c rest => String (lower_char c) (lower_ascii rest)
  end.

Definition is_space (c : ascii) : bool :=
  let n := nat_of_ascii c in
  (((9 <=? n) && (n <=? 13)) || (n =? 32))%nat.

Fixpoint trim_start (s : string) : string :=
  match s with
  | EmptyString => EmptyString
  | String c rest => if is_space c then trim_start rest else s
  end.

Fixpoint trim_end (s : string) : string :=
  match s with
  | EmptyString => EmptyString
  | String c rest =>
      match trim_end rest with
      | EmptyString => if is_space c then EmptyString else String c EmptyString
      | kept => String c kept
      end
  end.

Definition trim_ascii (s : string) : string := trim_end (trim_start s).

(** The sample import: signed in as u1, every insert accepted. *)
Definition sample_import
  : option (CSVImport.ImportResult * list CSVImport.LeadData * bool) :=
  CSVImport.handleImport lower_ascii trim_ascii (fun _ => None) "Invalid time value"
    sample_table (Some "u1") "hvac" sample_csv Healthy (fun _ => sample_now)
    (fun _ => Healthy).

(** The rows a query hands to the code that reads only [data]: [null]
    unless the query is answered. *)
Definition answered {A : Type} (be : Backend) (q : Query) (result : A) : option A :=
  match faults be q with
  | Healthy => Some result
  | _ => None
  end.

(** A notification whose sample is the first [k] rows of a bucket that is
    not empty. *)
Definition samples (k : nat) (n : Notification) (bucket : list LeadSummary) : Prop :=
  bucket <> []
  /\ sample (n_data n) = firstn k bucket
  /\ (List.length (sample (n_data n)) <= k)%nat.


(** ** Basic facts *)

Section Control.

Context {A : Type}.

Lemma try_catch_no_throw (m : Eff A) (handler : string -> Eff A) :
  (forall e, ~ throws (handler e)) -> ~ throws (try_catch m handler).
Proof.
  intros Hh. destruct m as [l [a| |e]]; unfold try_catch.
  - intros [e He]. discriminate.
  - intros [e He]. discriminate.
  - destruct (handler e) as [l2 c] eqn:E. intros [e' He']. simpl in He'.
    apply (Hh e). exists e'. rewrite E. exact He'.
Qed.

(** A loop whose body never lets an exception escape runs over every item
    and ends normally with everything the iterations pushed. *)
Lemma for_of_total (items : list string) (body : string -> Eff (list A)) :
  (forall x, ~ throws (body x)) ->
  for_of items body
  = (flat_map (fun x => logged (body x)) items,
     Normal (flat_map (fun x => pushed (body x)) items)).
Proof.
  intros Hb. induction items as [|x rest IH]; simpl.
  - reflexivity.
  - rewrite IH. specialize (Hb x). unfold logged, pushed.
    destruct (body x) as [l [ns| |e]]; simpl.
    + reflexivity.
    + reflexivity.
    + exfalso. apply Hb. exists e. reflexivity.
Qed.

End Control.

Lemma admin_iteration_no_throw be clock userId :
  ~ throws (GenerateAdminNotifications.iteration be clock userId).
Proof.
  apply try_catch_no_throw. intros e [e' He']. discriminate.
Qed.

Lemma auto_iteration_no_throw be now userId :
  ~ throws (AutoGenerateNotifications.iteration be now userId).
Proof.
  apply try_catch_no_throw. intros e [e' He']. discriminate.
Qed.

Lemma screen_iteration_no_throw be now userId :
  ~ throws (AdminNotifications.iteration be now userId).
Proof.
  apply try_catch_no_throw. intros e [e' He']. discriminate.
Qed.

Lemma admin_loop be clock ids :
  for_of ids (GenerateAdminNotifications.iteration be clock)
  = (flat_map (fun u => logged (GenerateAdminNotifications.iteration be clock u)) ids,
     Normal (flat_map (fun u => pushed (GenerateAdminNotifications.iteration be clock u)) ids)).
Proof. apply for_of_total. intro. apply admin_iteration_no_throw. Qed.

Lemma auto_loop be now ids :
  for_of ids (AutoGenerateNotifications.iteration be now)
  = (flat_map (fun u => logged (AutoGenerateNotifications.iteration be now u)) ids,
     Normal (flat_map (fun u => pushed (AutoGenerateNotifications.iteration be now u)) ids)).
Proof. apply for_of_total. intro. apply auto_iteration_no_throw. Qed.

Lemma screen_loop be now ids :
  for_of ids (AdminNotifications.iteration be now)
  = (flat_map (fun u => logged (AdminNotifications.iteration be now u)) ids,
     Normal (flat_map (fun u => pushed (AdminNotifications.iteration be now u)) ids)).
Proof. apply for_of_total. intro. apply screen_iteration_no_throw. Qed.

(** *** The three generators, once the user ids were read *)

Lemma admin_serve_run be clock s :
  faults be SelectUserIds = Healthy ->
  (forall e, faults be DeleteNotifications <> Rejects e) ->
  let s1 := cleared_admin be clock s in
  let l1 := clear_log_admin be in
  let ns := collected_admin be clock in
  let ok := mkResponse 200 (BodySuccess (List.length ns)
               (Some (List.length (Js.spreadSet (select_user_ids (leads be)))))) in
  GenerateAdminNotifications.serve "POST" be clock s =
  if (0 <? List.length ns)%nat then
    match faults be InsertNotifications with
    | Healthy => (insert_rows (clock_insert clock) (with_is_read_false ns) s1,
                  (l1 ++ loop_log_admin be clock, Normal ok))
    | Fails e => (s1, (l1 ++ loop_log_admin be clock
                         ++ [ConsoleError "Error inserting notifications:" e;
                             ConsoleError "Error in generate-admin-notifications:" e],
                       Normal (mkResponse 500 (BodyError e))))
    | Rejects e => (s1, (l1 ++ loop_log_admin be clock
                         ++ [ConsoleError "Error in generate-admin-notifications:" e],
                       Normal (mkResponse 500 (BodyError e))))
    end
  else (s1, (l1 ++ loop_log_admin be clock, Normal ok)).
Proof.
  intros Hu Hd. cbv zeta.
  unfold collected_admin, loop_log_admin, cleared_admin, clear_log_admin.
  unfold GenerateAdminNotifications.serve. simpl String.eqb. cbv iota.
  unfold ttry_catch, GenerateAdminNotifications.generate, tbind, statement, lift, run_query.
  rewrite Hu.
  destruct (faults be DeleteNotifications) as [|e|e] eqn:Ed;
    [| |exfalso; eapply Hd; reflexivity];
  simpl; rewrite !admin_loop; unfold pushed, logged; simpl;
  (destruct (0 <? _)%nat; [destruct (faults be InsertNotifications); simpl|simpl]);
  rewrite ?app_nil_r, <- ?app_assoc; simpl; reflexivity.
Qed.

Lemma auto_serve_run be clock s :
  faults be SelectUserIds = Healthy ->
  (forall e, faults be DeleteNotifications <> Rejects e) ->
  let s1 := cleared_auto be clock s in
  let ns := collected_auto be clock in
  let ok := mkResponse 200 (BodySuccess (List.length ns) None) in
  AutoGenerateNotifications.serve "POST" be clock s =
  if (0 <? List.length ns)%nat then
    match faults be InsertNotifications with
    | Healthy => (insert_rows (clock_insert clock) (with_is_read_false ns) s1,
                  (loop_log_auto be clock, Normal ok))
    | Fails e => (s1, (loop_log_auto be clock
                         ++ [ConsoleError "Error inserting notifications:" e],
                       Normal ok))
    | Rejects e => (s1, (loop_log_auto be clock
                         ++ [ConsoleError "Error in auto-generate-notifications:" e],
                       Normal (mkResponse 500 (BodyError e))))
    end
  else (s1, (loop_log_auto be clock, Normal ok)).
Proof.
  intros Hu Hd. cbv zeta.
  unfold collected_auto, loop_log_auto, cleared_auto.
  unfold AutoGenerateNotifications.serve. simpl String.eqb. cbv iota.
  unfold ttry_catch, AutoGenerateNotifications.generate, tbind, statement, lift, run_query.
  rewrite Hu.
  destruct (faults be DeleteNotifications) as [|e|e] eqn:Ed;
    [| |exfalso; eapply Hd; reflexivity];
  simpl; rewrite !auto_loop; unfold pushed, logged; simpl;
  (destruct (0 <? _)%nat; [destruct (faults be InsertNotifications); simpl|simpl]);
  rewrite ?app_nil_r, <- ?app_assoc; simpl; reflexivity.
Qed.

Lemma screen_run be clock s :
  faults be SelectUserIds = Healthy ->
  (forall e, faults be DeleteNotifications <> Rejects e) ->
  let s1 := cleared_screen be s in
  let ns := collected_screen be clock in
  AdminNotifications.generateNotifications be clock s =
  if (0 <? List.length ns)%nat then
    match faults be InsertNotifications with
    | Healthy => (insert_rows (clock_insert clock) (with_is_read_false ns) s1,
                  (loop_log_screen be clock, Normal tt))
    | Fails e => (s1, (loop_log_screen be clock
                         ++ [ConsoleError "Error inserting notifications:" e],
                       Normal tt))
    | Rejects e => (s1, (loop_log_screen be clock
                         ++ [ConsoleError "Error generating notifications:" e],
                       Normal tt))
    end
  else (s1, (loop_log_screen be clock, Normal tt)).
Proof.
  intros Hu Hd. cbv zeta.
  unfold collected_screen, loop_log_screen, cleared_screen.
  unfold AdminNotifications.generateNotifications.
  unfold ttry_catch, tbind, statement, lift, run_query.
  rewrite Hu.
  destruct (faults be DeleteNotifications) as [|e|e] eqn:Ed;
    [| |exfalso; eapply Hd; reflexivity];
  simpl; rewrite !screen_loop; unfold pushed, logged; simpl;
  (destruct (0 <? _)%nat; [destruct (faults be InsertNotifications); simpl|simpl]);
  rewrite ?app_nil_r, <- ?app_assoc; simpl; reflexivity.
Qed.

(** *** Buckets *)

Lemma key_injective {A B : Type} (f : A -> B) (xs : list A) (a b : A) :
  NoDup (map f xs) -> In a xs -> In b xs -> f a = f b -> a = b.
Proof.
  induction xs as [|x xs IH]; simpl; intros Hnd Ha Hb Hf.
  - contradiction.
  - inversion Hnd as [|? ? Hnot Hnd']; subst.
    destruct Ha as [Ha|Ha], Hb as [Hb|Hb]; subst.
    + reflexivity.
    + exfalso. apply Hnot. rewrite Hf. apply in_map. exact Hb.
    + exfalso. apply Hnot. rewrite <- Hf. apply in_map. exact Ha.
    + apply IH; assumption.
Qed.

Lemma in_bucket_filter be (select : Lead -> LeadSummary) (p : Lead -> bool) l :
  (forall x, sum_id (select x) = lead_id x) ->
  primary_key be -> In l (leads be) ->
  in_bucket l (map select (filter p (leads be))) <-> p l = true.
Proof.
  intros Hsel Hpk Hin. unfold in_bucket. rewrite map_map. split.
  - intros H. apply in_map_iff in H. destruct H as [l' [Hid Hl']].
    apply filter_In in Hl'. destruct Hl' as [Hl' Hp].
    rewrite Hsel in Hid.
    assert (l' = l) by (eapply key_injective; eauto).
    subst. exact Hp.
  - intros Hp. apply in_map_iff. exists l. split.
    + apply Hsel.
    + apply filter_In. split; assumption.
Qed.

Lemma not_contacted_since_spec u t l :
  not_contacted_since u t l = true <->
  lead_user_id l = Some u /\ lead_last_contact l < t /\ ~ closed l.
Proof.
  unfold not_contacted_since, eq_user_id, lt_last_contact, neq_status, closed.
  rewrite !andb_true_iff, !negb_true_iff, Z.ltb_lt.
  destruct (lead_user_id l) as [u'|].
  - rewrite String.eqb_eq. rewrite !String.eqb_neq. split.
    + intros [[[Hu Ht] Hw] Hl]. subst. repeat split; try assumption.
      intros [H|H]; contradiction.
    + intros [Hu [Ht Hc]]. injection Hu as ->.
      repeat split; try assumption; intro H; apply Hc; [left|right]; exact H.
  - split.
    + intros [[[Hu _] _] _]. discriminate.
    + intros [Hu _]. discriminate.
Qed.

Lemma never_called_since_spec u t l :
  never_called_since u t l = true <->
  lead_user_id l = Some u /\ lead_call_status l = "not_called" /\ lead_created_at l < t.
Proof.
  unfold never_called_since, eq_user_id, eq_call_status, lt_created_at.
  rewrite !andb_true_iff, Z.ltb_lt, String.eqb_eq.
  destruct (lead_user_id l) as [u'|].
  - rewrite String.eqb_eq. split.
    + intros [[Hu Hc] Ht]. subst. auto.
    + intros [Hu [Hc Ht]]. injection Hu as ->. auto.
  - split.
    + intros [[Hu _] _]. discriminate.
    + intros [Hu _]. discriminate.
Qed.

(** Closed leads pass neither staleness filter, at any call site. *)
Lemma closed_not_contacted_since u t l :
  closed l -> not_contacted_since u t l = false.
Proof.
  intros Hc. destruct (not_contacted_since u t l) eqn:E; [|reflexivity].
  apply not_contacted_since_spec in E. destruct E as [_ [_ Hn]]. contradiction.
Qed.

(** *** One iteration with every query answered *)

Lemma select_email_healthy be u :
  faults be (SelectEmail u) = Healthy ->
  forall e, select_email be u <> Rejected e.
Proof.
  intros H e. unfold select_email. rewrite H. unfold single.
  destruct (filter _ _) as [|r [|r' rest]]; discriminate.
Qed.

Lemma admin_process_user_healthy be now u :
  healthy_for be u ->
  GenerateAdminNotifications.process_user be now u
  = ([], Normal
      (GenerateAdminNotifications.push_if_any
         (GenerateAdminNotifications.overdue_notification u (email_of be u))
         (GenerateAdminNotifications.overdueLeads be u now)
       ++ GenerateAdminNotifications.push_if_any
            (GenerateAdminNotifications.stale_notification u (email_of be u))
            (GenerateAdminNotifications.staleLeads be u now)
       ++ GenerateAdminNotifications.push_if_any
            (GenerateAdminNotifications.uncalled_notification u (email_of be u))
            (GenerateAdminNotifications.uncalledLeads be u now))).
Proof.
  intros H. unfold GenerateAdminNotifications.process_user, email_of, run_query.
  pose proof (select_email_healthy be u) as He.
  rewrite (H (SelectOverdue u)), (H (SelectStale u)), (H (SelectUncalled u))
    by (simpl; apply String.eqb_refl).
  specialize (He (H (SelectEmail u) (String.eqb_refl u))).
  destruct (select_email be u) as [d|e|e]; [| |exfalso; eapply He; reflexivity];
    reflexivity.
Qed.

Lemma auto_process_user_healthy be now u :
  healthy_for be u ->
  AutoGenerateNotifications.process_user be now u
  = ([], Normal
      (AutoGenerateNotifications.push_if_any
         (AutoGenerateNotifications.overdue_notification u (email_of be u))
         (Some (AutoGenerateNotifications.overdueLeads be u now))
       ++ AutoGenerateNotifications.push_if_any
            (AutoGenerateNotifications.stale_notification u (email_of be u))
            (Some (AutoGenerateNotifications.staleLeads be u now)))).
Proof.
  intros H. unfold AutoGenerateNotifications.process_user, email_of, run_query.
  pose proof (select_email_healthy be u) as He.
  rewrite (H (SelectOverdue u)), (H (SelectStale u))
    by (simpl; apply String.eqb_refl).
  specialize (He (H (SelectEmail u) (String.eqb_refl u))).
  destruct (select_email be u) as [d|e|e]; [| |exfalso; eapply He; reflexivity];
    reflexivity.
Qed.

(** ** Staleness buckets *)

Lemma sum_id_contact_call x : sum_id (select_contact_call x) = lead_id x.
Proof. reflexivity. Qed.

Lemma sum_id_contact x : sum_id (select_contact x) = lead_id x.
Proof. reflexivity. Qed.

Lemma sum_id_created x : sum_id (select_created x) = lead_id x.
Proof. reflexivity. Qed.

Lemma push_if_any_admin make found :
  found <> [] -> GenerateAdminNotifications.push_if_any make found = [make found].
Proof.
  intros H. unfold GenerateAdminNotifications.push_if_any.
  destruct found; [contradiction|reflexivity].
Qed.

Lemma in_bucket_nonempty l bucket : in_bucket l bucket -> bucket <> [].
Proof. intros H ->. exact H. Qed.

Lemma in_sample_in_bucket id n (found : list LeadSummary) :
  In id (map sum_id (Js.slice0 n found)) -> In id (map sum_id found).
Proof.
  unfold Js.slice0. intros H. apply in_map_iff in H.
  destruct H as [x [Hx Hin]]. apply in_map_iff. exists x. split; [exact Hx|].
  rewrite <- (firstn_skipn n found). apply in_or_app. left. exact Hin.
Qed.

Lemma sample_admin_stale u mail found :
  sample (n_data (GenerateAdminNotifications.stale_notification u mail found))
  = Js.slice0 10 found.
Proof.
  unfold GenerateAdminNotifications.stale_notification. cbn [n_data sample].
  apply app_nil_r.
Qed.

Lemma sample_auto_stale u mail found :
  sample (n_data (AutoGenerateNotifications.stale_notification u mail found))
  = Js.slice0 5 found.
Proof.
  unfold AutoGenerateNotifications.stale_notification. cbn [n_data sample].
  apply app_nil_r.
Qed.

(** *** What an iteration pushes, whatever the faults *)

Lemma push_if_any_admin_in make found n :
  In n (GenerateAdminNotifications.push_if_any make found) ->
  n = make found /\ found <> [].
Proof.
  unfold GenerateAdminNotifications.push_if_any.
  destruct found as [|x rest]; simpl; [contradiction|].
  intros [<-|[]]. split; [reflexivity|discriminate].
Qed.

Lemma push_if_any_auto_in make found n :
  In n (AutoGenerateNotifications.push_if_any make found) ->
  exists leads, found = Some leads /\ n = make leads /\ leads <> [].
Proof.
  unfold AutoGenerateNotifications.push_if_any.
  destruct found as [[|x rest]|]; simpl; try contradiction.
  intros [<-|[]]. exists (x :: rest). repeat split. discriminate.
Qed.

Lemma answered_spec {A : Type} be q (d : A) :
  data_of (run_query be q d) = answered be q d.
Proof. unfold run_query, answered. destruct (faults be q); reflexivity. Qed.

Lemma answered_some {A : Type} be q (d found : A) :
  answered be q d = Some found -> found = d /\ faults be q = Healthy.
Proof.
  unfold answered. destruct (faults be q); try discriminate.
  intros H. injection H as <-. split; reflexivity.
Qed.

Lemma admin_pushed_cases be now u :
  pushed (GenerateAdminNotifications.process_user be now u) = []
  \/ pushed (GenerateAdminNotifications.process_user be now u)
     = GenerateAdminNotifications.push_if_any
         (GenerateAdminNotifications.overdue_notification u (email_of be u))
         (GenerateAdminNotifications.overdueLeads be u now)
       ++ GenerateAdminNotifications.push_if_any
            (GenerateAdminNotifications.stale_notification u (email_of be u))
            (GenerateAdminNotifications.staleLeads be u now)
       ++ GenerateAdminNotifications.push_if_any
            (GenerateAdminNotifications.uncalled_notification u (email_of be u))
            (GenerateAdminNotifications.uncalledLeads be u now).
Proof.
  unfold GenerateAdminNotifications.process_user, email_of, run_query, pushed.
  destruct (select_email be u) as [d|e|e];
    destruct (faults be (SelectOverdue u));
    destruct (faults be (SelectStale u));
    destruct (faults be (SelectUncalled u));
    first [left; reflexivity|right; reflexivity].
Qed.

Lemma auto_pushed_cases be now u :
  pushed (AutoGenerateNotifications.process_user be now u) = []
  \/ pushed (AutoGenerateNotifications.process_user be now u)
     = AutoGenerateNotifications.push_if_any
         (AutoGenerateNotifications.overdue_notification u (email_of be u))
         (answered be (SelectOverdue u) (AutoGenerateNotifications.overdueLeads be u now))
       ++ AutoGenerateNotifications.push_if_any
            (AutoGenerateNotifications.stale_notification u (email_of be u))
            (answered be (SelectStale u) (AutoGenerateNotifications.staleLeads be u now)).
Proof.
  unfold AutoGenerateNotifications.process_user, email_of, run_query, pushed, answered.
  destruct (select_email be u) as [d|e|e];
    destruct (faults be (SelectOverdue u));
    destruct (faults be (SelectStale u));
    first [left; reflexivity|right; reflexivity].
Qed.

(** What an iteration of generate-admin-notifications pushes is built
    from a bucket of the salesman that is not empty. *)
Lemma admin_pushed_from_buckets be now u n :
  In n (pushed (GenerateAdminNotifications.process_user be now u)) ->
  (n = GenerateAdminNotifications.overdue_notification u (email_of be u)
         (GenerateAdminNotifications.overdueLeads be u now)
   /\ GenerateAdminNotifications.overdueLeads be u now <> [])
  \/ (n = GenerateAdminNotifications.stale_notification u (email_of be u)
            (GenerateAdminNotifications.staleLeads be u now)
      /\ GenerateAdminNotifications.staleLeads be u now <> [])
  \/ (n = GenerateAdminNotifications.uncalled_notification u (email_of be u)
            (GenerateAdminNotifications.uncalledLeads be u now)
      /\ GenerateAdminNotifications.uncalledLeads be u now <> []).
Proof.
  destruct (admin_pushed_cases be now u) as [-> | ->]; [contradiction|].
  intros H. apply in_app_or in H. destruct H as [H|H].
  - left. apply push_if_any_admin_in. exact H.
  - apply in_app_or in H. destruct H as [H|H].
    + right. left. apply push_if_any_admin_in. exact H.
    + right. right. apply push_if_any_admin_in. exact H.
Qed.

(** In the auto-generate function and on the admin screen, from a bucket
    whose query was answered. *)
Lemma auto_pushed_from_buckets be now u n :
  In n (pushed (AutoGenerateNotifications.process_user be now u)) ->
  (n = AutoGenerateNotifications.overdue_notification u (email_of be u)
         (AutoGenerateNotifications.overdueLeads be u now)
   /\ AutoGenerateNotifications.overdueLeads be u now <> []
   /\ faults be (SelectOverdue u) = Healthy)
  \/ (n = AutoGenerateNotifications.stale_notification u (email_of be u)
            (AutoGenerateNotifications.staleLeads be u now)
      /\ AutoGenerateNotifications.staleLeads be u now <> []
      /\ faults be (SelectStale u) = Healthy).
Proof.
  destruct (auto_pushed_cases be now u) as [-> | ->]; [contradiction|].
  intros H. apply in_app_or in H.
  destruct H as [H|H]; apply push_if_any_auto_in in H;
    destruct H as [found [Ha [-> Hne]]]; apply answered_some in Ha;
    destruct Ha as [-> Hf]; [left|right]; repeat split; assumption.
Qed.

Lemma sample_admin_overdue u mail found :
  sample (n_data (GenerateAdminNotifications.overdue_notification u mail found))
  = Js.slice0 10 found.
Proof.
  unfold GenerateAdminNotifications.overdue_notification. cbn [n_data sample].
  apply app_nil_r.
Qed.

Lemma sample_admin_uncalled u mail found :
  sample (n_data (GenerateAdminNotifications.uncalled_notification u mail found))
  = Js.slice0 10 found.
Proof.
  unfold GenerateAdminNotifications.uncalled_notification. cbn [n_data sample].
  apply app_nil_r.
Qed.

Lemma sample_auto_overdue u mail found :
  sample (n_data (AutoGenerateNotifications.overdue_notification u mail found))
  = Js.slice0 5 found.
Proof.
  unfold AutoGenerateNotifications.overdue_notification. cbn [n_data sample].
  apply app_nil_r.
Qed.

(** C2 (as amended).  A lead that is not closed and was last contacted
    more than 4 days and at most 14 days before the clock reading of its
    salesman is in the overdue bucket and not in the stale bucket, at the
    two HTTP functions (the admin screen runs the queries of
    auto-generate-notifications).  Whatever fails, a notification that an
    iteration pushes and whose sample names the lead is pushed by the
    iteration of its salesman and is his 4-day overdue notification (or,
    in generate-admin-notifications, his uncalled notification): the
    stale notification never names it.  When the queries of the salesman
    are answered the 4-day overdue notification that counts it is
    pushed.  In generate-admin-notifications the lead is moreover in the
    uncalled bucket exactly when its call_status is not_called and it was
    created more than 14 days ago. *)
Theorem C2_overdue_between_4_and_14_days be now u l :
  primary_key be -> In l (leads be) ->
  lead_user_id l = Some u -> ~ closed l ->
  days 4 < elapsed now l -> elapsed now l <= days 14 ->
  (in_bucket l (GenerateAdminNotifications.overdueLeads be u now)
   /\ ~ in_bucket l (GenerateAdminNotifications.staleLeads be u now)
   /\ (in_bucket l (GenerateAdminNotifications.uncalledLeads be u now)
       <-> lead_call_status l = "not_called" /\ days 14 < now - lead_created_at l))
  /\ (in_bucket l (AutoGenerateNotifications.overdueLeads be u now)
      /\ ~ in_bucket l (AutoGenerateNotifications.staleLeads be u now))
  /\ (forall v n,
        In n (pushed (GenerateAdminNotifications.process_user be now v)) ->
        In (lead_id l) (map sum_id (sample (n_data n))) ->
        v = u
        /\ (n = GenerateAdminNotifications.overdue_notification u (email_of be u)
                  (GenerateAdminNotifications.overdueLeads be u now)
            \/ n = GenerateAdminNotifications.uncalled_notification u (email_of be u)
                     (GenerateAdminNotifications.uncalledLeads be u now)))
  /\ (forall v n,
        In n (pushed (AutoGenerateNotifications.process_user be now v)) ->
        In (lead_id l) (map sum_id (sample (n_data n))) ->
        v = u
        /\ n = AutoGenerateNotifications.overdue_notification u (email_of be u)
                 (AutoGenerateNotifications.overdueLeads be u now))
  /\ (healthy_for be u ->
      In (GenerateAdminNotifications.overdue_notification u (email_of be u)
            (GenerateAdminNotifications.overdueLeads be u now))
         (pushed (GenerateAdminNotifications.process_user be now u))
      /\ In (AutoGenerateNotifications.overdue_notification u (email_of be u)
               (AutoGenerateNotifications.overdueLeads be u now))
            (pushed (AutoGenerateNotifications.process_user be now u))).
Proof.
  intros Hpk Hin Hu Hnc Hlo Hhi. unfold elapsed, days in *.
  assert (Hover : not_contacted_since u (now - 4 * 24 * 60 * 60 * 1000) l = true).
  { apply not_contacted_since_spec. repeat split; [assumption|lia|assumption]. }
  assert (Hstale : forall v, not_contacted_since v (now - 14 * 24 * 60 * 60 * 1000) l <> true).
  { intros v H. apply not_contacted_since_spec in H. destruct H as [_ [H _]]. lia. }
  assert (Howner : forall v t, not_contacted_since v t l = true -> v = u).
  { intros v t H. apply not_contacted_since_spec in H. destruct H as [H _]. congruence. }
  assert (A1 : in_bucket l (GenerateAdminNotifications.overdueLeads be u now)).
  { apply in_bucket_filter; auto using sum_id_contact_call. }
  assert (A2 : forall v, ~ in_bucket l (GenerateAdminNotifications.staleLeads be v now)).
  { intros v H. apply in_bucket_filter in H; auto using sum_id_contact_call.
    exact (Hstale v H). }
  assert (B1 : in_bucket l (AutoGenerateNotifications.overdueLeads be u now)).
  { apply in_bucket_filter; auto using sum_id_contact. }
  assert (B2 : forall v, ~ in_bucket l (AutoGenerateNotifications.staleLeads be v now)).
  { intros v H. apply in_bucket_filter in H; auto using sum_id_contact.
    exact (Hstale v H). }
  split; [split; [exact A1|split; [exact (A2 u)|split]]|].
  - intros H. apply in_bucket_filter in H; auto using sum_id_created.
    apply never_called_since_spec in H. split; [tauto|lia].
  - intros [Hc Ht]. apply in_bucket_filter; auto using sum_id_created.
    apply never_called_since_spec. repeat split; [assumption|assumption|lia].
  - split; [split; [exact B1|exact (B2 u)]|]. split; [|split].
    + intros v n Hn Hs. apply admin_pushed_from_buckets in Hn.
      destruct Hn as [[-> _]|[[-> _]|[-> _]]].
      * rewrite sample_admin_overdue in Hs. apply in_sample_in_bucket in Hs.
        apply in_bucket_filter in Hs; auto using sum_id_contact_call.
        apply Howner in Hs. subst v. split; [reflexivity|left; reflexivity].
      * rewrite sample_admin_stale in Hs. apply in_sample_in_bucket in Hs.
        destruct (A2 v Hs).
      * rewrite sample_admin_uncalled in Hs. apply in_sample_in_bucket in Hs.
        apply in_bucket_filter in Hs; auto using sum_id_created.
        apply never_called_since_spec in Hs. destruct Hs as [Hv _].
        assert (v = u) by congruence. subst v.
        split; [reflexivity|right; reflexivity].
    + intros v n Hn Hs. apply auto_pushed_from_buckets in Hn.
      destruct Hn as [[-> _]|[-> _]].
      * rewrite sample_auto_overdue in Hs. apply in_sample_in_bucket in Hs.
        apply in_bucket_filter in Hs; auto using sum_id_contact.
        apply Howner in Hs. subst v. split; reflexivity.
      * rewrite sample_auto_stale in Hs. apply in_sample_in_bucket in Hs.
        destruct (B2 v Hs).
    + intros Hh. split.
      * rewrite admin_process_user_healthy by assumption. unfold pushed. simpl.
        apply in_or_app. left.
        rewrite push_if_any_admin by (eapply in_bucket_nonempty; exact A1).
        left. reflexivity.
      * rewrite auto_process_user_healthy by assumption. unfold pushed. simpl.
        apply in_or_app. left. unfold AutoGenerateNotifications.push_if_any.
        destruct (AutoGenerateNotifications.overdueLeads be u now) eqn:E.
        -- exact B1.
        -- left. reflexivity.
Qed.

Ltac distinct_keys :=
  unfold primary_key; simpl;
  repeat (constructor; [simpl; intuition discriminate|]); constructor.

Ltac not_closed := let H := fresh in intros [H|H]; discriminate H.

Lemma testLeads_primary_key f : primary_key (backend_of testLeads f).
Proof. distinct_keys. Qed.

(** The five-day test lead is counted as overdue and not as stale. *)
Lemma C2_witness_five_days :
  let l := lead_aged "t1" "Test Lead - 5 Days Overdue" "Test Company A"
                     "prospect" "not_called" (days 5) (days 10) in
  let be := backend_of testLeads healthy in
  (days 4 < elapsed sample_now l /\ elapsed sample_now l <= days 14)
  /\ in_bucket l (GenerateAdminNotifications.overdueLeads be "u1" sample_now)
  /\ ~ in_bucket l (GenerateAdminNotifications.staleLeads be "u1" sample_now)
  /\ in_bucket l (AutoGenerateNotifications.overdueLeads be "u1" sample_now)
  /\ ~ in_bucket l (AutoGenerateNotifications.staleLeads be "u1" sample_now).
Proof.
  intros l be.
  assert (Hlo : days 4 < elapsed sample_now l) by (vm_compute; reflexivity).
  assert (Hhi : elapsed sample_now l <= days 14) by (vm_compute; discriminate).
  assert (Hnc : ~ closed l) by not_closed.
  assert (Hin : In l (leads be)) by (left; reflexivity).
  pose proof (C2_overdue_between_4_and_14_days be sample_now "u1" l
                (testLeads_primary_key healthy) Hin eq_refl Hnc Hlo Hhi) as H.
  destruct H as [[A1 [A2 _]] [[B1 B2] _]].
  repeat split; assumption.
Defined.

(** C2 as stated fails at the lower edge: a lead last contacted exactly
    four days ago is in the range of the claim and is in no overdue
    bucket, and no notification is generated for it. *)
Lemma C2_counterexample_exactly_four_days :
  let l := lead_at_four_days in
  let be := backend_of [l] healthy in
  In l (leads be) /\ ~ closed l
  /\ days 4 <= elapsed sample_now l /\ elapsed sample_now l < days 14
  /\ ~ in_bucket l (GenerateAdminNotifications.overdueLeads be "u1" sample_now)
  /\ ~ in_bucket l (AutoGenerateNotifications.overdueLeads be "u1" sample_now)
  /\ collected_admin be sample_clock = []
  /\ collected_auto be sample_clock = [].
Proof.
  intros l be.
  split; [left; reflexivity|].
  split; [not_closed|].
  split; [vm_compute; discriminate|].
  split; [vm_compute; reflexivity|].
  split; [vm_compute; tauto|].
  split; [vm_compute; tauto|].
  split; vm_compute; reflexivity.
Qed.

(** ** Closed leads *)

(** At every call site a closed lead is in neither staleness bucket. *)
Lemma closed_lead_never_stale be u now l :
  primary_key be -> In l (leads be) -> closed l ->
  ~ in_bucket l (GenerateAdminNotifications.overdueLeads be u now)
  /\ ~ in_bucket l (GenerateAdminNotifications.staleLeads be u now)
  /\ ~ in_bucket l (AutoGenerateNotifications.overdueLeads be u now)
  /\ ~ in_bucket l (AutoGenerateNotifications.staleLeads be u now).
Proof.
  intros Hpk Hin Hc.
  repeat split; intros H;
    (apply in_bucket_filter in H; [|reflexivity|assumption|assumption]);
    rewrite closed_not_contacted_since in H by assumption; discriminate.
Qed.

(** C1 (the code departs from it).  The uncalled query of
    generate-admin-notifications does not look at [status]: for a table
    holding one closed-won lead that was never called and is three weeks
    old, the lead is in the uncalled bucket, and the run stores one
    [no_calls] notification whose sample names the lead. *)
Theorem C1_closed_lead_in_uncalled_bucket :
  let l := lead_won_uncalled in
  let be := backend_of [l] healthy in
  let mail := "jukka@envaire.com" in
  closed l
  /\ in_bucket l (GenerateAdminNotifications.uncalledLeads be "u1" sample_now)
  /\ collected_admin be sample_clock
     = [GenerateAdminNotifications.uncalled_notification "u1" mail [select_created l]]
  /\ contents (fst (GenerateAdminNotifications.serve "POST" be sample_clock empty_store))
     = [mkNewRow (GenerateAdminNotifications.uncalled_notification "u1" mail [select_created l])
                 false]
  /\ In (lead_id l)
        (map sum_id
             (sample (n_data (GenerateAdminNotifications.uncalled_notification
                                "u1" mail [select_created l])))).
Proof.
  intros l be mail.
  split; [left; reflexivity|].
  split; [vm_compute; tauto|].
  split; [vm_compute; reflexivity|].
  split; [vm_compute; reflexivity|].
  vm_compute. tauto.
Qed.

(** ** Priorities *)

Ltac pushed_cases H :=
  unfold GenerateAdminNotifications.push_if_any,
    AutoGenerateNotifications.push_if_any in H;
  repeat match type of H with
         | In _ (_ ++ _) => apply in_app_or in H; destruct H as [H|H]
         | In _ (if ?c then _ else _) => destruct c
         | In _ [] => contradiction
         | In _ [_] => destruct H as [H|[]]; subst
         end.

(** Whatever the faults, what an iteration of generate-admin-notifications
    pushes is built from the three buckets of the salesman. *)
Lemma admin_pushed_shape be now u n :
  In n (pushed (GenerateAdminNotifications.process_user be now u)) ->
  n = GenerateAdminNotifications.overdue_notification u (email_of be u)
        (GenerateAdminNotifications.overdueLeads be u now)
  \/ n = GenerateAdminNotifications.stale_notification u (email_of be u)
           (GenerateAdminNotifications.staleLeads be u now)
  \/ n = GenerateAdminNotifications.uncalled_notification u (email_of be u)
           (GenerateAdminNotifications.uncalledLeads be u now).
Proof.
  unfold GenerateAdminNotifications.process_user, email_of, run_query, pushed.
  destruct (select_email be u) as [d|e|e]; simpl; try contradiction;
    (destruct (faults be (SelectOverdue u)); simpl; try contradiction;
     destruct (faults be (SelectStale u)); simpl; try contradiction;
     destruct (faults be (SelectUncalled u)); simpl; try contradiction;
     intros H; pushed_cases H; auto).
Qed.

(** The auto-generate function and the admin screen push staleness
    notifications only. *)
Lemma auto_pushed_shape be now u n :
  In n (pushed (AutoGenerateNotifications.process_user be now u)) ->
  n = AutoGenerateNotifications.overdue_notification u (email_of be u)
        (AutoGenerateNotifications.overdueLeads be u now)
  \/ n = AutoGenerateNotifications.stale_notification u (email_of be u)
           (AutoGenerateNotifications.staleLeads be u now).
Proof.
  unfold AutoGenerateNotifications.process_user, email_of, run_query, pushed.
  destruct (select_email be u) as [d|e|e]; simpl; try contradiction;
    (destruct (faults be (SelectOverdue u)); simpl; try contradiction;
     destruct (faults be (SelectStale u)); simpl; try contradiction;
     intros H; pushed_cases H; auto).
Qed.

(** C3 (as amended).  Whatever fails, a notification that an iteration
    of generate-admin-notifications pushes is the overdue notification of
    the salesman, with priority high above 20 overdue leads, medium above
    10 and low otherwise, or his stale notification, always high, or his
    uncalled notification, high above 5 uncalled leads, medium above 2
    and low otherwise; the counts are those of the rows the queries
    select.  In auto-generate-notifications and on the admin screen a
    pushed notification is the overdue notification, high above 10
    overdue leads and medium otherwise, or the stale notification, always
    high; no uncalled notification is built.  With the queries of the
    salesman answered, the notification of every bucket that is not empty
    is pushed. *)
Theorem C3_priority_thresholds be now u n :
  let overdue := List.length (GenerateAdminNotifications.overdueLeads be u now) in
  let uncalled := List.length (GenerateAdminNotifications.uncalledLeads be u now) in
  let overdue' := List.length (AutoGenerateNotifications.overdueLeads be u now) in
  (In n (pushed (GenerateAdminNotifications.process_user be now u)) ->
   (n = GenerateAdminNotifications.overdue_notification u (email_of be u)
          (GenerateAdminNotifications.overdueLeads be u now)
    /\ ((20 < overdue)%nat -> n_priority n = high)
    /\ ((10 < overdue <= 20)%nat -> n_priority n = medium)
    /\ ((overdue <= 10)%nat -> n_priority n = low))
   \/ (n = GenerateAdminNotifications.stale_notification u (email_of be u)
             (GenerateAdminNotifications.staleLeads be u now)
       /\ n_priority n = high)
   \/ (n = GenerateAdminNotifications.uncalled_notification u (email_of be u)
             (GenerateAdminNotifications.uncalledLeads be u now)
       /\ ((5 < uncalled)%nat -> n_priority n = high)
       /\ ((2 < uncalled <= 5)%nat -> n_priority n = medium)
       /\ ((uncalled <= 2)%nat -> n_priority n = low)))
  /\ (In n (pushed (AutoGenerateNotifications.process_user be now u))
      \/ In n (pushed (AdminNotifications.process_user be now u)) ->
      n_type n = stale_lead
      /\ ((n = AutoGenerateNotifications.overdue_notification u (email_of be u)
                 (AutoGenerateNotifications.overdueLeads be u now)
           /\ ((10 < overdue')%nat -> n_priority n = high)
           /\ ((overdue' <= 10)%nat -> n_priority n = medium))
          \/ (n = AutoGenerateNotifications.stale_notification u (email_of be u)
                    (AutoGenerateNotifications.staleLeads be u now)
              /\ n_priority n = high)))
  /\ (healthy_for be u ->
      (GenerateAdminNotifications.overdueLeads be u now <> [] ->
       In (GenerateAdminNotifications.overdue_notification u (email_of be u)
             (GenerateAdminNotifications.overdueLeads be u now))
          (pushed (GenerateAdminNotifications.process_user be now u)))
      /\ (GenerateAdminNotifications.staleLeads be u now <> [] ->
          In (GenerateAdminNotifications.stale_notification u (email_of be u)
                (GenerateAdminNotifications.staleLeads be u now))
             (pushed (GenerateAdminNotifications.process_user be now u)))
      /\ (GenerateAdminNotifications.uncalledLeads be u now <> [] ->
          In (GenerateAdminNotifications.uncalled_notification u (email_of be u)
                (GenerateAdminNotifications.uncalledLeads be u now))
             (pushed (GenerateAdminNotifications.process_user be now u)))
      /\ (AutoGenerateNotifications.overdueLeads be u now <> [] ->
          In (AutoGenerateNotifications.overdue_notification u (email_of be u)
                (AutoGenerateNotifications.overdueLeads be u now))
             (pushed (AutoGenerateNotifications.process_user be now u)))
      /\ (AutoGenerateNotifications.staleLeads be u now <> [] ->
          In (AutoGenerateNotifications.stale_notification u (email_of be u)
                (AutoGenerateNotifications.staleLeads be u now))
             (pushed (AutoGenerateNotifications.process_user be now u)))).
Proof.
  intros overdue uncalled overdue'. split; [|split].
  - intros Hn. apply admin_pushed_from_buckets in Hn.
    destruct Hn as [[-> _]|[[-> _]|[-> _]]].
    + left. split; [reflexivity|].
      unfold GenerateAdminNotifications.overdue_notification,
        GenerateAdminNotifications.overdue_priority. cbn [n_priority]. fold overdue.
      repeat split; intros H;
        destruct (Nat.ltb_spec 20 overdue); destruct (Nat.ltb_spec 10 overdue);
        try reflexivity; lia.
    + right. left. split; reflexivity.
    + right. right. split; [reflexivity|].
      unfold GenerateAdminNotifications.uncalled_notification,
        GenerateAdminNotifications.uncalled_priority. cbn [n_priority]. fold uncalled.
      repeat split; intros H;
        destruct (Nat.ltb_spec 5 uncalled); destruct (Nat.ltb_spec 2 uncalled);
        try reflexivity; lia.
  - intros Hn.
    assert (Hn' : In n (pushed (AutoGenerateNotifications.process_user be now u)))
      by (destruct Hn as [Hn|Hn]; exact Hn).
    apply auto_pushed_from_buckets in Hn'.
    destruct Hn' as [[-> _]|[-> _]]; (split; [reflexivity|]).
    + left. split; [reflexivity|].
      unfold AutoGenerateNotifications.overdue_notification,
        AutoGenerateNotifications.overdue_priority. cbn [n_priority]. fold overdue'.
      split; intros H; destruct (Nat.ltb_spec 10 overdue'); try reflexivity; lia.
    + right. split; reflexivity.
  - intros Hh.
    rewrite admin_process_user_healthy, auto_process_user_healthy by assumption.
    unfold pushed. cbn [snd].
    repeat split; intros Hne.
    + apply in_or_app. left. rewrite push_if_any_admin by exact Hne.
      left. reflexivity.
    + apply in_or_app. right. apply in_or_app. left.
      rewrite push_if_any_admin by exact Hne. left. reflexivity.
    + apply in_or_app. right. apply in_or_app. right.
      rewrite push_if_any_admin by exact Hne. left. reflexivity.
    + apply in_or_app. left. unfold AutoGenerateNotifications.push_if_any.
      destruct (AutoGenerateNotifications.overdueLeads be u now);
        [destruct Hne; reflexivity|left; reflexivity].
    + apply in_or_app. right. unfold AutoGenerateNotifications.push_if_any.
      destruct (AutoGenerateNotifications.staleLeads be u now);
        [destruct Hne; reflexivity|left; reflexivity].
Qed.

(** Twenty-five overdue leads of one salesman at
    generate-admin-notifications: the overdue notification is pushed with
    priority high. *)
Lemma C3_witness_twenty_five :
  let be := backend_of (overdue_leads 25) healthy in
  let n := GenerateAdminNotifications.overdue_notification "u1" (email_of be "u1")
             (GenerateAdminNotifications.overdueLeads be "u1" sample_now) in
  List.length (GenerateAdminNotifications.overdueLeads be "u1" sample_now) = 25%nat
  /\ In n (pushed (GenerateAdminNotifications.process_user be sample_now "u1"))
  /\ n_priority n = high.
Proof.
  intros be n.
  destruct (C3_priority_thresholds be sample_now "u1" n) as [Hadmin [_ Hpushed]].
  assert (Hlen : List.length (GenerateAdminNotifications.overdueLeads be "u1" sample_now)
                 = 25%nat) by (vm_compute; reflexivity).
  assert (Hh : healthy_for be "u1") by (intros q _; reflexivity).
  assert (Hne : GenerateAdminNotifications.overdueLeads be "u1" sample_now <> []).
  { intros H. rewrite H in Hlen. discriminate Hlen. }
  assert (Hin : In n (pushed (GenerateAdminNotifications.process_user be sample_now "u1")))
    by exact (proj1 (Hpushed Hh) Hne).
  split; [exact Hlen|]. split; [exact Hin|].
  destruct (Hadmin Hin) as [[_ [Hhigh _]]|[[_ H]|[He _]]].
  - apply Hhigh. rewrite Hlen. lia.
  - exact H.
  - apply (f_equal n_type) in He. discriminate He.
Defined.

(** Twenty-five, twelve and five overdue leads of one salesman: a run of
    generate-admin-notifications collects one notification, of priority
    high, medium and low. *)
Lemma admin_priority_examples :
  map n_priority (collected_admin (backend_of (overdue_leads 25) healthy) sample_clock)
  = [high]
  /\ map n_priority (collected_admin (backend_of (overdue_leads 12) healthy) sample_clock)
     = [medium]
  /\ map n_priority (collected_admin (backend_of (overdue_leads 5) healthy) sample_clock)
     = [low].
Proof. repeat split; vm_compute; reflexivity. Qed.

(** C3 as stated fails at auto-generate-notifications: twelve overdue
    leads of one salesman give priority high and five give medium. *)
Lemma C3_counterexample_auto_generate :
  let be12 := backend_of (overdue_leads 12) healthy in
  let be5 := backend_of (overdue_leads 5) healthy in
  List.length (AutoGenerateNotifications.overdueLeads be12 "u1" sample_now) = 12%nat
  /\ map n_priority (collected_auto be12 sample_clock) = [high]
  /\ List.length (AutoGenerateNotifications.overdueLeads be5 "u1" sample_now) = 5%nat
  /\ map n_priority (collected_auto be5 sample_clock) = [medium].
Proof.
  repeat split; vm_compute; reflexivity.
Qed.

(** ** Regeneration *)

Lemma number_rows_contents id t news :
  map (fun r => mkNewRow (row_notification r) (row_is_read r)) (number_rows id t news)
  = news.
Proof.
  revert id. induction news as [|n rest IH]; intros id; simpl.
  - reflexivity.
  - rewrite IH. destruct n. reflexivity.
Qed.

Lemma number_rows_created_at id t news :
  Forall (fun r => row_created_at r = t) (number_rows id t news).
Proof.
  revert id. induction news as [|n rest IH]; intros id; simpl; constructor; auto.
Qed.

Lemma number_rows_ids id t news :
  Forall (fun r => (id <= row_id r)%nat) (number_rows id t news).
Proof.
  revert id. induction news as [|n rest IH]; intros id; simpl; constructor.
  - simpl. lia.
  - eapply Forall_impl; [|apply IH]. simpl. intros r Hr. lia.
Qed.

Lemma filter_all {A : Type} (p : A -> bool) (xs : list A) :
  Forall (fun x => p x = true) xs -> filter p xs = xs.
Proof.
  induction 1 as [|x xs Hx _ IH]; simpl; [reflexivity|].
  rewrite Hx, IH. reflexivity.
Qed.

Lemma filter_none {A : Type} (p : A -> bool) (xs : list A) :
  Forall (fun x => p x = false) xs -> filter p xs = [].
Proof.
  induction 1 as [|x xs Hx _ IH]; simpl; [reflexivity|].
  rewrite Hx, IH. reflexivity.
Qed.

Lemma after_admin_rows be clock s :
  store_healthy be ->
  rows (after_admin be clock s)
  = rows (delete_where (gte_created_at (clock_start clock - 24 * 60 * 60 * 1000)) s)
    ++ number_rows (next_id s) (clock_insert clock)
         (with_is_read_false (collected_admin be clock)).
Proof.
  intros [Hu [Hd Hi]]. unfold after_admin.
  rewrite admin_serve_run by (try assumption; intros e; rewrite Hd; discriminate).
  unfold cleared_admin. rewrite Hd, Hi.
  destruct (collected_admin be clock) as [|n ns]; simpl.
  - rewrite app_nil_r. reflexivity.
  - reflexivity.
Qed.

Lemma after_auto_rows be clock s :
  store_healthy be ->
  rows (after_auto be clock s)
  = rows (delete_where (lt_row_created_at (clock_start clock - 24 * 60 * 60 * 1000)) s)
    ++ number_rows (next_id s) (clock_insert clock)
         (with_is_read_false (collected_auto be clock)).
Proof.
  intros [Hu [Hd Hi]]. unfold after_auto.
  rewrite auto_serve_run by (try assumption; intros e; rewrite Hd; discriminate).
  unfold cleared_auto. rewrite Hd, Hi.
  destruct (collected_auto be clock) as [|n ns]; simpl.
  - rewrite app_nil_r. reflexivity.
  - reflexivity.
Qed.

Lemma after_screen_rows be clock s :
  store_healthy be ->
  rows (after_screen be clock s)
  = rows (delete_where (neq_id 0) s)
    ++ number_rows (next_id s) (clock_insert clock)
         (with_is_read_false (collected_screen be clock)).
Proof.
  intros [Hu [Hd Hi]]. unfold after_screen.
  rewrite screen_run by (try assumption; intros e; rewrite Hd; discriminate).
  unfold cleared_screen. rewrite Hd, Hi.
  destruct (collected_screen be clock) as [|n ns]; simpl.
  - rewrite app_nil_r. reflexivity.
  - reflexivity.
Qed.

Lemma rows_delete_where matches s :
  rows (delete_where matches s) = filter (fun r => negb (matches r)) (rows s).
Proof. reflexivity. Qed.

Lemma Forall_filter_impl {A : Type} (p q : A -> bool) (xs : list A) :
  (forall x, q x = true -> p x = true) ->
  Forall (fun x => p x = true) (filter q xs).
Proof.
  intros H. apply Forall_forall. intros x Hx. apply filter_In in Hx.
  apply H. tauto.
Qed.

(** C4 (as amended).  Two runs, the second starting no later than 24
    hours after the rows of the first were inserted, with the statements
    on the table succeeding.  In generate-admin-notifications the second
    run deletes the rows of the first: afterwards the table holds the rows
    that both deletions spared (they are older than 24 hours) and exactly
    the notifications the second run collected, each once; so it holds
    what it held after the first run whenever both runs collect the same
    notifications.  On the admin screen every row is deleted first, so the
    table holds exactly the collected notifications after each run.  In
    auto-generate-notifications only rows older than 24 hours are
    deleted: the rows of the first run stay and the table holds the
    notifications of both runs. *)
Theorem C4_regeneration_twice be c1 c2 s :
  store_healthy be ->
  clock_start c2 - 24 * 60 * 60 * 1000 <= clock_insert c1 ->
  contents (after_admin be c2 (after_admin be c1 s))
  = contents (delete_where (gte_created_at (clock_start c2 - 24 * 60 * 60 * 1000))
               (delete_where (gte_created_at (clock_start c1 - 24 * 60 * 60 * 1000)) s))
    ++ with_is_read_false (collected_admin be c2)
  /\ (clock_start c1 <= clock_start c2 ->
      collected_admin be c2 = collected_admin be c1 ->
      contents (after_admin be c2 (after_admin be c1 s)) = contents (after_admin be c1 s))
  /\ (proper_keys s ->
      contents (after_screen be c1 s) = with_is_read_false (collected_screen be c1)
      /\ contents (after_screen be c2 (after_screen be c1 s))
         = with_is_read_false (collected_screen be c2))
  /\ contents (after_auto be c2 (after_auto be c1 s))
     = contents (delete_where (lt_row_created_at (clock_start c2 - 24 * 60 * 60 * 1000))
                  (delete_where (lt_row_created_at (clock_start c1 - 24 * 60 * 60 * 1000)) s))
       ++ with_is_read_false (collected_auto be c1)
       ++ with_is_read_false (collected_auto be c2).
Proof.
  intros Hh Hwin.
  assert (Htwice : contents (after_admin be c2 (after_admin be c1 s))
                   = contents (delete_where
                                 (gte_created_at (clock_start c2 - 24 * 60 * 60 * 1000))
                                 (delete_where
                                    (gte_created_at (clock_start c1 - 24 * 60 * 60 * 1000)) s))
                     ++ with_is_read_false (collected_admin be c2)).
  { unfold contents.
    rewrite (after_admin_rows be c2) by assumption.
    rewrite !rows_delete_where.
    rewrite !(after_admin_rows be c1) by assumption.
    rewrite !rows_delete_where, filter_app.
    rewrite (filter_none _ (number_rows _ _ _)).
    - rewrite app_nil_r, !map_app, !number_rows_contents. reflexivity.
    - eapply Forall_impl; [|apply number_rows_created_at].
      intros r Hr. simpl in Hr. unfold gte_created_at. rewrite Hr.
      rewrite negb_false_iff, Z.leb_le. exact Hwin. }
  split; [exact Htwice|]. split; [|split].
  - intros Hle Hsame. rewrite Htwice. unfold contents.
    rewrite (after_admin_rows be c1) by assumption.
    rewrite Hsame, !rows_delete_where, filter_all.
    + rewrite !map_app, !number_rows_contents. reflexivity.
    + apply Forall_filter_impl. intros r. unfold gte_created_at.
      rewrite !negb_true_iff, !Z.leb_gt. lia.
  - intros [Hkeys Hnext].
    assert (Hfirst : rows (after_screen be c1 s)
                     = number_rows (next_id s) (clock_insert c1)
                         (with_is_read_false (collected_screen be c1))).
    { rewrite after_screen_rows by assumption. rewrite rows_delete_where.
      rewrite (filter_none _ (rows s)); [reflexivity|].
      eapply Forall_impl; [|exact Hkeys]. intros r Hr. simpl in Hr.
      unfold neq_id. rewrite negb_involutive. apply Nat.eqb_neq. exact Hr. }
    split.
    + unfold contents. rewrite Hfirst. apply number_rows_contents.
    + unfold contents. rewrite after_screen_rows by assumption.
      rewrite rows_delete_where, Hfirst.
      rewrite (filter_none _ (number_rows _ _ _)).
      * simpl. apply number_rows_contents.
      * eapply Forall_impl; [|apply number_rows_ids]. intros r Hr. simpl in Hr.
        unfold neq_id. rewrite negb_involutive. apply Nat.eqb_neq. lia.
  - unfold contents.
    rewrite (after_auto_rows be c2) by assumption.
    rewrite !rows_delete_where.
    rewrite !(after_auto_rows be c1) by assumption.
    rewrite !rows_delete_where, filter_app.
    rewrite (filter_all _ (number_rows _ _ _)).
    + rewrite !map_app, !number_rows_contents, app_assoc. reflexivity.
    + eapply Forall_impl; [|apply number_rows_created_at].
      intros r Hr. simpl in Hr. unfold lt_row_created_at. rewrite Hr.
      rewrite negb_true_iff, Z.ltb_ge. exact Hwin.
Qed.

Lemma healthy_store f :
  (forall q, f q = Healthy) -> forall ls, store_healthy (backend_of ls f).
Proof. intros H ls. repeat split; apply H. Qed.

(** The test leads, regenerated twice at the same clock readings. *)
Lemma C4_witness_test_leads :
  let be := backend_of testLeads healthy in
  contents (after_admin be sample_clock (after_admin be sample_clock empty_store))
  = contents (after_admin be sample_clock empty_store)
  /\ contents (after_screen be sample_clock (after_screen be sample_clock empty_store))
     = with_is_read_false (collected_screen be sample_clock).
Proof.
  intros be.
  assert (Hh : store_healthy be) by (apply healthy_store; reflexivity).
  assert (Hwin : clock_start sample_clock - 24 * 60 * 60 * 1000 <= clock_insert sample_clock)
    by (vm_compute; discriminate).
  destruct (C4_regeneration_twice be sample_clock sample_clock empty_store Hh Hwin)
    as [_ [Hadmin [Hscreen _]]].
  split.
  - apply Hadmin; [apply Z.le_refl|reflexivity].
  - apply Hscreen. split; [constructor|discriminate].
Defined.

(** C4 as stated fails at auto-generate-notifications: a second run over
    the test leads leaves each notification of the first run in the table
    and adds it again. *)
Lemma C4_counterexample_auto_generate :
  let be := backend_of testLeads healthy in
  let once := after_auto be sample_clock empty_store in
  let twice := after_auto be sample_clock once in
  List.length (rows once) = 2%nat
  /\ List.length (rows twice) = 4%nat
  /\ contents twice = contents once ++ contents once
  /\ contents twice <> contents once.
Proof.
  intros be once twice.
  split; [vm_compute; reflexivity|].
  split; [vm_compute; reflexivity|].
  split; [vm_compute; reflexivity|].
  intros H. apply (f_equal (@List.length NewRow)) in H.
  vm_compute in H. discriminate H.
Qed.

(** The set generate-admin-notifications collects follows the clock: for
    a lead last contacted exactly four days before the first run, a second
    run one second later collects a notification the first did not, and
    the table after the second run differs from the table after the
    first. *)
Lemma admin_regeneration_follows_the_clock :
  let be := backend_of [lead_at_four_days] healthy in
  let later := mkClock (sample_now + 1000) (fun _ => sample_now + 1000) (sample_now + 1000) in
  collected_admin be sample_clock = []
  /\ List.length (collected_admin be later) = 1%nat
  /\ contents (after_admin be later (after_admin be sample_clock empty_store))
     <> contents (after_admin be sample_clock empty_store).
Proof.
  intros be later.
  split; [vm_compute; reflexivity|].
  split; [vm_compute; reflexivity|].
  intros H. apply (f_equal (@List.length NewRow)) in H.
  vm_compute in H. discriminate H.
Qed.

(** ** A failing bulk insert *)

Lemma nonempty_length {A : Type} (xs : list A) :
  xs <> [] -> (0 <? List.length xs)%nat = true.
Proof. destruct xs; [contradiction|reflexivity]. Qed.

(** C5 (as amended).  With notifications to insert, when the bulk insert
    resolves with an error, generate-admin-notifications logs it, throws
    it, inserts nothing and answers 500 with the message of the error;
    auto-generate-notifications and the admin screen log the error and go
    on, and auto-generate-notifications answers 200 with its usual body.
    When the insert call is rejected instead, both HTTP functions answer
    500 with the message and the admin screen logs it. *)
Theorem C5_insert_failure be clock s e :
  faults be SelectUserIds = Healthy ->
  (forall x, faults be DeleteNotifications <> Rejects x) ->
  (faults be InsertNotifications = Fails e ->
   (collected_admin be clock <> [] ->
    GenerateAdminNotifications.serve "POST" be clock s
    = (cleared_admin be clock s,
       (clear_log_admin be ++ loop_log_admin be clock
          ++ [ConsoleError "Error inserting notifications:" e;
              ConsoleError "Error in generate-admin-notifications:" e],
        Normal (mkResponse 500 (BodyError e)))))
   /\ (collected_auto be clock <> [] ->
       AutoGenerateNotifications.serve "POST" be clock s
       = (cleared_auto be clock s,
          (loop_log_auto be clock ++ [ConsoleError "Error inserting notifications:" e],
           Normal (mkResponse 200
                     (BodySuccess (List.length (collected_auto be clock)) None)))))
   /\ (collected_screen be clock <> [] ->
       AdminNotifications.generateNotifications be clock s
       = (cleared_screen be s,
          (loop_log_screen be clock ++ [ConsoleError "Error inserting notifications:" e],
           Normal tt))))
  /\ (faults be InsertNotifications = Rejects e ->
      (collected_admin be clock <> [] ->
       GenerateAdminNotifications.serve "POST" be clock s
       = (cleared_admin be clock s,
          (clear_log_admin be ++ loop_log_admin be clock
             ++ [ConsoleError "Error in generate-admin-notifications:" e],
           Normal (mkResponse 500 (BodyError e)))))
      /\ (collected_auto be clock <> [] ->
          AutoGenerateNotifications.serve "POST" be clock s
          = (cleared_auto be clock s,
             (loop_log_auto be clock
                ++ [ConsoleError "Error in auto-generate-notifications:" e],
              Normal (mkResponse 500 (BodyError e)))))
      /\ (collected_screen be clock <> [] ->
          AdminNotifications.generateNotifications be clock s
          = (cleared_screen be s,
             (loop_log_screen be clock
                ++ [ConsoleError "Error generating notifications:" e],
              Normal tt)))).
Proof.
  intros Hu Hd.
  split; intros Hi; (split; [|split]); intros Hne.
  all: first [rewrite admin_serve_run by assumption
             |rewrite auto_serve_run by assumption
             |rewrite screen_run by assumption].
  all: rewrite (nonempty_length _ Hne), Hi; reflexivity.
Qed.

(** The insert of the two notifications of the test leads fails: only
    generate-admin-notifications answers 500. *)
Lemma C5_witness_test_leads :
  let be := backend_of testLeads insert_fails in
  let e := "new row violates row-level security policy" in
  snd (snd (GenerateAdminNotifications.serve "POST" be sample_clock empty_store))
  = Normal (mkResponse 500 (BodyError e))
  /\ rows (after_admin be sample_clock empty_store) = [].
Proof.
  intros be e.
  assert (Hu : faults be SelectUserIds = Healthy) by reflexivity.
  assert (Hd : forall x, faults be DeleteNotifications <> Rejects x) by discriminate.
  assert (Hi : faults be InsertNotifications = Fails e) by reflexivity.
  assert (Hne : collected_admin be sample_clock <> []) by (vm_compute; discriminate).
  destruct (C5_insert_failure be sample_clock empty_store e Hu Hd) as [Hfails _].
  destruct (Hfails Hi) as [Hadmin _].
  unfold after_admin. rewrite (Hadmin Hne). split; reflexivity.
Defined.

(** C5 as stated fails at auto-generate-notifications: the insert of the
    notifications of the test leads fails, nothing is stored, and the
    function answers 200 with [success: true]. *)
Lemma C5_counterexample_auto_generate :
  let be := backend_of testLeads insert_fails in
  let e := "new row violates row-level security policy" in
  faults be InsertNotifications = Fails e
  /\ AutoGenerateNotifications.serve "POST" be sample_clock empty_store
     = (empty_store,
        ([ConsoleError "Error inserting notifications:" e],
         Normal (mkResponse 200 (BodySuccess 2 None)))).
Proof.
  split; vm_compute; reflexivity.
Qed.

(** ** Failures of one salesman *)

Lemma concerns_other u v :
  v <> u ->
  concerns u (SelectEmail v) = false /\ concerns u (SelectOverdue v) = false
  /\ concerns u (SelectStale v) = false /\ concerns u (SelectUncalled v) = false.
Proof.
  intros H. simpl. apply String.eqb_neq in H. rewrite H. auto.
Qed.

(** An iteration looks only at the queries of its own salesman. *)
Lemma admin_iteration_independent be f clock u v :
  (forall q, concerns u q = false -> f q = faults be q) ->
  v <> u ->
  GenerateAdminNotifications.iteration (with_faults be f) clock v
  = GenerateAdminNotifications.iteration be clock v.
Proof.
  intros Hf Hv. destruct (concerns_other u v Hv) as [H1 [H2 [H3 H4]]].
  unfold GenerateAdminNotifications.iteration,
    GenerateAdminNotifications.process_user, select_email, run_query, with_faults.
  cbn [faults leads user_roles].
  rewrite (Hf _ H1), (Hf _ H2), (Hf _ H3), (Hf _ H4). reflexivity.
Qed.

Lemma auto_iteration_independent be f now u v :
  (forall q, concerns u q = false -> f q = faults be q) ->
  v <> u ->
  AutoGenerateNotifications.iteration (with_faults be f) now v
  = AutoGenerateNotifications.iteration be now v.
Proof.
  intros Hf Hv. destruct (concerns_other u v Hv) as [H1 [H2 [H3 H4]]].
  unfold AutoGenerateNotifications.iteration,
    AutoGenerateNotifications.process_user, select_email, run_query, with_faults.
  cbn [faults leads user_roles].
  rewrite (Hf _ H1), (Hf _ H2), (Hf _ H3). reflexivity.
Qed.

(** In generate-admin-notifications a lead query that is not answered
    costs the salesman all notifications and leaves one line on the
    console. *)
Lemma admin_failure_logged_and_skipped be clock u q :
  lead_query u q -> faults be q <> Healthy ->
  pushed (GenerateAdminNotifications.iteration be clock u) = []
  /\ exists label e,
       logged (GenerateAdminNotifications.iteration be clock u) = [ConsoleError label e].
Proof.
  intros Hq Hf.
  unfold GenerateAdminNotifications.iteration,
    GenerateAdminNotifications.process_user, run_query, pushed, logged.
  destruct (select_email be u) as [d|e0|e0];
    destruct (faults be (SelectOverdue u)) as [|e1|e1] eqn:E1;
    destruct (faults be (SelectStale u)) as [|e2|e2] eqn:E2;
    destruct (faults be (SelectUncalled u)) as [|e3|e3] eqn:E3;
    simpl;
    try (split; [reflexivity|eexists; eexists; reflexivity]).
  all: exfalso; destruct Hq as [->|[->| ->]]; apply Hf; assumption.
Qed.

Lemma concerns_cases u q :
  concerns u q = true ->
  q = SelectEmail u \/ q = SelectOverdue u \/ q = SelectStale u \/ q = SelectUncalled u.
Proof.
  destruct q; simpl; intros Hq; try discriminate;
    apply String.eqb_eq in Hq; subst; auto.
Qed.

Lemma select_email_rejects be u e :
  faults be (SelectEmail u) = Rejects e -> select_email be u = Rejected e.
Proof. intros H. unfold select_email. rewrite H. reflexivity. Qed.

(** A rejected query is caught by the [catch] of the iteration: in the
    auto-generate function this is the only failure that is reported. *)
Lemma auto_rejection_logged_and_skipped be now u q e :
  concerns u q = true -> q <> SelectUncalled u -> faults be q = Rejects e ->
  pushed (AutoGenerateNotifications.iteration be now u) = []
  /\ exists e',
       logged (AutoGenerateNotifications.iteration be now u)
       = [ConsoleError ("Error processing user " ++ u ++ ":")%string e'].
Proof.
  intros Hq Hnot Hf. apply concerns_cases in Hq.
  pose proof (select_email_rejects be u e) as Hmail.
  unfold AutoGenerateNotifications.iteration,
    AutoGenerateNotifications.process_user, run_query, pushed, logged.
  destruct (select_email be u) as [d|e0|e0] eqn:E0;
    destruct (faults be (SelectOverdue u)) as [|e1|e1] eqn:E1;
    destruct (faults be (SelectStale u)) as [|e2|e2] eqn:E2;
    simpl;
    try (split; [reflexivity|eexists; reflexivity]).
  all: exfalso; destruct Hq as [->|[->|[->| ->]]];
    try (specialize (Hmail Hf)); congruence.
Qed.

Lemma admin_email_rejection_logged_and_skipped be clock u e :
  faults be (SelectEmail u) = Rejects e ->
  GenerateAdminNotifications.iteration be clock u
  = ([ConsoleError ("Error processing user " ++ u ++ ":")%string e], Normal []).
Proof.
  intros H.
  unfold GenerateAdminNotifications.iteration,
    GenerateAdminNotifications.process_user.
  rewrite (select_email_rejects be u e H). reflexivity.
Qed.

(** In the auto-generate function a lead query that resolves with an
    error is not looked at: nothing is written and the other notification
    of the salesman is still pushed. *)
Lemma auto_error_result_silent be now u e :
  (forall x, faults be (SelectEmail u) <> Rejects x) ->
  faults be (SelectOverdue u) = Fails e ->
  faults be (SelectStale u) = Healthy ->
  AutoGenerateNotifications.iteration be now u
  = ([], Normal
      (AutoGenerateNotifications.push_if_any
         (AutoGenerateNotifications.stale_notification u (email_of be u))
         (Some (AutoGenerateNotifications.staleLeads be u now)))).
Proof.
  intros Hm Ho Hs.
  unfold AutoGenerateNotifications.iteration,
    AutoGenerateNotifications.process_user, run_query, email_of.
  rewrite Ho, Hs.
  assert (Hr : forall x, select_email be u <> Rejected x).
  { intros x. unfold select_email.
    destruct (faults be (SelectEmail u)) as [|e0|e0] eqn:E.
    - unfold single. destruct (filter _ _) as [|r [|r' rest]]; discriminate.
    - discriminate.
    - exfalso. apply (Hm e0). reflexivity. }
  destruct (select_email be u) as [d|e0|e0]; [| |exfalso; eapply Hr; reflexivity];
    reflexivity.
Qed.

(** In the auto-generate function, while no query of the salesman is
    rejected, nothing is written and every answered query gives its
    notification: a query that resolves with an error costs its own
    notification only. *)
Lemma auto_iteration_without_rejection be now u :
  (forall x, faults be (SelectEmail u) <> Rejects x) ->
  (forall x, faults be (SelectOverdue u) <> Rejects x) ->
  (forall x, faults be (SelectStale u) <> Rejects x) ->
  AutoGenerateNotifications.iteration be now u
  = ([], Normal
      (AutoGenerateNotifications.push_if_any
         (AutoGenerateNotifications.overdue_notification u (email_of be u))
         (answered be (SelectOverdue u) (AutoGenerateNotifications.overdueLeads be u now))
       ++ AutoGenerateNotifications.push_if_any
            (AutoGenerateNotifications.stale_notification u (email_of be u))
            (answered be (SelectStale u) (AutoGenerateNotifications.staleLeads be u now)))).
Proof.
  intros Hm Ho Hs.
  unfold AutoGenerateNotifications.iteration,
    AutoGenerateNotifications.process_user, run_query, email_of, answered.
  assert (Hr : forall x, select_email be u <> Rejected x).
  { intros x. unfold select_email.
    destruct (faults be (SelectEmail u)) as [|e0|e0] eqn:E.
    - unfold single. destruct (filter _ _) as [|r [|r' rest]]; discriminate.
    - discriminate.
    - exfalso. apply (Hm e0). reflexivity. }
  destruct (select_email be u) as [d|e0|e0]; [| |exfalso; eapply Hr; reflexivity];
    (destruct (faults be (SelectOverdue u)) as [|e1|e1];
     [| |exfalso; eapply Ho; reflexivity]);
    (destruct (faults be (SelectStale u)) as [|e2|e2];
     [| |exfalso; eapply Hs; reflexivity]);
    reflexivity.
Qed.

Lemma select_email_fails be u e :
  faults be (SelectEmail u) = Fails e -> select_email be u = Error e.
Proof. intros H. unfold select_email. rewrite H. reflexivity. Qed.

(** A failed lookup of the address is not a failure of the iteration: the
    salesman is processed under the fallback address. *)
Lemma email_failure_falls_back be now u e :
  faults be (SelectEmail u) = Fails e ->
  faults be (SelectOverdue u) = Healthy ->
  faults be (SelectStale u) = Healthy ->
  faults be (SelectUncalled u) = Healthy ->
  let mail := ("user-" ++ u ++ "@unknown.com")%string in
  GenerateAdminNotifications.process_user be now u
  = ([], Normal
      (GenerateAdminNotifications.push_if_any
         (GenerateAdminNotifications.overdue_notification u mail)
         (GenerateAdminNotifications.overdueLeads be u now)
       ++ GenerateAdminNotifications.push_if_any
            (GenerateAdminNotifications.stale_notification u mail)
            (GenerateAdminNotifications.staleLeads be u now)
       ++ GenerateAdminNotifications.push_if_any
            (GenerateAdminNotifications.uncalled_notification u mail)
            (GenerateAdminNotifications.uncalledLeads be u now)))
  /\ AutoGenerateNotifications.process_user be now u
     = ([], Normal
         (AutoGenerateNotifications.push_if_any
            (AutoGenerateNotifications.overdue_notification u mail)
            (Some (AutoGenerateNotifications.overdueLeads be u now))
          ++ AutoGenerateNotifications.push_if_any
               (AutoGenerateNotifications.stale_notification u mail)
               (Some (AutoGenerateNotifications.staleLeads be u now)))).
Proof.
  intros He Ho Hs Hn mail.
  unfold GenerateAdminNotifications.process_user,
    AutoGenerateNotifications.process_user, run_query.
  rewrite (select_email_fails be u e He), Ho, Hs, Hn. split; reflexivity.
Qed.

(** C7 (as amended).  A failure of the queries of one salesman stays
    with that salesman: the iterations of the other salesmen are the same
    whatever the faults of his queries, the loop runs over every salesman
    and ends normally with what the iterations pushed, and with the store
    statements and the user-id query answered the response is 200.  In
    generate-admin-notifications a lead query of the salesman that is not
    answered, or a rejected lookup of his address, is reported with one
    [console.error] and the salesman gets no notification.  In
    auto-generate-notifications only a rejected query is reported and
    skips the salesman; while none is rejected nothing is reported and
    every answered lead query gives its notification, so a lead query
    that resolves with an error, the overdue one, the stale one or both,
    costs only its own notification.  At
    both functions a lookup of the address that resolves with an error is
    not reported and the salesman is processed under the fallback
    address. *)
Theorem C7_failure_of_one_salesman be clock u :
  (forall f v,
      (forall q, concerns u q = false -> f q = faults be q) -> v <> u ->
      GenerateAdminNotifications.iteration (with_faults be f) clock v
      = GenerateAdminNotifications.iteration be clock v
      /\ AutoGenerateNotifications.iteration (with_faults be f) (clock_start clock) v
         = AutoGenerateNotifications.iteration be (clock_start clock) v)
  /\ (forall ids,
        for_of ids (GenerateAdminNotifications.iteration be clock)
        = (flat_map (fun v => logged (GenerateAdminNotifications.iteration be clock v)) ids,
           Normal (flat_map (fun v => pushed (GenerateAdminNotifications.iteration be clock v)) ids))
        /\ for_of ids (AutoGenerateNotifications.iteration be (clock_start clock))
           = (flat_map (fun v => logged (AutoGenerateNotifications.iteration be (clock_start clock) v)) ids,
              Normal (flat_map (fun v => pushed (AutoGenerateNotifications.iteration be (clock_start clock) v)) ids)))
  /\ (store_healthy be ->
      forall s,
        (exists created users,
            snd (snd (GenerateAdminNotifications.serve "POST" be clock s))
            = Normal (mkResponse 200 (BodySuccess created users)))
        /\ (exists created users,
               snd (snd (AutoGenerateNotifications.serve "POST" be clock s))
               = Normal (mkResponse 200 (BodySuccess created users))))
  /\ (forall q,
        lead_query u q -> faults be q <> Healthy ->
        pushed (GenerateAdminNotifications.iteration be clock u) = []
        /\ exists label e,
             logged (GenerateAdminNotifications.iteration be clock u)
             = [ConsoleError label e])
  /\ (forall e,
        faults be (SelectEmail u) = Rejects e ->
        GenerateAdminNotifications.iteration be clock u
        = ([ConsoleError ("Error processing user " ++ u ++ ":")%string e], Normal []))
  /\ (forall q e,
        concerns u q = true -> q <> SelectUncalled u -> faults be q = Rejects e ->
        pushed (AutoGenerateNotifications.iteration be (clock_start clock) u) = []
        /\ exists e',
             logged (AutoGenerateNotifications.iteration be (clock_start clock) u)
             = [ConsoleError ("Error processing user " ++ u ++ ":")%string e'])
  /\ ((forall x, faults be (SelectEmail u) <> Rejects x) ->
      (forall x, faults be (SelectOverdue u) <> Rejects x) ->
      (forall x, faults be (SelectStale u) <> Rejects x) ->
      AutoGenerateNotifications.iteration be (clock_start clock) u
      = ([], Normal
          (AutoGenerateNotifications.push_if_any
             (AutoGenerateNotifications.overdue_notification u (email_of be u))
             (answered be (SelectOverdue u)
                (AutoGenerateNotifications.overdueLeads be u (clock_start clock)))
           ++ AutoGenerateNotifications.push_if_any
                (AutoGenerateNotifications.stale_notification u (email_of be u))
                (answered be (SelectStale u)
                   (AutoGenerateNotifications.staleLeads be u (clock_start clock))))))
  /\ (forall e,
        (forall x, faults be (SelectEmail u) <> Rejects x) ->
        faults be (SelectOverdue u) = Fails e ->
        faults be (SelectStale u) = Healthy ->
        AutoGenerateNotifications.iteration be (clock_start clock) u
        = ([], Normal
            (AutoGenerateNotifications.push_if_any
               (AutoGenerateNotifications.stale_notification u (email_of be u))
               (Some (AutoGenerateNotifications.staleLeads be u (clock_start clock))))))
  /\ (forall e,
        (forall x, faults be (SelectEmail u) <> Rejects x) ->
        faults be (SelectOverdue u) = Healthy ->
        faults be (SelectStale u) = Fails e ->
        AutoGenerateNotifications.iteration be (clock_start clock) u
        = ([], Normal
            (AutoGenerateNotifications.push_if_any
               (AutoGenerateNotifications.overdue_notification u (email_of be u))
               (Some (AutoGenerateNotifications.overdueLeads be u (clock_start clock))))))
  /\ (forall e e',
        (forall x, faults be (SelectEmail u) <> Rejects x) ->
        faults be (SelectOverdue u) = Fails e ->
        faults be (SelectStale u) = Fails e' ->
        AutoGenerateNotifications.iteration be (clock_start clock) u = ([], Normal []))
  /\ (forall e now,
        faults be (SelectEmail u) = Fails e ->
        faults be (SelectOverdue u) = Healthy ->
        faults be (SelectStale u) = Healthy ->
        faults be (SelectUncalled u) = Healthy ->
        logged (GenerateAdminNotifications.process_user be now u) = []
        /\ logged (AutoGenerateNotifications.process_user be now u) = []
        /\ forall n,
             In n (pushed (GenerateAdminNotifications.process_user be now u)
                   ++ pushed (AutoGenerateNotifications.process_user be now u)) ->
             n_salesman_id n = u
             /\ n_salesman_email n = ("user-" ++ u ++ "@unknown.com")%string).
Proof.
  split; [|split; [|split; [|split; [|split; [|split; [|split; [|split; [|split; [|split]]]]]]]]].
  - intros f v Hf Hv. split.
    + apply (admin_iteration_independent be f clock u v); assumption.
    + apply (auto_iteration_independent be f (clock_start clock) u v); assumption.
  - intros ids. split; [apply admin_loop|apply auto_loop].
  - intros [Hu [Hd Hi]] s. split.
    + rewrite admin_serve_run by (try assumption; intros e; rewrite Hd; discriminate).
      rewrite Hi. destruct (0 <? _)%nat; eexists; eexists; reflexivity.
    + rewrite auto_serve_run by (try assumption; intros e; rewrite Hd; discriminate).
      rewrite Hi. destruct (0 <? _)%nat; eexists; eexists; reflexivity.
  - intros q. apply admin_failure_logged_and_skipped.
  - intros e. apply admin_email_rejection_logged_and_skipped.
  - intros q e. apply auto_rejection_logged_and_skipped.
  - apply auto_iteration_without_rejection.
  - intros e. apply auto_error_result_silent.
  - intros e Hm Ho Hs.
    rewrite auto_iteration_without_rejection;
      [|exact Hm|intros x; rewrite Ho; discriminate|intros x; rewrite Hs; discriminate].
    unfold answered. rewrite Ho, Hs. cbn [AutoGenerateNotifications.push_if_any].
    rewrite app_nil_r. reflexivity.
  - intros e e' Hm Ho Hs.
    rewrite auto_iteration_without_rejection;
      [|exact Hm|intros x; rewrite Ho; discriminate|intros x; rewrite Hs; discriminate].
    unfold answered. rewrite Ho, Hs. reflexivity.
  - intros e now He Ho Hs Hn.
    destruct (email_failure_falls_back be now u e He Ho Hs Hn) as [-> ->].
    split; [reflexivity|]. split; [reflexivity|].
    intros n Hin. unfold pushed in Hin. cbn [snd] in Hin.
    pushed_cases Hin; split; reflexivity.
Qed.

(** The overdue query of the salesman of the test leads fails: in
    generate-admin-notifications he is reported and skipped. *)
Lemma C7_witness_test_leads :
  let be := backend_of testLeads overdue_query_fails in
  GenerateAdminNotifications.iteration be sample_clock "u1"
  = ([ConsoleError "Error fetching overdue leads for jukka@envaire.com:" "statement timeout"],
     Continue)
  /\ pushed (GenerateAdminNotifications.iteration be sample_clock "u1") = [].
Proof.
  intros be.
  destruct (C7_failure_of_one_salesman be sample_clock "u1")
    as [_ [_ [_ [Hadmin _]]]].
  assert (Hq : lead_query "u1" (SelectOverdue "u1")) by (left; reflexivity).
  assert (Hf : faults be (SelectOverdue "u1") <> Healthy) by discriminate.
  destruct (Hadmin (SelectOverdue "u1") Hq Hf) as [Hp _].
  split; [vm_compute; reflexivity|exact Hp].
Defined.

(** C7 as stated fails at auto-generate-notifications: the overdue query
    of the salesman of the test leads resolves with an error; nothing is
    written on the console and the salesman is not skipped, his stale
    notification is generated. *)
Lemma C7_counterexample_auto_generate :
  let be := backend_of testLeads overdue_query_fails in
  faults be (SelectOverdue "u1") = Fails "statement timeout"
  /\ loop_log_auto be sample_clock = []
  /\ collected_auto be sample_clock
     = [AutoGenerateNotifications.stale_notification "u1" "jukka@envaire.com"
          (AutoGenerateNotifications.staleLeads be "u1" sample_now)]
  /\ List.length (AutoGenerateNotifications.staleLeads be "u1" sample_now) = 3%nat.
Proof.
  repeat split; vm_compute; reflexivity.
Qed.

(** ** Activity status *)

Lemma fetchSalesmen_in be clock today s :
  In s (MonitoringRoom.fetchSalesmen be clock today) ->
  s = MonitoringRoom.salesman_of be clock today (MonitoringRoom.email s).
Proof.
  unfold MonitoringRoom.fetchSalesmen. intros H. apply in_map_iff in H.
  destruct H as [mail [<- _]]. reflexivity.
Qed.

(** C6 (as amended).  For a salesman listed by [fetchSalesmen] who holds
    a session record, the status is online when the latest activity is less
    than 5 minutes old, idle from 5 to 10 minutes, afk from 10 to 30
    minutes, and idle again from 30 minutes on (still logged in but very
    inactive); with a session record and no activity at all it is online.
    Without a session record the status is offline. *)
Theorem C6_activity_status be clock today s :
  In s (MonitoringRoom.fetchSalesmen be clock today) ->
  let mail := MonitoringRoom.email s in
  let now := clock_user clock mail in
  (forall role t,
      MonitoringRoom.userRole be mail = Some role ->
      MonitoringRoom.lastActivity be mail = Some t ->
      (now - t < minutes 5 -> MonitoringRoom.online_status s = MonitoringRoom.online)
      /\ (minutes 5 <= now - t < minutes 10 ->
          MonitoringRoom.online_status s = MonitoringRoom.idle)
      /\ (minutes 10 <= now - t < minutes 30 ->
          MonitoringRoom.online_status s = MonitoringRoom.afk)
      /\ (minutes 30 <= now - t ->
          MonitoringRoom.online_status s = MonitoringRoom.idle))
  /\ (forall role,
        MonitoringRoom.userRole be mail = Some role ->
        MonitoringRoom.lastActivity be mail = None ->
        MonitoringRoom.online_status s = MonitoringRoom.online)
  /\ (MonitoringRoom.userRole be mail = None ->
      MonitoringRoom.online_status s = MonitoringRoom.offline).
Proof.
  intros Hin mail now. apply fetchSalesmen_in in Hin. fold mail in Hin.
  rewrite Hin. unfold MonitoringRoom.salesman_of. cbn [MonitoringRoom.online_status].
  fold now. unfold minutes.
  split; [|split].
  - intros role t Hr Ht. rewrite Hr, Ht.
    unfold MonitoringRoom.onlineStatus, MonitoringRoom.AFK_THRESHOLD,
      MonitoringRoom.IDLE_THRESHOLD.
    repeat split; intros H;
      repeat match goal with
             | |- context [?a <? ?b] => destruct (Z.ltb_spec a b)
             end; try reflexivity; lia.
  - intros role Hr Ht. rewrite Hr, Ht. reflexivity.
  - intros Hr. rewrite Hr. unfold MonitoringRoom.onlineStatus.
    destruct (MonitoringRoom.lastActivity be mail); reflexivity.
Qed.

(** Jukka, last active 11 minutes ago, is afk. *)
Lemma C6_witness_eleven_minutes :
  let be := monitoring_backend (minutes 11) in
  map MonitoringRoom.online_status (MonitoringRoom.fetchSalesmen be sample_clock 0)
  = [MonitoringRoom.afk; MonitoringRoom.offline; MonitoringRoom.offline; MonitoringRoom.offline]
  /\ forall s, In s (MonitoringRoom.fetchSalesmen be sample_clock 0) ->
               MonitoringRoom.email s = "jukka@envaire.com" ->
               MonitoringRoom.online_status s = MonitoringRoom.afk.
Proof.
  intros be. split; [vm_compute; reflexivity|].
  intros s Hin Hmail.
  destruct (C6_activity_status be sample_clock 0 s Hin) as [Hladder _].
  rewrite Hmail in Hladder.
  destruct (Hladder (mkUserRole "u1" "jukka@envaire.com") (sample_now - minutes 11))
    as [_ [_ [Hafk _]]].
  - reflexivity.
  - vm_compute. reflexivity.
  - apply Hafk. vm_compute. split; [discriminate|reflexivity].
Defined.

(** C6 as stated fails from 30 minutes on: jukka holds a session record
    and was last active 35 minutes ago; the status is idle, not offline. *)
Lemma C6_counterexample_thirty_five_minutes :
  let be := monitoring_backend (minutes 35) in
  MonitoringRoom.userRole be "jukka@envaire.com" = Some (mkUserRole "u1" "jukka@envaire.com")
  /\ MonitoringRoom.lastActivity be "jukka@envaire.com" = Some (sample_now - minutes 35)
  /\ MonitoringRoom.online_status
       (MonitoringRoom.salesman_of be sample_clock 0 "jukka@envaire.com")
     = MonitoringRoom.idle
  /\ MonitoringRoom.online_status
       (MonitoringRoom.salesman_of be sample_clock 0 "jukka@envaire.com")
     <> MonitoringRoom.offline.
Proof.
  repeat split; try (vm_compute; reflexivity).
  vm_compute. discriminate.
Qed.

(** ** AFK alerts *)

Lemma is_afk_spec x :
  MonitoringRoom.is_afk x = true <-> MonitoringRoom.online_status x = MonitoringRoom.afk.
Proof.
  unfold MonitoringRoom.is_afk.
  destruct (MonitoringRoom.online_status x); simpl; split; congruence.
Qed.

Lemma number_rows_in id t news r :
  In r (number_rows id t news) ->
  In (mkNewRow (row_notification r) (row_is_read r)) news.
Proof.
  intros H. rewrite <- (number_rows_contents id t news).
  apply (in_map (fun r => mkNewRow (row_notification r) (row_is_read r))). exact H.
Qed.

Lemma number_rows_of id t news n :
  In n news ->
  exists r, In r (number_rows id t news)
            /\ row_notification r = new_notification n
            /\ row_is_read r = new_is_read n
            /\ row_created_at r = t.
Proof.
  revert id. induction news as [|m rest IH]; intros id Hin; [contradiction|].
  destruct Hin as [->|Hin].
  - eexists. split; [left; reflexivity|]. auto.
  - destruct (IH (S id) Hin) as [r [Hr Hp]]. exists r. split; [right; exact Hr|exact Hp].
Qed.

Lemma afk_run be clock salesmen s :
  faults be InsertNotifications = Healthy ->
  rows (fst (MonitoringRoom.generateAFKNotifications be clock true salesmen s))
  = rows s
    ++ number_rows (next_id s) (clock_insert clock)
         (with_is_read_false
            (map MonitoringRoom.afk_notification
                 (filter MonitoringRoom.is_afk salesmen))).
Proof.
  intros Hi. unfold MonitoringRoom.generateAFKNotifications. simpl negb. cbv iota.
  unfold ttry_catch, tbind, statement.
  destruct (filter MonitoringRoom.is_afk salesmen) as [|x xs]; simpl.
  - rewrite app_nil_r. reflexivity.
  - rewrite Hi. reflexivity.
Qed.

(** C8.  Whenever the two-minute timer of the monitoring screen fires
    (it is armed for an admin only) and the insert is accepted, the rows
    added to [admin_notifications] are, for every salesman whose status is
    afk, one unread notification of type inactive_salesman titled
    "AFK Alert: <email>" with the email of the salesman and priority
    medium, and nothing else: every added row belongs to a salesman whose
    status is afk. *)
Theorem C8_afk_alerts be clock isAdmin salesmen check s :
  MonitoringRoom.afkCheckInterval be clock isAdmin salesmen = Some check ->
  faults be InsertNotifications = Healthy ->
  exists added,
    rows (fst (check s)) = rows s ++ added
    /\ (forall x,
          In x salesmen -> MonitoringRoom.online_status x = MonitoringRoom.afk ->
          exists r,
            In r added
            /\ row_is_read r = false
            /\ n_type (row_notification r) = inactive_salesman
            /\ n_title (row_notification r)
               = ("🚨 AFK Alert: " ++ MonitoringRoom.email x)%string
            /\ n_salesman_id (row_notification r) = MonitoringRoom.user_id x
            /\ n_salesman_email (row_notification r) = MonitoringRoom.email x
            /\ n_priority (row_notification r) = medium)
    /\ (forall r,
          In r added ->
          exists x,
            In x salesmen
            /\ MonitoringRoom.online_status x = MonitoringRoom.afk
            /\ row_notification r = MonitoringRoom.afk_notification x
            /\ row_is_read r = false)
    /\ List.length added
       = List.length (filter MonitoringRoom.is_afk salesmen).
Proof.
  intros Hcheck Hi. unfold MonitoringRoom.afkCheckInterval in Hcheck.
  destruct isAdmin; simpl in Hcheck; [|discriminate].
  injection Hcheck as <-.
  eexists. split; [apply afk_run; exact Hi|]. split; [|split].
  - intros x Hx Hafk.
    assert (Hn : In (mkNewRow (MonitoringRoom.afk_notification x) false)
                    (with_is_read_false
                       (map MonitoringRoom.afk_notification
                            (filter MonitoringRoom.is_afk salesmen)))).
    { unfold with_is_read_false. rewrite map_map.
      apply in_map_iff. exists x. split; [reflexivity|].
      apply filter_In. split; [exact Hx|]. apply is_afk_spec. exact Hafk. }
    destruct (number_rows_of (next_id s) (clock_insert clock) _ _ Hn)
      as [r [Hr [Hnote [Hread _]]]].
    exists r. simpl in Hnote, Hread. rewrite Hnote.
    split; [exact Hr|]. split; [exact Hread|]. repeat split.
  - intros r Hr. apply number_rows_in in Hr.
    unfold with_is_read_false in Hr. rewrite map_map in Hr.
    apply in_map_iff in Hr. destruct Hr as [x [Heq Hx]].
    apply filter_In in Hx. destruct Hx as [Hx Hafk].
    exists x. injection Heq as Hnote Hread.
    split; [exact Hx|]. split; [apply is_afk_spec; exact Hafk|]. auto.
  - clear. generalize (next_id s).
    induction (filter MonitoringRoom.is_afk salesmen) as [|x xs IH]; intros id; simpl.
    + reflexivity.
    + rewrite IH. reflexivity.
Qed.

(** One of the four salesmen on the screen is afk: one alert is stored. *)
Lemma C8_witness_one_afk :
  let be := backend_of [] healthy in
  exists added,
    rows (fst (MonitoringRoom.generateAFKNotifications be sample_clock true
                 sample_salesmen empty_store))
    = rows empty_store ++ added
    /\ List.length added = 1%nat.
Proof.
  intros be.
  destruct (C8_afk_alerts be sample_clock true sample_salesmen _ empty_store
              eq_refl eq_refl) as [added [Hrows [_ [_ Hlen]]]].
  exists added. split; [exact Hrows|exact Hlen].
Defined.

(** ** Read flags *)

Lemma only_unread_added_refl s : only_unread_added s s.
Proof. intros r Hr. left. exact Hr. Qed.

Lemma only_unread_added_trans s1 s2 s3 :
  only_unread_added s1 s2 -> only_unread_added s2 s3 -> only_unread_added s1 s3.
Proof.
  intros H12 H23 r Hr. destruct (H23 r Hr) as [H|H]; [apply H12; exact H|right; exact H].
Qed.

Section AddsUnread.

Context {A : Type}.

Lemma adds_unread_tret (a : A) : adds_unread (tret a).
Proof. intros s. apply only_unread_added_refl. Qed.

Lemma adds_unread_lift (m : Eff A) : adds_unread (lift m).
Proof. intros s. apply only_unread_added_refl. Qed.

Lemma adds_unread_tbind {B : Type} (m : Task A) (k : A -> Task B) :
  adds_unread m -> (forall a, adds_unread (k a)) -> adds_unread (tbind m k).
Proof.
  intros Hm Hk s. unfold tbind. specialize (Hm s).
  destruct (m s) as [s1 [l1 [a| |e]]]; simpl in *; try exact Hm.
  specialize (Hk a s1). destruct (k a s1) as [s2 [l2 c]]. simpl in *.
  eapply only_unread_added_trans; eassumption.
Qed.

Lemma adds_unread_try (body : Task A) (handler : string -> Task A) :
  adds_unread body -> (forall e, adds_unread (handler e)) ->
  adds_unread (ttry_catch body handler).
Proof.
  intros Hb Hh s. unfold ttry_catch. specialize (Hb s).
  destruct (body s) as [s1 [l1 [a| |e]]]; simpl in *; try exact Hb.
  specialize (Hh e s1). destruct (handler e s1) as [s2 [l2 c]]. simpl in *.
  eapply only_unread_added_trans; eassumption.
Qed.

End AddsUnread.

Lemma adds_unread_statement be q change :
  (forall s, only_unread_added s (change s)) -> adds_unread (statement be q change).
Proof.
  intros H s. unfold statement.
  destruct (faults be q); simpl; [apply H| |]; apply only_unread_added_refl.
Qed.

Lemma delete_adds_nothing matches s : only_unread_added s (delete_where matches s).
Proof.
  intros r Hr. left. rewrite rows_delete_where in Hr. apply filter_In in Hr. tauto.
Qed.

Lemma insert_adds_unread t ns s :
  only_unread_added s (insert_rows t (with_is_read_false ns) s).
Proof.
  intros r Hr. unfold insert_rows in Hr. simpl in Hr.
  apply in_app_or in Hr. destruct Hr as [Hr|Hr]; [left; exact Hr|right].
  apply number_rows_in in Hr. unfold with_is_read_false in Hr.
  apply in_map_iff in Hr. destruct Hr as [n [Hn _]].
  injection Hn as _ Hread. symmetry. exact Hread.
Qed.

Ltac adds_unread :=
  repeat match goal with
         | |- adds_unread (tbind _ _) => apply adds_unread_tbind; [|intros ?]
         | |- adds_unread (ttry_catch _ _) => apply adds_unread_try; [|intros ?]
         | |- adds_unread (tret _) => apply adds_unread_tret
         | |- adds_unread (lift _) => apply adds_unread_lift
         | |- adds_unread (statement _ _ (delete_where _)) =>
             apply adds_unread_statement; intros ?; apply delete_adds_nothing
         | |- adds_unread (statement _ _ (insert_rows _ (with_is_read_false _))) =>
             apply adds_unread_statement; intros ?; apply insert_adds_unread
         | |- adds_unread (match ?x with _ => _ end) => destruct x
         end.

Lemma admin_serve_adds_unread method be clock :
  adds_unread (GenerateAdminNotifications.serve method be clock).
Proof.
  unfold GenerateAdminNotifications.serve, GenerateAdminNotifications.generate.
  adds_unread.
Qed.

Lemma auto_serve_adds_unread method be clock :
  adds_unread (AutoGenerateNotifications.serve method be clock).
Proof.
  unfold AutoGenerateNotifications.serve, AutoGenerateNotifications.generate.
  adds_unread.
Qed.

Lemma screen_adds_unread be clock :
  adds_unread (AdminNotifications.generateNotifications be clock).
Proof.
  unfold AdminNotifications.generateNotifications. adds_unread.
Qed.

Lemma afk_adds_unread be clock isAdmin salesmen :
  adds_unread (MonitoringRoom.generateAFKNotifications be clock isAdmin salesmen).
Proof.
  unfold MonitoringRoom.generateAFKNotifications. adds_unread.
Qed.

Lemma confirm_delete_adds_unread be notificationId :
  adds_unread (AdminNotifications.handleConfirmDelete be notificationId).
Proof.
  unfold AdminNotifications.handleConfirmDelete. adds_unread.
Qed.

(** C9.  After a run of a generator (either HTTP function, the admin
    screen, the AFK check) or a confirmed deletion, every row of
    [admin_notifications] is a row that was there before or is unread: the
    inserted rows have [is_read = false] and no stored row is changed.
    Hence a row that is read afterwards was read before; only [markAsRead]
    and [markAllAsRead] set the flag. *)
Theorem C9_rows_are_created_unread be op s :
  marks_read op = false ->
  (forall r, In r (rows (run be op s)) -> In r (rows s) \/ row_is_read r = false)
  /\ (forall r, In r (rows (run be op s)) -> row_is_read r = true -> In r (rows s))
  /\ (faults be UpdateNotifications = Healthy ->
      Forall (fun r => row_is_read r = true) (rows (run be MarkAllAsRead s))
      /\ forall r,
           In r (rows s) ->
           In (mkRow (row_id r) (row_created_at r) true (row_notification r))
              (rows (run be (MarkAsRead (row_id r)) s))).
Proof.
  intros Hop.
  assert (H : only_unread_added s (run be op s)).
  { destruct op; try discriminate Hop; simpl.
    - apply admin_serve_adds_unread.
    - apply auto_serve_adds_unread.
    - apply screen_adds_unread.
    - apply afk_adds_unread.
    - apply confirm_delete_adds_unread. }
  split; [exact H|]. split.
  - intros r Hr Hread. destruct (H r Hr) as [Hin|Hun]; [exact Hin|congruence].
  - intros Hu. simpl.
    unfold AdminNotifications.markAllAsRead, AdminNotifications.markAsRead,
      ttry_catch, tbind, statement.
    rewrite Hu. simpl. split.
    + apply Forall_forall. intros r Hr. apply in_map_iff in Hr.
      destruct Hr as [r0 [<- _]]. unfold eq_is_read.
      destruct (row_is_read r0) eqn:E; simpl; [exact E|reflexivity].
    + intros r Hr.
      apply in_map_iff. exists r. split; [|exact Hr].
      unfold eq_id. rewrite Nat.eqb_refl. reflexivity.
Qed.

(** Regenerating over a table that holds one read row: the read row is
    the old one, the new rows are unread. *)
Lemma C9_witness_read_row_kept :
  let be := backend_of testLeads healthy in
  let old := mkRow 1 (sample_now - 1000) true
               (MonitoringRoom.afk_notification
                  (MonitoringRoom.mkSalesman "u1" "jukka@envaire.com" None 0
                     MonitoringRoom.afk)) in
  let s := mkStore [old] 2 in
  let s' := run be (AutoGenerate "POST" sample_clock) s in
  map row_is_read (rows s') = [true; false; false]
  /\ forall r, In r (rows s') -> In r (rows s) \/ row_is_read r = false.
Proof.
  intros be old s s'. split; [vm_compute; reflexivity|].
  exact (proj1 (C9_rows_are_created_unread be (AutoGenerate "POST" sample_clock) s
                  eq_refl)).
Defined.

(** ** Inline lead update *)

(** C10.  When the update is accepted, the rows of [leads] with another id
    are unchanged, and in the row with the given id: setting call_status
    to 'answered' writes call_status and sets last_contact to the current
    time; any other call_status update writes call_status only; a status
    update writes status only, whatever the value; id, user_id, name,
    company, phone and created_at are never written.  When the update is
    not accepted the table is unchanged. *)
Theorem C10_inline_update be now leadId field value :
  let table := fst (SalesmanNotifications.handleStatusUpdate be now leadId field value) in
  (faults be UpdateLead = Healthy ->
   List.length table = List.length (leads be)
   /\ forall i l,
        nth_error (leads be) i = Some l ->
        exists l',
          nth_error table i = Some l'
          /\ (lead_id l <> leadId -> l' = l)
          /\ (lead_id l = leadId ->
              lead_id l' = lead_id l /\ lead_user_id l' = lead_user_id l
              /\ lead_name l' = lead_name l /\ lead_company l' = lead_company l
              /\ lead_phone l' = lead_phone l /\ lead_created_at l' = lead_created_at l
              /\ match field with
                 | SalesmanNotifications.call_status_field =>
                     lead_call_status l' = value
                     /\ lead_status l' = lead_status l
                     /\ (value = "answered" -> lead_last_contact l' = now)
                     /\ (value <> "answered" -> lead_last_contact l' = lead_last_contact l)
                 | SalesmanNotifications.status_field =>
                     lead_status l' = value
                     /\ lead_call_status l' = lead_call_status l
                     /\ lead_last_contact l' = lead_last_contact l
                 end))
  /\ (faults be UpdateLead <> Healthy -> table = leads be).
Proof.
  intros table. subst table. unfold SalesmanNotifications.handleStatusUpdate.
  split.
  - intros Hf. rewrite Hf. cbn [fst]. unfold SalesmanNotifications.update_leads.
    split; [apply length_map|].
    intros i l Hl. rewrite nth_error_map, Hl. cbn [option_map].
    eexists. split; [reflexivity|]. split.
    + intros Hne. apply String.eqb_neq in Hne. rewrite Hne. reflexivity.
    + intros Heq. apply String.eqb_eq in Heq. rewrite Heq.
      repeat (split; [reflexivity|]).
      unfold SalesmanNotifications.updateData.
      destruct field.
      * repeat split.
      * destruct (String.eqb_spec value "answered") as [Hv|Hv]; cbn;
          repeat split; intros; congruence.
  - intros Hf. destruct (faults be UpdateLead); [contradiction| |]; reflexivity.
Qed.

(** The second test lead is marked answered. *)
Lemma C10_witness_answered :
  let be := backend_of testLeads healthy in
  let table := fst (SalesmanNotifications.handleStatusUpdate be sample_now "t2"
                      SalesmanNotifications.call_status_field "answered") in
  exists l',
    nth_error table 1 = Some l'
    /\ lead_call_status l' = "answered"
    /\ lead_last_contact l' = sample_now
    /\ lead_status l' = "qualified".
Proof.
  intros be table.
  destruct (C10_inline_update be sample_now "t2"
              SalesmanNotifications.call_status_field "answered") as [Hok _].
  destruct (Hok eq_refl) as [_ Hrows].
  destruct (Hrows 1%nat _ eq_refl) as [l' [Hnth [_ Hsame]]].
  destruct (Hsame eq_refl) as [_ [_ [_ [_ [_ [_ [Hcall [Hstatus [Hnow _]]]]]]]]].
  exists l'. split; [exact Hnth|]. split; [exact Hcall|].
  split; [exact (Hnow eq_refl)|exact Hstatus].
Defined.

(** * Further properties of the code *)

(** ** The set of salesmen *)

Lemma includes_spec x l : Js.includes x l = true <-> In x l.
Proof.
  unfold Js.includes. rewrite existsb_exists. split.
  - intros [y [Hy Heq]]. apply String.eqb_eq in Heq. subst. exact Hy.
  - intros H. exists x. split; [exact H|apply String.eqb_refl].
Qed.

Lemma uniq_in seen arr x :
  In x (Js.uniq seen arr) <-> In x arr /\ ~ In x seen.
Proof.
  revert seen. induction arr as [|y rest IH]; intros seen; simpl.
  - tauto.
  - destruct (Js.includes y seen) eqn:E.
    + apply includes_spec in E. rewrite IH. split.
      * intros [H1 H2]. auto.
      * intros [[->|H1] H2]; [contradiction|auto].
    + assert (Hy : ~ In y seen).
      { intros H. apply includes_spec in H. congruence. }
      simpl. rewrite IH. simpl. split.
      * intros [->|[H1 H2]]; [auto|]. split; [auto|]. intros H. apply H2. auto.
      * intros [[->|H1] H2]; [auto|].
        destruct (string_dec y x) as [->|Hne]; [auto|]. right. split; [exact H1|].
        intros [H|H]; [contradiction|contradiction].
Qed.



(** ** The HTTP handlers as a whole *)

(** X2.  Whatever the request method and whatever fails in the backend,
    both handlers end normally with a response: either 200 with the text
    or success body, or 500 with an error body.  No exception leaves the
    handler and no iteration's [continue] does. *)
Theorem serve_always_answers method be clock s :
  (exists s' l r,
      GenerateAdminNotifications.serve method be clock s = (s', (l, Normal r))
      /\ ((status r = 200 /\ forall e, body r <> BodyError e)
          \/ (status r = 500 /\ exists e, body r = BodyError e)))
  /\ (exists s' l r,
         AutoGenerateNotifications.serve method be clock s = (s', (l, Normal r))
         /\ ((status r = 200 /\ forall e, body r <> BodyError e)
             \/ (status r = 500 /\ exists e, body r = BodyError e))).
Proof.
  split.
  - unfold GenerateAdminNotifications.serve.
    destruct (String.eqb method "OPTIONS").
    { do 3 eexists. split; [reflexivity|]. left. split; [reflexivity|discriminate]. }
    unfold ttry_catch, GenerateAdminNotifications.generate, tbind, statement,
      lift, run_query.
    destruct (faults be DeleteNotifications);
      destruct (faults be SelectUserIds); simpl;
      rewrite ?admin_loop; simpl;
      try (destruct (0 <? _)%nat; simpl);
      try (destruct (faults be InsertNotifications); simpl);
      do 3 eexists; (split; [reflexivity|]);
      first [left; split; [reflexivity|discriminate]
            |right; split; [reflexivity|eexists; reflexivity]].
  - unfold AutoGenerateNotifications.serve.
    destruct (String.eqb method "OPTIONS").
    { do 3 eexists. split; [reflexivity|]. left. split; [reflexivity|discriminate]. }
    unfold ttry_catch, AutoGenerateNotifications.generate, tbind, statement,
      lift, run_query.
    destruct (faults be SelectUserIds);
      destruct (faults be DeleteNotifications); simpl;
      rewrite ?auto_loop; simpl;
      try (destruct (0 <? _)%nat; simpl);
      try (destruct (faults be InsertNotifications); simpl);
      do 3 eexists; (split; [reflexivity|]);
      first [left; split; [reflexivity|discriminate]
            |right; split; [reflexivity|eexists; reflexivity]].
Qed.

(** X3.  When the query for the user ids fails, both handlers answer 500
    with the message; generate-admin-notifications has by then already
    deleted the notifications of the last 24 hours (its deletion comes
    first) and regenerates nothing, while auto-generate-notifications,
    which reads the user ids first, leaves the table as it was. *)
Theorem user_ids_failure be clock s e :
  faults be SelectUserIds = Fails e \/ faults be SelectUserIds = Rejects e ->
  faults be DeleteNotifications = Healthy ->
  GenerateAdminNotifications.serve "POST" be clock s
  = (delete_where (gte_created_at (clock_start clock - 24 * 60 * 60 * 1000)) s,
     ([ConsoleError "Error in generate-admin-notifications:" e],
      Normal (mkResponse 500 (BodyError e))))
  /\ AutoGenerateNotifications.serve "POST" be clock s
     = (s,
        ([ConsoleError "Error in auto-generate-notifications:" e],
         Normal (mkResponse 500 (BodyError e)))).
Proof.
  intros Hu Hd.
  unfold GenerateAdminNotifications.serve, AutoGenerateNotifications.serve.
  simpl String.eqb. cbv iota.
  unfold ttry_catch, GenerateAdminNotifications.generate,
    AutoGenerateNotifications.generate, tbind, statement, lift, run_query.
  rewrite Hd. destruct Hu as [Hu|Hu]; rewrite Hu; split; reflexivity.
Qed.

Lemma user_ids_failure_witness :
  let f := fun q => match q with SelectUserIds => Fails "permission denied" | _ => Healthy end in
  let be := backend_of testLeads f in
  let old := mkRow 1 (sample_now - 1000) false
               (MonitoringRoom.afk_notification
                  (MonitoringRoom.mkSalesman "u1" "jukka@envaire.com" None 0
                     MonitoringRoom.afk)) in
  rows (fst (GenerateAdminNotifications.serve "POST" be sample_clock (mkStore [old] 2))) = []
  /\ rows (fst (AutoGenerateNotifications.serve "POST" be sample_clock (mkStore [old] 2))) = [old].
Proof.
  intros f be old.
  destruct (user_ids_failure be sample_clock (mkStore [old] 2) "permission denied"
              (or_introl eq_refl) eq_refl) as [Hadmin Hauto].
  rewrite Hadmin, Hauto. split; vm_compute; reflexivity.
Defined.

(** X4.  A 200 answer of generate-admin-notifications tells the truth
    about the table: [notifications_created] is the number of rows the run
    appended after its deletion step, each unread and stamped with the
    insertion time, and [users_processed] is the number of distinct user
    ids of the leads. *)
Theorem admin_success_counts_inserted_rows be clock s s' l created users :
  GenerateAdminNotifications.serve "POST" be clock s
  = (s', (l, Normal (mkResponse 200 (BodySuccess created users)))) ->
  exists added,
    rows s' = rows (cleared_admin be clock s) ++ added
    /\ List.length added = created
    /\ Forall (fun r => row_is_read r = false
                        /\ row_created_at r = clock_insert clock) added
    /\ map row_notification added = collected_admin be clock
    /\ users = Some (List.length (Js.spreadSet (select_user_ids (leads be)))).
Proof.
  unfold GenerateAdminNotifications.serve. simpl String.eqb. cbv iota.
  unfold ttry_catch, GenerateAdminNotifications.generate, tbind, statement,
    lift, run_query, cleared_admin, collected_admin.
  assert (Hrows : forall id t ns,
             List.length (number_rows id t (with_is_read_false ns)) = List.length ns
             /\ Forall (fun r => row_is_read r = false /\ row_created_at r = t)
                       (number_rows id t (with_is_read_false ns))
             /\ map row_notification (number_rows id t (with_is_read_false ns)) = ns).
  { intros id t ns. revert id. induction ns as [|n ns IH]; intros id; simpl.
    - repeat split; constructor.
    - destruct (IH (S id)) as [H1 [H2 H3]]. rewrite H1, H3.
      repeat split. constructor; [split; reflexivity|exact H2]. }
  destruct (faults be DeleteNotifications);
    destruct (faults be SelectUserIds); simpl;
    rewrite ?admin_loop; unfold pushed; simpl;
    try discriminate;
    (destruct (flat_map _ _) as [|n ns] eqn:E; simpl;
     [|destruct (faults be InsertNotifications); simpl; try discriminate]);
    intros H; injection H as <- _ <- <-.
  all: first
    [ exists []; simpl; rewrite app_nil_r; repeat split; constructor
    | match goal with
      | |- context [insert_rows ?t ({| new_notification := ?n0; new_is_read := false |}
                                     :: with_is_read_false ?ns0) ?st] =>
          destruct (Hrows (next_id st) t (n0 :: ns0)) as [H1 [H2 H3]];
          exists (number_rows (next_id st) t (with_is_read_false (n0 :: ns0)));
          split; [reflexivity|]; repeat split; assumption
      end ].
Qed.

Lemma admin_success_counts_witness :
  let be := backend_of testLeads healthy in
  exists added,
    rows (after_admin be sample_clock empty_store) = [] ++ added
    /\ List.length added = 3%nat.
Proof.
  intros be.
  destruct (admin_success_counts_inserted_rows be sample_clock empty_store
              (after_admin be sample_clock empty_store) [] 3 (Some 1%nat))
    as [added [Hrows [Hlen _]]].
  - vm_compute. reflexivity.
  - exists added. split; [exact Hrows|exact Hlen].
Defined.

(** ** Buckets and what is pushed *)

Lemma stale_filter_implies_overdue u now l :
  not_contacted_since u (now - 14 * 24 * 60 * 60 * 1000) l = true ->
  not_contacted_since u (now - 4 * 24 * 60 * 60 * 1000) l = true.
Proof.
  rewrite !not_contacted_since_spec. intros [Hu [Ht Hc]].
  repeat split; [assumption|lia|assumption].
Qed.

Lemma filter_filter_implies {A : Type} (p q : A -> bool) (xs : list A) :
  (forall x, p x = true -> q x = true) ->
  filter p xs = filter p (filter q xs).
Proof.
  intros H. induction xs as [|x xs IH]; simpl; [reflexivity|].
  destruct (p x) eqn:Ep.
  - rewrite (H x Ep). simpl. rewrite Ep, IH. reflexivity.
  - destruct (q x); simpl; [rewrite Ep|]; exact IH.
Qed.

Lemma filter_length_le {A : Type} (p : A -> bool) (xs : list A) :
  (List.length (filter p xs) <= List.length xs)%nat.
Proof.
  induction xs as [|x xs IH]; simpl; [lia|]. destruct (p x); simpl; lia.
Qed.

(** X5.  Stale implies overdue: at both functions every row of the stale
    bucket of a salesman is also in his overdue bucket, so the stale count
    never exceeds the overdue count and a salesman with a stale lead has
    overdue leads. *)
Theorem stale_leads_are_overdue be u now :
  (forall x, In x (GenerateAdminNotifications.staleLeads be u now) ->
             In x (GenerateAdminNotifications.overdueLeads be u now))
  /\ (List.length (GenerateAdminNotifications.staleLeads be u now)
      <= List.length (GenerateAdminNotifications.overdueLeads be u now))%nat
  /\ (forall x, In x (AutoGenerateNotifications.staleLeads be u now) ->
                In x (AutoGenerateNotifications.overdueLeads be u now))
  /\ (List.length (AutoGenerateNotifications.staleLeads be u now)
      <= List.length (AutoGenerateNotifications.overdueLeads be u now))%nat.
Proof.
  unfold GenerateAdminNotifications.staleLeads, GenerateAdminNotifications.overdueLeads,
    AutoGenerateNotifications.staleLeads, AutoGenerateNotifications.overdueLeads.
  cbv zeta.
  assert (Hin : forall (sel : Lead -> LeadSummary) x,
             In x (map sel (filter (not_contacted_since u (now - 14 * 24 * 60 * 60 * 1000))
                                   (leads be))) ->
             In x (map sel (filter (not_contacted_since u (now - 4 * 24 * 60 * 60 * 1000))
                                   (leads be)))).
  { intros sel x Hx. apply in_map_iff in Hx. destruct Hx as [l [<- Hl]].
    apply in_map. apply filter_In in Hl. apply filter_In.
    split; [tauto|]. apply stale_filter_implies_overdue. tauto. }
  assert (Hlen : (List.length (filter (not_contacted_since u (now - 14 * 24 * 60 * 60 * 1000)%Z)
                                      (leads be))
                  <= List.length (filter (not_contacted_since u (now - 4 * 24 * 60 * 60 * 1000)%Z)
                                         (leads be)))%nat).
  { rewrite (filter_filter_implies _ (not_contacted_since u (now - 4 * 24 * 60 * 60 * 1000)))
      by apply stale_filter_implies_overdue.
    apply filter_length_le. }
  repeat split; try apply Hin; rewrite !length_map; exact Hlen.
Qed.

Lemma push_if_any_admin_length make found :
  (List.length (GenerateAdminNotifications.push_if_any make found) <= 1)%nat.
Proof.
  unfold GenerateAdminNotifications.push_if_any. destruct (0 <? _)%nat; simpl; lia.
Qed.

Lemma push_if_any_auto_length make found :
  (List.length (AutoGenerateNotifications.push_if_any make found) <= 1)%nat.
Proof.
  unfold AutoGenerateNotifications.push_if_any.
  destruct found as [leads|]; [destruct (0 <? _)%nat|]; simpl; lia.
Qed.

Lemma samples_slice k u n bucket :
  bucket <> [] -> sample (n_data n) = Js.slice0 k bucket -> n_salesman_id n = u ->
  n_salesman_id n = u /\ samples k n bucket.
Proof.
  intros Hne Hs Hu. split; [exact Hu|]. unfold samples.
  split; [exact Hne|]. split; [exact Hs|].
  rewrite Hs. unfold Js.slice0. apply firstn_le_length.
Qed.

(** X6.  Whatever fails, one iteration of generate-admin-notifications
    pushes at most three notifications and one of the auto-generate
    function at most two.  Each pushed notification is addressed to the
    salesman of the iteration and is his overdue, stale or uncalled
    notification, built from the rows its own query selected: these are
    not empty, the notification carries their number, and its sample is
    their first 10 (generate-admin) or first 5 (auto-generate) rows, in
    the order of the query. *)
Theorem iteration_output_is_bounded be now u :
  (List.length (pushed (GenerateAdminNotifications.process_user be now u)) <= 3)%nat
  /\ (List.length (pushed (AutoGenerateNotifications.process_user be now u)) <= 2)%nat
  /\ (forall n,
        In n (pushed (GenerateAdminNotifications.process_user be now u)) ->
        n_salesman_id n = u
        /\ ((n_type n = stale_lead
             /\ In ("notification_type", JString "overdue_leads") (n_data n)
             /\ In ("count",
                    JNumber (Z.of_nat (List.length
                                         (GenerateAdminNotifications.overdueLeads be u now))))
                   (n_data n)
             /\ samples 10 n (GenerateAdminNotifications.overdueLeads be u now))
            \/ (n_type n = stale_lead
                /\ In ("notification_type", JString "stale_leads") (n_data n)
                /\ In ("count",
                       JNumber (Z.of_nat (List.length
                                            (GenerateAdminNotifications.staleLeads be u now))))
                      (n_data n)
                /\ samples 10 n (GenerateAdminNotifications.staleLeads be u now))
            \/ (n_type n = no_calls
                /\ In ("notification_type", JString "uncalled_leads") (n_data n)
                /\ In ("count",
                       JNumber (Z.of_nat (List.length
                                            (GenerateAdminNotifications.uncalledLeads be u now))))
                      (n_data n)
                /\ samples 10 n (GenerateAdminNotifications.uncalledLeads be u now))))
  /\ (forall n,
        In n (pushed (AutoGenerateNotifications.process_user be now u)) ->
        n_salesman_id n = u
        /\ ((n = AutoGenerateNotifications.overdue_notification u (email_of be u)
                   (AutoGenerateNotifications.overdueLeads be u now)
             /\ faults be (SelectOverdue u) = Healthy
             /\ samples 5 n (AutoGenerateNotifications.overdueLeads be u now))
            \/ (n = AutoGenerateNotifications.stale_notification u (email_of be u)
                      (AutoGenerateNotifications.staleLeads be u now)
                /\ faults be (SelectStale u) = Healthy
                /\ samples 5 n (AutoGenerateNotifications.staleLeads be u now)))).
Proof.
  split; [|split; [|split]].
  - destruct (admin_pushed_cases be now u) as [-> | ->]; [simpl; lia|].
    rewrite !length_app.
    pose proof (push_if_any_admin_length
                  (GenerateAdminNotifications.overdue_notification u (email_of be u))
                  (GenerateAdminNotifications.overdueLeads be u now)).
    pose proof (push_if_any_admin_length
                  (GenerateAdminNotifications.stale_notification u (email_of be u))
                  (GenerateAdminNotifications.staleLeads be u now)).
    pose proof (push_if_any_admin_length
                  (GenerateAdminNotifications.uncalled_notification u (email_of be u))
                  (GenerateAdminNotifications.uncalledLeads be u now)).
    lia.
  - destruct (auto_pushed_cases be now u) as [-> | ->]; [simpl; lia|].
    rewrite !length_app.
    pose proof (push_if_any_auto_length
                  (AutoGenerateNotifications.overdue_notification u (email_of be u))
                  (answered be (SelectOverdue u)
                     (AutoGenerateNotifications.overdueLeads be u now))).
    pose proof (push_if_any_auto_length
                  (AutoGenerateNotifications.stale_notification u (email_of be u))
                  (answered be (SelectStale u)
                     (AutoGenerateNotifications.staleLeads be u now))).
    lia.
  - intros n Hn. apply admin_pushed_from_buckets in Hn.
    destruct Hn as [[-> Hne]|[[-> Hne]|[-> Hne]]].
    + destruct (samples_slice 10 u _ _ Hne (sample_admin_overdue u (email_of be u) _)
                  eq_refl) as [Hu Hs].
      split; [exact Hu|]. left. split; [reflexivity|].
      split; [simpl; tauto|]. split; [simpl; tauto|exact Hs].
    + destruct (samples_slice 10 u _ _ Hne (sample_admin_stale u (email_of be u) _)
                  eq_refl) as [Hu Hs].
      split; [exact Hu|]. right. left. split; [reflexivity|].
      split; [simpl; tauto|]. split; [simpl; tauto|exact Hs].
    + destruct (samples_slice 10 u _ _ Hne (sample_admin_uncalled u (email_of be u) _)
                  eq_refl) as [Hu Hs].
      split; [exact Hu|]. right. right. split; [reflexivity|].
      split; [simpl; tauto|]. split; [simpl; tauto|exact Hs].
  - intros n Hn. apply auto_pushed_from_buckets in Hn.
    destruct Hn as [[-> [Hne Hf]]|[-> [Hne Hf]]].
    + destruct (samples_slice 5 u _ _ Hne (sample_auto_overdue u (email_of be u) _)
                  eq_refl) as [Hu Hs].
      split; [exact Hu|]. left. split; [reflexivity|]. split; [exact Hf|exact Hs].
    + destruct (samples_slice 5 u _ _ Hne (sample_auto_stale u (email_of be u) _)
                  eq_refl) as [Hu Hs].
      split; [exact Hu|]. right. split; [reflexivity|]. split; [exact Hf|exact Hs].
Qed.

Lemma pushed_iteration_admin be clock u :
  pushed (GenerateAdminNotifications.iteration be clock u)
  = pushed (GenerateAdminNotifications.process_user be (clock_user clock u) u).
Proof.
  unfold GenerateAdminNotifications.iteration, try_catch, pushed.
  destruct (GenerateAdminNotifications.process_user be (clock_user clock u) u)
    as [l [ns| |e]]; reflexivity.
Qed.

Lemma pushed_iteration_auto be now u :
  pushed (AutoGenerateNotifications.iteration be now u)
  = pushed (AutoGenerateNotifications.process_user be now u).
Proof.
  unfold AutoGenerateNotifications.iteration, try_catch, pushed.
  destruct (AutoGenerateNotifications.process_user be now u)
    as [l [ns| |e]]; reflexivity.
Qed.

Lemma collected_admin_in be clock n :
  In n (collected_admin be clock) ->
  exists u, In u (select_user_ids (leads be))
            /\ In n (pushed (GenerateAdminNotifications.process_user
                               be (clock_user clock u) u)).
Proof.
  unfold collected_admin. rewrite admin_loop. unfold pushed at 1. cbn [snd].
  intros H. apply in_flat_map in H. destruct H as [u [Hu Hn]].
  exists u. split.
  - unfold Js.spreadSet in Hu. apply uniq_in in Hu. tauto.
  - rewrite <- pushed_iteration_admin. exact Hn.
Qed.

Lemma collected_auto_in be clock n :
  In n (collected_auto be clock) ->
  exists u, In u (select_user_ids (leads be))
            /\ In n (pushed (AutoGenerateNotifications.process_user
                               be (clock_start clock) u)).
Proof.
  unfold collected_auto. rewrite auto_loop. unfold pushed at 1. cbn [snd].
  intros H. apply in_flat_map in H. destruct H as [u [Hu Hn]].
  exists u. split.
  - unfold Js.spreadSet in Hu. apply uniq_in in Hu. tauto.
  - rewrite <- pushed_iteration_auto. exact Hn.
Qed.

Lemma select_user_ids_in ls u :
  In u (select_user_ids ls) <-> exists l, In l ls /\ lead_user_id l = Some u.
Proof.
  induction ls as [|l ls IH]; simpl.
  - split; [contradiction|intros [l [[] _]]].
  - destruct (lead_user_id l) as [v|] eqn:E; simpl; rewrite IH; split.
    + intros [->|[l' [Hl' Hu]]]; [exists l; auto|exists l'; auto].
    + intros [l' [[->|Hl'] Hu]]; [left; congruence|right; exists l'; auto].
    + intros [l' [Hl' Hu]]. exists l'. auto.
    + intros [l' [[->|Hl'] Hu]]; [congruence|exists l'; auto].
Qed.

Lemma pushed_salesman_admin be now u n :
  In n (pushed (GenerateAdminNotifications.process_user be now u)) ->
  n_salesman_id n = u.
Proof.
  intros H. apply admin_pushed_shape in H. destruct H as [->|[->| ->]]; reflexivity.
Qed.

Lemma pushed_salesman_auto be now u n :
  In n (pushed (AutoGenerateNotifications.process_user be now u)) ->
  n_salesman_id n = u.
Proof.
  intros H. apply auto_pushed_shape in H. destruct H as [->| ->]; reflexivity.
Qed.




(** X7.  Every notification a run collects, at either function and
    whatever fails, is addressed to a salesman who owns a lead of the
    table; a lead without owner ([user_id] null) passes none of the three
    filters, for any salesman. *)
Theorem notifications_belong_to_lead_owners be clock :
  (forall n,
      In n (collected_admin be clock) \/ In n (collected_auto be clock) ->
      exists l, In l (leads be) /\ lead_user_id l = Some (n_salesman_id n))
  /\ (forall l u t,
        lead_user_id l = None ->
        not_contacted_since u t l = false /\ never_called_since u t l = false).
Proof.
  split.
  - intros n [H|H].
    + apply collected_admin_in in H. destruct H as [u [Hu Hn]].
      apply pushed_salesman_admin in Hn. subst u.
      apply select_user_ids_in. exact Hu.
    + apply collected_auto_in in H. destruct H as [u [Hu Hn]].
      apply pushed_salesman_auto in Hn. subst u.
      apply select_user_ids_in. exact Hu.
  - intros l u t Hl. unfold not_contacted_since, never_called_since, eq_user_id.
    rewrite Hl. split; reflexivity.
Qed.

Lemma filter_nil_all {A : Type} (p : A -> bool) (xs : list A) :
  (forall x, In x xs -> p x = false) -> filter p xs = [].
Proof.
  intros H. apply filter_none. apply Forall_forall. exact H.
Qed.

(** X8.  When every lead was contacted no more than 4 days and created
    no more than 14 days before the clock readings of the run, nothing is
    collected, whatever fails; with the table statements answered both
    functions then insert nothing and answer 200 with
    [notifications_created = 0]. *)
Theorem fresh_leads_give_no_notifications be clock :
  (forall l u, In l (leads be) -> lead_user_id l = Some u ->
               elapsed (clock_user clock u) l <= days 4
               /\ clock_user clock u - lead_created_at l <= days 14) ->
  (forall l, In l (leads be) -> elapsed (clock_start clock) l <= days 4) ->
  collected_admin be clock = []
  /\ collected_auto be clock = []
  /\ (store_healthy be ->
      forall s,
        snd (snd (GenerateAdminNotifications.serve "POST" be clock s))
        = Normal (mkResponse 200
                    (BodySuccess 0
                       (Some (List.length (Js.spreadSet (select_user_ids (leads be)))))))
        /\ after_admin be clock s
           = delete_where (gte_created_at (clock_start clock - 24 * 60 * 60 * 1000)) s
        /\ snd (snd (AutoGenerateNotifications.serve "POST" be clock s))
           = Normal (mkResponse 200 (BodySuccess 0 None))
        /\ after_auto be clock s
           = delete_where (lt_row_created_at (clock_start clock - 24 * 60 * 60 * 1000)) s).
Proof.
  intros Hadmin Hauto. unfold elapsed, days in *.
  assert (A : collected_admin be clock = []).
  { destruct (collected_admin be clock) as [|n ns] eqn:E; [reflexivity|exfalso].
    assert (Hn : In n (collected_admin be clock)) by (rewrite E; left; reflexivity).
    apply collected_admin_in in Hn. destruct Hn as [u [_ Hn]].
    revert Hn.
    unfold GenerateAdminNotifications.process_user, run_query, pushed,
      GenerateAdminNotifications.overdueLeads, GenerateAdminNotifications.staleLeads,
      GenerateAdminNotifications.uncalledLeads. cbv zeta.
    rewrite !(filter_nil_all (not_contacted_since u _)), (filter_nil_all (never_called_since u _)).
    - destruct (select_email be u); simpl; try contradiction;
        destruct (faults be (SelectOverdue u)); simpl; try contradiction;
        destruct (faults be (SelectStale u)); simpl; try contradiction;
        destruct (faults be (SelectUncalled u)); simpl; contradiction.
    - intros l Hl. destruct (never_called_since u _ l) eqn:Ep; [|reflexivity].
      apply never_called_since_spec in Ep. destruct Ep as [Hu [_ Ht]].
      destruct (Hadmin l u Hl Hu). lia.
    - intros l Hl. destruct (not_contacted_since u _ l) eqn:Ep; [|reflexivity].
      apply not_contacted_since_spec in Ep. destruct Ep as [Hu [Ht _]].
      destruct (Hadmin l u Hl Hu). lia.
    - intros l Hl. destruct (not_contacted_since u _ l) eqn:Ep; [|reflexivity].
      apply not_contacted_since_spec in Ep. destruct Ep as [Hu [Ht _]].
      destruct (Hadmin l u Hl Hu). lia. }
  assert (B : collected_auto be clock = []).
  { destruct (collected_auto be clock) as [|n ns] eqn:E; [reflexivity|exfalso].
    assert (Hn : In n (collected_auto be clock)) by (rewrite E; left; reflexivity).
    apply collected_auto_in in Hn. destruct Hn as [u [_ Hn]].
    revert Hn.
    unfold AutoGenerateNotifications.process_user, run_query, pushed,
      AutoGenerateNotifications.overdueLeads, AutoGenerateNotifications.staleLeads.
    cbv zeta.
    rewrite !(filter_nil_all (not_contacted_since u _)).
    - destruct (select_email be u); simpl; try contradiction;
        destruct (faults be (SelectOverdue u)); simpl; try contradiction;
        destruct (faults be (SelectStale u)); simpl; contradiction.
    - intros l Hl. destruct (not_contacted_since u _ l) eqn:Ep; [|reflexivity].
      apply not_contacted_since_spec in Ep. destruct Ep as [Hu [Ht _]].
      specialize (Hauto l Hl). lia.
    - intros l Hl. destruct (not_contacted_since u _ l) eqn:Ep; [|reflexivity].
      apply not_contacted_since_spec in Ep. destruct Ep as [Hu [Ht _]].
      specialize (Hauto l Hl). lia. }
  split; [exact A|]. split; [exact B|].
  intros [Hu [Hd Hi]] s. unfold after_admin, after_auto.
  rewrite admin_serve_run by (try assumption; intros e; rewrite Hd; discriminate).
  rewrite auto_serve_run by (try assumption; intros e; rewrite Hd; discriminate).
  unfold cleared_admin, cleared_auto. rewrite A, B, Hd. simpl.
  repeat split; reflexivity.
Qed.

Lemma fresh_leads_witness :
  let be := backend_of [lead_at_four_days] healthy in
  collected_admin be sample_clock = [] /\ collected_auto be sample_clock = [].
Proof.
  intros be.
  destruct (fresh_leads_give_no_notifications be sample_clock) as [A [B _]].
  - intros l u [<-|[]] Hu. split; vm_compute; discriminate.
  - intros l [<-|[]]. vm_compute. discriminate.
  - split; assumption.
Defined.

(** ** Table [admin_notifications] under every operation *)

Section TaskInvariants.

Context {A : Type}.

Lemma keeps_rows_tret P (a : A) : keeps_rows P (tret a).
Proof. intros s r Hr _. exact Hr. Qed.

Lemma keeps_rows_lift P (m : Eff A) : keeps_rows P (lift m).
Proof. intros s r Hr _. exact Hr. Qed.

Lemma keeps_rows_tbind {B : Type} P (m : Task A) (k : A -> Task B) :
  keeps_rows P m -> (forall a, keeps_rows P (k a)) -> keeps_rows P (tbind m k).
Proof.
  intros Hm Hk s r Hr HP. unfold tbind. specialize (Hm s r Hr HP).
  destruct (m s) as [s1 [l1 [a| |e]]]; simpl in *; try exact Hm.
  specialize (Hk a s1 r Hm HP). destruct (k a s1) as [s2 [l2 c]]. exact Hk.
Qed.

Lemma keeps_rows_try P (body : Task A) (handler : string -> Task A) :
  keeps_rows P body -> (forall e, keeps_rows P (handler e)) ->
  keeps_rows P (ttry_catch body handler).
Proof.
  intros Hb Hh s r Hr HP. unfold ttry_catch. specialize (Hb s r Hr HP).
  destruct (body s) as [s1 [l1 [a| |e]]]; simpl in *; try exact Hb.
  specialize (Hh e s1 r Hb HP). destruct (handler e s1) as [s2 [l2 c]]. exact Hh.
Qed.

End TaskInvariants.

Lemma keeps_rows_statement P be q change :
  (forall s r, In r (rows s) -> P r -> In r (rows (change s))) ->
  keeps_rows P (statement be q change).
Proof.
  intros H s r Hr HP. unfold statement.
  destruct (faults be q); simpl; [apply H; assumption| |]; exact Hr.
Qed.

Lemma insert_keeps_rows t news s r :
  In r (rows s) -> In r (rows (insert_rows t news s)).
Proof. intros H. unfold insert_rows. simpl. apply in_or_app. left. exact H. Qed.

Lemma delete_keeps_rows matches s r :
  In r (rows s) -> matches r = false -> In r (rows (delete_where matches s)).
Proof.
  intros H Hm. rewrite rows_delete_where. apply filter_In. split; [exact H|].
  rewrite Hm. reflexivity.
Qed.

Ltac keeps_rows_with tac :=
  repeat match goal with
         | |- keeps_rows _ (tbind _ _) => apply keeps_rows_tbind; [|intros ?]
         | |- keeps_rows _ (ttry_catch _ _) => apply keeps_rows_try; [|intros ?]
         | |- keeps_rows _ (tret _) => apply keeps_rows_tret
         | |- keeps_rows _ (lift _) => apply keeps_rows_lift
         | |- keeps_rows _ (statement _ _ (insert_rows _ _)) =>
             apply keeps_rows_statement; intros ? ? ? ?; apply insert_keeps_rows; assumption
         | |- keeps_rows _ (statement _ _ (delete_where _)) =>
             apply keeps_rows_statement; intros ? ? ? ?; apply delete_keeps_rows;
             [assumption|tac]
         | |- keeps_rows _ (match ?x with _ => _ end) => destruct x
         end.

(** X10.  The two retention windows.  Whatever fails,
    generate-admin-notifications never removes a notification older than
    24 hours and auto-generate-notifications never removes a younger one.
    When the statements succeed, after generate-admin-notifications every
    row is older than 24 hours or was just inserted, and after
    auto-generate-notifications every row is at most 24 hours old or was
    just inserted. *)
Theorem retention_windows method be clock s :
  (forall r, In r (rows s) -> older_than_window clock r ->
             In r (rows (fst (GenerateAdminNotifications.serve method be clock s))))
  /\ (forall r, In r (rows s) -> ~ older_than_window clock r ->
                In r (rows (fst (AutoGenerateNotifications.serve method be clock s))))
  /\ (store_healthy be ->
      (forall r, In r (rows (after_admin be clock s)) ->
                 older_than_window clock r \/ row_created_at r = clock_insert clock)
      /\ (forall r, In r (rows (after_auto be clock s)) ->
                    ~ older_than_window clock r \/ row_created_at r = clock_insert clock)).
Proof.
  split; [|split].
  - assert (H : keeps_rows (older_than_window clock)
                  (GenerateAdminNotifications.serve method be clock)).
    { unfold GenerateAdminNotifications.serve, GenerateAdminNotifications.generate.
      keeps_rows_with ltac:(unfold older_than_window, gte_created_at in *;
                            apply Z.leb_gt; assumption). }
    intros r. apply H.
  - assert (H : keeps_rows (fun r => ~ older_than_window clock r)
                  (AutoGenerateNotifications.serve method be clock)).
    { unfold AutoGenerateNotifications.serve, AutoGenerateNotifications.generate.
      keeps_rows_with ltac:(unfold older_than_window, lt_row_created_at in *;
                            apply Z.ltb_ge; lia). }
    intros r. apply H.
  - intros Hh. split; intros r Hr.
    + rewrite after_admin_rows in Hr by assumption. apply in_app_or in Hr.
      destruct Hr as [Hr|Hr].
      * left. rewrite rows_delete_where in Hr. apply filter_In in Hr.
        destruct Hr as [_ Hr]. unfold older_than_window, gte_created_at in *.
        apply negb_true_iff in Hr. apply Z.leb_gt in Hr. exact Hr.
      * right. pose proof (number_rows_created_at (next_id s) (clock_insert clock)
                             (with_is_read_false (collected_admin be clock))) as Hall.
        rewrite Forall_forall in Hall. apply Hall. exact Hr.
    + rewrite after_auto_rows in Hr by assumption. apply in_app_or in Hr.
      destruct Hr as [Hr|Hr].
      * left. rewrite rows_delete_where in Hr. apply filter_In in Hr.
        destruct Hr as [_ Hr]. unfold older_than_window, lt_row_created_at in *.
        apply negb_true_iff in Hr. apply Z.ltb_ge in Hr. lia.
      * right. pose proof (number_rows_created_at (next_id s) (clock_insert clock)
                             (with_is_read_false (collected_auto be clock))) as Hall.
        rewrite Forall_forall in Hall. apply Hall. exact Hr.
Qed.

Section Maintains.

Context {A : Type} (I : Store -> Prop).

Lemma maintains_tret (a : A) : maintains I (tret a).
Proof. intros s Hs. exact Hs. Qed.

Lemma maintains_lift (m : Eff A) : maintains I (lift m).
Proof. intros s Hs. exact Hs. Qed.

Lemma maintains_tbind {B : Type} (m : Task A) (k : A -> Task B) :
  maintains I m -> (forall a, maintains I (k a)) -> maintains I (tbind m k).
Proof.
  intros Hm Hk s Hs. unfold tbind. specialize (Hm s Hs).
  destruct (m s) as [s1 [l1 [a| |e]]]; simpl in *; try exact Hm.
  specialize (Hk a s1 Hm). destruct (k a s1) as [s2 [l2 c]]. exact Hk.
Qed.

Lemma maintains_try (body : Task A) (handler : string -> Task A) :
  maintains I body -> (forall e, maintains I (handler e)) ->
  maintains I (ttry_catch body handler).
Proof.
  intros Hb Hh s Hs. unfold ttry_catch. specialize (Hb s Hs).
  destruct (body s) as [s1 [l1 [a| |e]]]; simpl in *; try exact Hb.
  specialize (Hh e s1 Hb). destruct (handler e s1) as [s2 [l2 c]]. exact Hh.
Qed.

End Maintains.

Lemma maintains_statement I be q change :
  (forall s, I s -> I (change s)) -> maintains I (statement be q change).
Proof.
  intros H s Hs. unfold statement.
  destruct (faults be q); simpl; [apply H| |]; exact Hs.
Qed.

Lemma proper_keys_delete matches s :
  proper_keys s -> proper_keys (delete_where matches s).
Proof.
  intros [Hk Hn]. split; [|exact Hn]. rewrite rows_delete_where.
  apply Forall_forall. intros r Hr. apply filter_In in Hr.
  rewrite Forall_forall in Hk. apply Hk. tauto.
Qed.

Lemma proper_keys_insert t news s :
  proper_keys s -> proper_keys (insert_rows t news s).
Proof.
  intros [Hk Hn]. unfold insert_rows. split; simpl; [|lia].
  apply Forall_app. split; [exact Hk|].
  eapply Forall_impl; [|apply number_rows_ids]. simpl. intros r Hr. lia.
Qed.

Lemma proper_keys_update matches s :
  proper_keys s -> proper_keys (update_is_read matches s).
Proof.
  intros [Hk Hn]. unfold update_is_read. split; simpl; [|exact Hn].
  apply Forall_forall. intros r Hr. apply in_map_iff in Hr.
  destruct Hr as [r0 [<- Hr0]]. rewrite Forall_forall in Hk.
  destruct (matches r0); simpl; apply Hk; exact Hr0.
Qed.

Ltac maintains_keys :=
  repeat match goal with
         | |- maintains _ (tbind _ _) => apply maintains_tbind; [|intros ?]
         | |- maintains _ (ttry_catch _ _) => apply maintains_try; [|intros ?]
         | |- maintains _ (tret _) => apply maintains_tret
         | |- maintains _ (lift _) => apply maintains_lift
         | |- maintains _ (statement _ _ (insert_rows _ _)) =>
             apply maintains_statement; intros ?; apply proper_keys_insert
         | |- maintains _ (statement _ _ (delete_where _)) =>
             apply maintains_statement; intros ?; apply proper_keys_delete
         | |- maintains _ (statement _ _ (update_is_read _)) =>
             apply maintains_statement; intros ?; apply proper_keys_update
         | |- maintains _ (match ?x with _ => _ end) => destruct x
         end.

Lemma run_keeps_proper_keys be op s : proper_keys s -> proper_keys (run be op s).
Proof.
  destruct op; simpl.
  - assert (H : maintains proper_keys (GenerateAdminNotifications.serve method be clock)).
    { unfold GenerateAdminNotifications.serve, GenerateAdminNotifications.generate.
      maintains_keys. }
    apply H.
  - assert (H : maintains proper_keys (AutoGenerateNotifications.serve method be clock)).
    { unfold AutoGenerateNotifications.serve, AutoGenerateNotifications.generate.
      maintains_keys. }
    apply H.
  - assert (H : maintains proper_keys (AdminNotifications.generateNotifications be clock)).
    { unfold AdminNotifications.generateNotifications. maintains_keys. }
    apply H.
  - assert (H : maintains proper_keys
                  (MonitoringRoom.generateAFKNotifications be clock isAdmin salesmen)).
    { unfold MonitoringRoom.generateAFKNotifications. maintains_keys. }
    apply H.
  - assert (H : maintains proper_keys (AdminNotifications.markAsRead be notificationId)).
    { unfold AdminNotifications.markAsRead. maintains_keys. }
    apply H.
  - assert (H : maintains proper_keys (AdminNotifications.markAllAsRead be)).
    { unfold AdminNotifications.markAllAsRead. maintains_keys. }
    apply H.
  - assert (H : maintains proper_keys
                  (AdminNotifications.handleConfirmDelete be notificationId)).
    { unfold AdminNotifications.handleConfirmDelete. maintains_keys. }
    apply H.
Qed.

Lemma collected_screen_types be clock n :
  In n (collected_screen be clock) -> n_type n = stale_lead.
Proof.
  unfold collected_screen. rewrite screen_loop. unfold pushed at 1. cbn [snd].
  intros H. apply in_flat_map in H. destruct H as [u [_ Hn]].
  unfold AdminNotifications.iteration, AdminNotifications.process_user in Hn.
  fold (AutoGenerateNotifications.iteration be (clock_start clock) u) in Hn.
  rewrite pushed_iteration_auto in Hn. apply auto_pushed_shape in Hn.
  destruct Hn as [->| ->]; reflexivity.
Qed.

(** X11.  Opening the admin screen wipes what the other operations left:
    after any sequence of operations on a table with proper keys and a
    regeneration on the admin screen whose statements succeed, every row
    is an unread stale_lead notification stamped with the insertion time.
    AFK alerts stored by the monitoring screen and read marks set by the
    admin do not survive it. *)
Theorem screen_regeneration_wipes_alerts_and_marks be ops clock s :
  proper_keys s -> store_healthy be ->
  let before := fold_left (fun st op => run be op st) ops s in
  Forall (fun r => row_is_read r = false
                   /\ n_type (row_notification r) = stale_lead
                   /\ row_created_at r = clock_insert clock)
         (rows (run be (ScreenGenerate clock) before)).
Proof.
  intros Hk Hh before.
  assert (Hb : proper_keys before).
  { subst before. revert s Hk. induction ops as [|op ops IH]; intros s Hk; simpl.
    - exact Hk.
    - apply IH. apply run_keeps_proper_keys. exact Hk. }
  simpl run. fold (after_screen be clock before).
  rewrite after_screen_rows by assumption. rewrite rows_delete_where.
  destruct Hb as [Hkeys Hnext].
  rewrite (filter_none _ (rows before)).
  - simpl. apply Forall_forall. intros r Hr.
    pose proof (number_rows_created_at (next_id before) (clock_insert clock)
                  (with_is_read_false (collected_screen be clock))) as Hall.
    rewrite Forall_forall in Hall. specialize (Hall r Hr).
    apply number_rows_in in Hr. unfold with_is_read_false in Hr.
    apply in_map_iff in Hr. destruct Hr as [n [Hn Hin]].
    injection Hn as Hnote Hread. split; [congruence|]. split; [|exact Hall].
    rewrite <- Hnote. apply (collected_screen_types be clock). exact Hin.
  - eapply Forall_impl; [|exact Hkeys]. intros r Hr. simpl in Hr.
    unfold neq_id. rewrite negb_involutive. apply Nat.eqb_neq. exact Hr.
Qed.

Lemma screen_regeneration_witness :
  let be := backend_of testLeads healthy in
  let ops := [AfkCheck sample_clock true sample_salesmen; MarkAllAsRead] in
  let before := fold_left (fun st op => run be op st) ops empty_store in
  map row_is_read (rows before) = [true]
  /\ map (fun r => (row_is_read r, n_type (row_notification r)))
         (rows (run be (ScreenGenerate sample_clock) before))
     = [(false, stale_lead); (false, stale_lead)].
Proof.
  intros be ops before. split; [vm_compute; reflexivity|].
  pose proof (screen_regeneration_wipes_alerts_and_marks be ops sample_clock empty_store)
    as H.
  assert (Hk : proper_keys empty_store) by (split; [constructor|discriminate]).
  assert (Hh : store_healthy be) by (apply healthy_store; reflexivity).
  specialize (H Hk Hh). vm_compute. reflexivity.
Defined.

(** X12.  The AFK check has no memory: it neither looks for nor removes an
    earlier alert, so with the insert accepted two expiries of the timer
    over the same screen state store every alert twice.  For a user who is
    not an admin, or when no salesman is afk, it sends nothing: the table
    and the console are untouched whatever the backend would answer. *)
Theorem afk_alerts_accumulate be c1 c2 salesmen s :
  (faults be InsertNotifications = Healthy ->
   contents (run be (AfkCheck c2 true salesmen) (run be (AfkCheck c1 true salesmen) s))
   = contents s ++ afk_alerts salesmen ++ afk_alerts salesmen)
  /\ MonitoringRoom.generateAFKNotifications be c1 false salesmen s = (s, ([], Normal tt))
  /\ (filter MonitoringRoom.is_afk salesmen = [] ->
      forall isAdmin,
        MonitoringRoom.generateAFKNotifications be c1 isAdmin salesmen s
        = (s, ([], Normal tt))).
Proof.
  split; [|split].
  - intros Hi. unfold contents, afk_alerts. simpl run.
    rewrite (afk_run be c2) by assumption. rewrite (afk_run be c1) by assumption.
    rewrite !map_app, !number_rows_contents, app_assoc. reflexivity.
  - reflexivity.
  - intros Hnone isAdmin. unfold MonitoringRoom.generateAFKNotifications.
    destruct isAdmin; simpl; [|reflexivity].
    unfold ttry_catch. rewrite Hnone. reflexivity.
Qed.

Lemma afk_alerts_accumulate_witness :
  let be := backend_of [] healthy in
  map (fun n => n_title (new_notification n))
      (contents (run be (AfkCheck sample_clock true sample_salesmen)
                   (run be (AfkCheck sample_clock true sample_salesmen) empty_store)))
  = ["🚨 AFK Alert: jukka@envaire.com"; "🚨 AFK Alert: jukka@envaire.com"].
Proof.
  intros be.
  destruct (afk_alerts_accumulate be sample_clock sample_clock sample_salesmen empty_store)
    as [H _].
  rewrite (H eq_refl). vm_compute. reflexivity.
Defined.

(** ** Read marks and the screen state *)

Lemma mark_all_rows be s :
  faults be UpdateNotifications = Healthy ->
  rows (run be MarkAllAsRead s) = map AdminScreen.read (rows s).
Proof.
  intros Hu. simpl. unfold AdminNotifications.markAllAsRead, ttry_catch, tbind, statement.
  rewrite Hu. simpl. apply map_ext. intros r. unfold eq_is_read, AdminScreen.read.
  destruct r as [id t [|] n]; reflexivity.
Qed.

Lemma mark_one_rows be id s :
  faults be UpdateNotifications = Healthy ->
  rows (run be (MarkAsRead id) s)
  = map (fun n => if Nat.eqb (row_id n) id then AdminScreen.read n else n) (rows s).
Proof.
  intros Hu. simpl. unfold AdminNotifications.markAsRead, ttry_catch, tbind, statement.
  rewrite Hu. reflexivity.
Qed.

(** X13.  Marking changes the flag and nothing else: with the update
    accepted, [markAsRead] and [markAllAsRead] keep the number, order, keys,
    creation times and contents of the rows; [markAsRead] leaves every row
    with another key as it is; marking twice is marking once, and marking
    one notification after marking all changes nothing. *)
Theorem marking_changes_only_the_flag be id s :
  faults be UpdateNotifications = Healthy ->
  let frame := map (fun r => (row_id r, row_created_at r, row_notification r)) in
  frame (rows (run be (MarkAsRead id) s)) = frame (rows s)
  /\ frame (rows (run be MarkAllAsRead s)) = frame (rows s)
  /\ (forall r, row_id r <> id ->
                (In r (rows (run be (MarkAsRead id) s)) <-> In r (rows s)))
  /\ run be (MarkAsRead id) (run be (MarkAsRead id) s) = run be (MarkAsRead id) s
  /\ run be MarkAllAsRead (run be MarkAllAsRead s) = run be MarkAllAsRead s
  /\ run be (MarkAsRead id) (run be MarkAllAsRead s) = run be MarkAllAsRead s.
Proof.
  intros Hu frame. subst frame.
  assert (Hstore : forall op st,
             op = MarkAsRead id \/ op = MarkAllAsRead ->
             run be op st = mkStore (rows (run be op st)) (next_id st)).
  { intros op st [->| ->]; simpl;
      unfold AdminNotifications.markAsRead, AdminNotifications.markAllAsRead,
        ttry_catch, tbind, statement; rewrite Hu; reflexivity. }
  split; [|split; [|split; [|split; [|split]]]].
  - rewrite mark_one_rows by assumption. rewrite map_map. apply map_ext.
    intros r. destruct (Nat.eqb (row_id r) id); reflexivity.
  - rewrite mark_all_rows by assumption. rewrite map_map. reflexivity.
  - intros r Hr. rewrite mark_one_rows by assumption. rewrite in_map_iff. split.
    + intros [r0 [Heq Hin]]. destruct (Nat.eqb (row_id r0) id) eqn:E.
      * apply Nat.eqb_eq in E. subst r. simpl in Hr. congruence.
      * subst. exact Hin.
    + intros Hin. exists r. split; [|exact Hin].
      apply Nat.eqb_neq in Hr. rewrite Hr. reflexivity.
  - rewrite (Hstore (MarkAsRead id) (run be (MarkAsRead id) s)) by auto.
    rewrite (Hstore (MarkAsRead id) s) at 2 3 by auto. simpl next_id.
    f_equal. rewrite (mark_one_rows be id (run be (MarkAsRead id) s)) by assumption.
    rewrite mark_one_rows by assumption. rewrite map_map.
    apply map_ext. intros r. destruct (Nat.eqb (row_id r) id) eqn:E; simpl; rewrite E; reflexivity.
  - rewrite (Hstore MarkAllAsRead (run be MarkAllAsRead s)) by auto.
    rewrite (Hstore MarkAllAsRead s) at 2 3 by auto. simpl next_id.
    f_equal. rewrite (mark_all_rows be (run be MarkAllAsRead s)) by assumption.
    rewrite mark_all_rows by assumption. rewrite map_map. reflexivity.
  - rewrite (Hstore (MarkAsRead id) (run be MarkAllAsRead s)) by auto.
    rewrite (Hstore MarkAllAsRead s) at 2 3 by auto. simpl next_id.
    f_equal. rewrite (mark_one_rows be id (run be MarkAllAsRead s)) by assumption.
    rewrite mark_all_rows by assumption. rewrite map_map.
    apply map_ext. intros r. destruct (Nat.eqb (row_id (AdminScreen.read r)) id); reflexivity.
Qed.

Lemma marking_witness :
  let be := backend_of testLeads healthy in
  let s := after_auto be sample_clock empty_store in
  map row_is_read (rows (run be (MarkAsRead 2) s)) = [false; true]
  /\ run be (MarkAsRead 2) (run be (MarkAsRead 2) s) = run be (MarkAsRead 2) s.
Proof.
  intros be s.
  destruct (marking_changes_only_the_flag be 2 s eq_refl) as [_ [_ [_ [Hidem _]]]].
  split; [vm_compute; reflexivity|exact Hidem].
Defined.



(** ** The monitoring screen *)

Lemma latest_spec ts :
  match MonitoringRoom.latest ts with
  | Some m => In m ts /\ forall t, In t ts -> t <= m
  | None => ts = []
  end.
Proof.
  induction ts as [|t rest IH]; simpl; [reflexivity|].
  destruct (MonitoringRoom.latest rest) as [m|].
  - destruct IH as [Hin Hmax]. split.
    + destruct (Z.max_spec t m) as [[_ ->]|[_ ->]]; auto.
    + intros x [<-|Hx]; [lia|]. specialize (Hmax x Hx). lia.
  - subst rest. split; [auto|]. intros x [<-|[]]. lia.
Qed.

(** X15.  What the monitoring screen shows of the activity log.  For
    every salesman that [fetchSalesmen] lists, with his two activity
    queries answered, [last_activity] is the newest entry of
    [activity_logs] with his email, whatever other salesmen logged; it is
    missing exactly when he has no entry; and [total_actions] counts his
    entries from the start of today on. *)
Theorem last_activity_is_the_newest_entry be clock today s :
  In s (MonitoringRoom.fetchSalesmen be clock today) ->
  let mail := MonitoringRoom.email s in
  faults be (SelectRecentActivity mail) = Healthy ->
  faults be (CountActivity mail) = Healthy ->
  (forall m,
      MonitoringRoom.last_activity s = Some m ->
      (exists a, In a (activity_logs be)
                 /\ act_user_email a = mail /\ act_timestamp a = m)
      /\ forall a, In a (activity_logs be) -> act_user_email a = mail ->
                   act_timestamp a <= m)
  /\ (MonitoringRoom.last_activity s = None <->
      forall a, In a (activity_logs be) -> act_user_email a <> mail)
  /\ MonitoringRoom.total_actions s
     = List.length (filter (fun a => String.eqb (act_user_email a) mail
                                     && (today <=? act_timestamp a))
                           (activity_logs be)).
Proof.
  intros Hs mail Hr Hc. apply fetchSalesmen_in in Hs. fold mail in Hs.
  rewrite Hs. unfold MonitoringRoom.salesman_of.
  cbn [MonitoringRoom.last_activity MonitoringRoom.total_actions].
  clear Hs.
  unfold MonitoringRoom.lastActivity, MonitoringRoom.activityCount, run_query.
  rewrite Hr, Hc. unfold MonitoringRoom.timestamps_of.
  pose proof (latest_spec (map act_timestamp
                 (filter (fun a => String.eqb (act_user_email a) mail) (activity_logs be))))
    as Hl.
  split; [|split].
  - intros m Hm. rewrite Hm in Hl. destruct Hl as [Hin Hmax]. split.
    + apply in_map_iff in Hin. destruct Hin as [a [Ha Hin]].
      apply filter_In in Hin. destruct Hin as [Hin He].
      apply String.eqb_eq in He. exists a. auto.
    + intros a Ha He. apply Hmax. apply in_map. apply filter_In.
      split; [exact Ha|]. apply String.eqb_eq. exact He.
  - split.
    + intros Hn. rewrite Hn in Hl. intros a Ha He.
      assert (Hin : In a (filter (fun a => String.eqb (act_user_email a) mail)
                                 (activity_logs be))).
      { apply filter_In. split; [exact Ha|]. apply String.eqb_eq. exact He. }
      apply (in_map act_timestamp) in Hin. rewrite Hl in Hin. exact Hin.
    + intros Hnone.
      destruct (MonitoringRoom.latest _) as [m|]; [|reflexivity].
      destruct Hl as [Hin _]. apply in_map_iff in Hin. destruct Hin as [a [_ Hin]].
      apply filter_In in Hin. destruct Hin as [Hin He]. apply String.eqb_eq in He.
      exfalso. exact (Hnone a Hin He).
  - clear Hl.
    induction (activity_logs be) as [|a rest IH]; simpl; [reflexivity|].
    destruct (String.eqb (act_user_email a) mail); simpl; [|exact IH].
    destruct (today <=? act_timestamp a); simpl; rewrite IH; reflexivity.
Qed.

Lemma last_activity_witness :
  let be := monitoring_backend (11 * 60 * 1000) in
  exists s,
    In s (MonitoringRoom.fetchSalesmen be sample_clock 0)
    /\ MonitoringRoom.email s = "jukka@envaire.com"
    /\ MonitoringRoom.last_activity s = Some (sample_now - 11 * 60 * 1000)
    /\ MonitoringRoom.total_actions s = 2%nat
    /\ forall a, In a (activity_logs be) -> act_user_email a = "jukka@envaire.com" ->
                 act_timestamp a <= sample_now - 11 * 60 * 1000.
Proof.
  intros be.
  exists (MonitoringRoom.salesman_of be sample_clock 0 "jukka@envaire.com").
  assert (Hin : In (MonitoringRoom.salesman_of be sample_clock 0 "jukka@envaire.com")
                   (MonitoringRoom.fetchSalesmen be sample_clock 0))
    by (left; reflexivity).
  destruct (last_activity_is_the_newest_entry be sample_clock 0 _ Hin eq_refl eq_refl)
    as [Hlast [_ Hcount]].
  assert (E : MonitoringRoom.last_activity
                (MonitoringRoom.salesman_of be sample_clock 0 "jukka@envaire.com")
              = Some (sample_now - 11 * 60 * 1000)) by (vm_compute; reflexivity).
  split; [exact Hin|]. split; [reflexivity|]. split; [exact E|].
  split; [rewrite Hcount; vm_compute; reflexivity|].
  exact (proj2 (Hlast _ E)).
Defined.

(** X16.  [fetchSalesmen] never fails and always lists the four salesmen
    of the screen in order, whatever the backend answers.  A salesman is
    afk exactly when he holds a session record and his latest activity is
    between 10 and 30 minutes old, and offline exactly when he holds no
    session record; without one his id is [demo-] followed by the local
    part of his email.  When no query is answered all four are offline
    with no activity. *)
Theorem fetchSalesmen_status_exact be clock today :
  map MonitoringRoom.email (MonitoringRoom.fetchSalesmen be clock today)
  = MonitoringRoom.salesmenEmails
  /\ (forall s,
        In s (MonitoringRoom.fetchSalesmen be clock today) ->
        let mail := MonitoringRoom.email s in
        let now := clock_user clock mail in
        (MonitoringRoom.online_status s = MonitoringRoom.afk <->
         exists role t,
           MonitoringRoom.userRole be mail = Some role
           /\ MonitoringRoom.lastActivity be mail = Some t
           /\ minutes 10 <= now - t < minutes 30)
        /\ (MonitoringRoom.online_status s = MonitoringRoom.offline <->
            MonitoringRoom.userRole be mail = None)
        /\ (MonitoringRoom.userRole be mail = None ->
            MonitoringRoom.user_id s = ("demo-" ++ Js.beforeAt mail)%string)
        /\ (forall role, MonitoringRoom.userRole be mail = Some role ->
                         MonitoringRoom.user_id s = role_user_id role))
  /\ ((forall q, faults be q <> Healthy) ->
      forall s,
        In s (MonitoringRoom.fetchSalesmen be clock today) ->
        MonitoringRoom.online_status s = MonitoringRoom.offline
        /\ MonitoringRoom.last_activity s = None
        /\ MonitoringRoom.total_actions s = 0%nat).
Proof.
  split; [|split].
  - unfold MonitoringRoom.fetchSalesmen. rewrite map_map. reflexivity.
  - intros s Hin mail now. apply fetchSalesmen_in in Hin. fold mail in Hin.
    rewrite Hin. unfold MonitoringRoom.salesman_of.
    cbn [MonitoringRoom.online_status MonitoringRoom.user_id].
    fold now. unfold minutes, MonitoringRoom.onlineStatus,
      MonitoringRoom.AFK_THRESHOLD, MonitoringRoom.IDLE_THRESHOLD.
    destruct (MonitoringRoom.userRole be mail) as [role|];
      destruct (MonitoringRoom.lastActivity be mail) as [t|].
    + repeat split; try discriminate; try congruence.
      * intros H. exists role, t. repeat split;
          repeat match type of H with
                 | context [?a <? ?b] => destruct (Z.ltb_spec a b)
                 end; try discriminate; lia.
      * intros [r [t0 [_ [Ht Hb]]]]. injection Ht as <-.
        repeat match goal with
               | |- context [?a <? ?b] => destruct (Z.ltb_spec a b)
               end; try reflexivity; lia.
      * repeat match goal with
               | |- context [?a <? ?b] => destruct (Z.ltb_spec a b)
               end; discriminate.
    + repeat split; try discriminate; try congruence.
      intros [r [t0 [_ [Ht _]]]]. discriminate.
    + repeat split; try discriminate; try congruence.
      intros [r [t0 [Hr _]]]. discriminate.
    + repeat split; try discriminate; try congruence.
      intros [r [t0 [Hr _]]]. discriminate.
  - intros Hdown s Hin. apply fetchSalesmen_in in Hin. rewrite Hin.
    unfold MonitoringRoom.salesman_of, MonitoringRoom.userRole,
      MonitoringRoom.lastActivity, MonitoringRoom.activityCount, run_query.
    cbn [MonitoringRoom.online_status MonitoringRoom.last_activity
         MonitoringRoom.total_actions].
    pose proof (Hdown (SelectUserRole (MonitoringRoom.email s))) as H1.
    pose proof (Hdown (SelectRecentActivity (MonitoringRoom.email s))) as H2.
    pose proof (Hdown (CountActivity (MonitoringRoom.email s))) as H3.
    destruct (faults be (SelectUserRole _)); [contradiction| |];
      (destruct (faults be (SelectRecentActivity _)); [contradiction| |]);
      (destruct (faults be (CountActivity _)); [contradiction| |]);
      repeat split; reflexivity.
Qed.

(** X17.  The age shown next to an activity.  Under one minute it is a
    number of seconds below 60, under one hour a number of minutes from 1
    to 59, under one day a number of hours from 1 to 23, each the floor of
    the elapsed time; from one day on it is the date.  A timestamp in the
    future is shown with a negative number of seconds, never as a date. *)
Theorem formatTimestamp_ranges toLocaleString now timestamp :
  let diff := now - timestamp in
  let shown := MonitoringView.formatTimestamp toLocaleString now timestamp in
  (0 <= diff < 60000 ->
   exists k, shown = (MonitoringView.numberToString k ++ "s ago")%string
             /\ 0 <= k <= 59 /\ k * 1000 <= diff < (k + 1) * 1000)
  /\ (60000 <= diff < 3600000 ->
      exists k, shown = (MonitoringView.numberToString k ++ "m ago")%string
                /\ 1 <= k <= 59 /\ k * 60000 <= diff < (k + 1) * 60000)
  /\ (3600000 <= diff < 86400000 ->
      exists k, shown = (MonitoringView.numberToString k ++ "h ago")%string
                /\ 1 <= k <= 23 /\ k * 3600000 <= diff < (k + 1) * 3600000)
  /\ (86400000 <= diff -> shown = toLocaleString timestamp)
  /\ (diff < 0 ->
      exists k, shown = (MonitoringView.numberToString k ++ "s ago")%string /\ k < 0).
Proof.
  intros diff shown. subst shown. unfold MonitoringView.formatTimestamp. fold diff.
  assert (Hdiv : forall d, 0 < d -> (diff / d) * d <= diff < (diff / d + 1) * d).
  { intros d Hd. pose proof (Z.div_mod diff d ltac:(lia)) as E.
    pose proof (Z.mod_pos_bound diff d Hd). nia. }
  split; [|split; [|split; [|split]]]; intros H.
  - destruct (Z.ltb_spec diff 60000); [|lia].
    exists (diff / 1000). split; [reflexivity|].
    pose proof (Hdiv 1000 ltac:(lia)). split; [|assumption].
    pose proof (Z.div_pos diff 1000 ltac:(lia) ltac:(lia)).
    pose proof (Z.div_lt_upper_bound diff 1000 60 ltac:(lia) ltac:(lia)). lia.
  - destruct (Z.ltb_spec diff 60000); [lia|].
    destruct (Z.ltb_spec diff 3600000); [|lia].
    exists (diff / 60000). split; [reflexivity|].
    pose proof (Hdiv 60000 ltac:(lia)). split; [|assumption].
    pose proof (Z.div_le_lower_bound diff 60000 1 ltac:(lia) ltac:(lia)).
    pose proof (Z.div_lt_upper_bound diff 60000 60 ltac:(lia) ltac:(lia)). lia.
  - destruct (Z.ltb_spec diff 60000); [lia|].
    destruct (Z.ltb_spec diff 3600000); [lia|].
    destruct (Z.ltb_spec diff 86400000); [|lia].
    exists (diff / 3600000). split; [reflexivity|].
    pose proof (Hdiv 3600000 ltac:(lia)). split; [|assumption].
    pose proof (Z.div_le_lower_bound diff 3600000 1 ltac:(lia) ltac:(lia)).
    pose proof (Z.div_lt_upper_bound diff 3600000 24 ltac:(lia) ltac:(lia)). lia.
  - destruct (Z.ltb_spec diff 60000); [lia|].
    destruct (Z.ltb_spec diff 3600000); [lia|].
    destruct (Z.ltb_spec diff 86400000); [lia|]. reflexivity.
  - destruct (Z.ltb_spec diff 60000); [|lia].
    exists (diff / 1000). split; [reflexivity|].
    pose proof (Z.div_lt_upper_bound diff 1000 0 ltac:(lia) ltac:(lia)). lia.
Qed.

(** ** Inline updates against the buckets *)

Lemma update_leads_ids data leadId table :
  map lead_id (SalesmanNotifications.update_leads data leadId table) = map lead_id table.
Proof.
  unfold SalesmanNotifications.update_leads. rewrite map_map. apply map_ext.
  intros l. destruct (String.eqb (lead_id l) leadId); reflexivity.
Qed.

(** After an accepted update, a lead of the old table is in a bucket of the
    new table exactly when its updated row passes the filter. *)
Lemma in_bucket_after_update be now leadId field value sel p x :
  (forall l, sum_id (sel l) = lead_id l) ->
  primary_key be -> faults be UpdateLead = Healthy -> In x (leads be) ->
  let data := SalesmanNotifications.updateData field value now in
  let x' := if String.eqb (lead_id x) leadId
            then SalesmanNotifications.apply_update data x else x in
  in_bucket x (map sel (filter p (leads (after_update be now leadId field value))))
  <-> p x' = true.
Proof.
  intros Hsel Hpk Hf Hin data x'.
  unfold after_update, SalesmanNotifications.handleStatusUpdate. rewrite Hf.
  cbn [fst]. fold data.
  set (be' := with_leads be (SalesmanNotifications.update_leads data leadId (leads be))).
  assert (Hpk' : primary_key be').
  { unfold primary_key, be', with_leads. cbn [leads].
    rewrite update_leads_ids. exact Hpk. }
  assert (Hin' : In x' (leads be')).
  { unfold be', with_leads. cbn [leads]. unfold SalesmanNotifications.update_leads.
    apply in_map_iff. exists x. split; [reflexivity|exact Hin]. }
  assert (Hid : lead_id x' = lead_id x).
  { subst x'. destruct (String.eqb (lead_id x) leadId); reflexivity. }
  rewrite <- (in_bucket_filter be' sel p x' Hsel Hpk' Hin').
  unfold in_bucket. rewrite Hid. reflexivity.
Qed.

(** X18.  Answering resets the clock.  After a lead is marked 'answered'
    on the salesman screen at time [now] and the update is accepted, no
    run of either function whose clock reads at most 4 days after [now]
    puts the lead in the overdue or the stale bucket, and no run at all
    puts it in the uncalled bucket. *)
Theorem answered_lead_leaves_the_buckets be now leadId x u t :
  primary_key be -> faults be UpdateLead = Healthy ->
  In x (leads be) -> lead_id x = leadId ->
  let be' := after_update be now leadId SalesmanNotifications.call_status_field "answered" in
  (t <= now + days 4 ->
   ~ in_bucket x (GenerateAdminNotifications.overdueLeads be' u t)
   /\ ~ in_bucket x (GenerateAdminNotifications.staleLeads be' u t)
   /\ ~ in_bucket x (AutoGenerateNotifications.overdueLeads be' u t)
   /\ ~ in_bucket x (AutoGenerateNotifications.staleLeads be' u t))
  /\ ~ in_bucket x (GenerateAdminNotifications.uncalledLeads be' u t).
Proof.
  intros Hpk Hf Hin Hid be'. subst be'.
  unfold GenerateAdminNotifications.overdueLeads, GenerateAdminNotifications.staleLeads,
    AutoGenerateNotifications.overdueLeads, AutoGenerateNotifications.staleLeads,
    GenerateAdminNotifications.uncalledLeads. cbv zeta.
  rewrite !in_bucket_after_update by (try assumption; reflexivity).
  apply String.eqb_eq in Hid. rewrite Hid.
  unfold days. split.
  - intros Ht. repeat split; intros H; apply not_contacted_since_spec in H;
      destruct H as [_ [H _]]; simpl in H; lia.
  - intros H. apply never_called_since_spec in H. destruct H as [_ [H _]].
    simpl in H. discriminate.
Qed.

Lemma answered_lead_witness :
  let be := backend_of testLeads healthy in
  let x := lead_aged "t4" "Test Lead - 3 Weeks Overdue (CRITICAL)" "Test Company D"
                     "negotiation" "no_response" (days 22) (days 30) in
  let be' := after_update be sample_now "t4" SalesmanNotifications.call_status_field
                          "answered" in
  in_bucket x (GenerateAdminNotifications.staleLeads be "u1" sample_now)
  /\ ~ in_bucket x (GenerateAdminNotifications.staleLeads be' "u1" (sample_now + days 3))
  /\ ~ in_bucket x (GenerateAdminNotifications.overdueLeads be' "u1" (sample_now + days 3)).
Proof.
  intros be x be'.
  assert (Hin : In x (leads be)) by (vm_compute; tauto).
  destruct (answered_lead_leaves_the_buckets be sample_now "t4" x "u1" (sample_now + days 3)
              (testLeads_primary_key healthy) eq_refl Hin eq_refl) as [H _].
  assert (Ht : sample_now + days 3 <= sample_now + days 4) by (vm_compute; discriminate).
  destruct (H Ht) as [H1 [H2 _]].
  split; [vm_compute; tauto|]. split; assumption.
Defined.

(** X19.  Closing a lead on the salesman screen (status set to closed-won
    or closed-lost, update accepted) takes it out of the overdue and stale
    buckets of both functions for good, whenever they run; since the update
    writes nothing but [status], whether the lead is in the uncalled bucket
    of generate-admin-notifications stays as it was. *)
Theorem closed_lead_leaves_the_staleness_buckets be now leadId value x u t :
  primary_key be -> faults be UpdateLead = Healthy ->
  In x (leads be) -> lead_id x = leadId ->
  value = "closed-won" \/ value = "closed-lost" ->
  let be' := after_update be now leadId SalesmanNotifications.status_field value in
  ~ in_bucket x (GenerateAdminNotifications.overdueLeads be' u t)
  /\ ~ in_bucket x (GenerateAdminNotifications.staleLeads be' u t)
  /\ ~ in_bucket x (AutoGenerateNotifications.overdueLeads be' u t)
  /\ ~ in_bucket x (AutoGenerateNotifications.staleLeads be' u t)
  /\ (in_bucket x (GenerateAdminNotifications.uncalledLeads be' u t)
      <-> in_bucket x (GenerateAdminNotifications.uncalledLeads be u t)).
Proof.
  intros Hpk Hf Hin Hid Hv be'. subst be'.
  unfold GenerateAdminNotifications.overdueLeads, GenerateAdminNotifications.staleLeads,
    AutoGenerateNotifications.overdueLeads, AutoGenerateNotifications.staleLeads,
    GenerateAdminNotifications.uncalledLeads. cbv zeta.
  rewrite !in_bucket_after_update by (try assumption; reflexivity).
  rewrite (in_bucket_filter be select_created _ x) by (try assumption; reflexivity).
  apply String.eqb_eq in Hid. rewrite Hid.
  assert (Hc : closed (SalesmanNotifications.apply_update
                         (SalesmanNotifications.updateData
                            SalesmanNotifications.status_field value now) x)).
  { unfold closed. simpl. exact Hv. }
  repeat split; try (rewrite closed_not_contacted_since by exact Hc; discriminate);
    unfold never_called_since, eq_user_id, eq_call_status, lt_created_at; simpl; tauto.
Qed.

Lemma closed_lead_witness :
  let be := backend_of testLeads healthy in
  let x := lead_aged "t4" "Test Lead - 3 Weeks Overdue (CRITICAL)" "Test Company D"
                     "negotiation" "no_response" (days 22) (days 30) in
  let be' := after_update be sample_now "t4" SalesmanNotifications.status_field
                          "closed-lost" in
  ~ in_bucket x (GenerateAdminNotifications.staleLeads be' "u1" (sample_now + days 30)).
Proof.
  intros be x be'.
  assert (Hin : In x (leads be)) by (vm_compute; tauto).
  exact (proj1 (proj2 (closed_lead_leaves_the_staleness_buckets be sample_now "t4"
                         "closed-lost" x "u1" (sample_now + days 30)
                         (testLeads_primary_key healthy) eq_refl Hin eq_refl
                         (or_intror eq_refl)))).
Defined.

(** X20.  A call result other than 'answered' does not reset the clock.
    After call_status is set to any other value (update accepted), every
    lead of the table is in the overdue and stale buckets of both functions
    exactly as before; the updated lead is in the uncalled bucket
    afterwards only if the new value is 'not_called'. *)
Theorem other_call_results_keep_the_staleness_buckets be now leadId value x u t :
  primary_key be -> faults be UpdateLead = Healthy ->
  In x (leads be) -> value <> "answered" ->
  let be' := after_update be now leadId SalesmanNotifications.call_status_field value in
  (in_bucket x (GenerateAdminNotifications.overdueLeads be' u t)
   <-> in_bucket x (GenerateAdminNotifications.overdueLeads be u t))
  /\ (in_bucket x (GenerateAdminNotifications.staleLeads be' u t)
      <-> in_bucket x (GenerateAdminNotifications.staleLeads be u t))
  /\ (in_bucket x (AutoGenerateNotifications.overdueLeads be' u t)
      <-> in_bucket x (AutoGenerateNotifications.overdueLeads be u t))
  /\ (in_bucket x (AutoGenerateNotifications.staleLeads be' u t)
      <-> in_bucket x (AutoGenerateNotifications.staleLeads be u t))
  /\ (lead_id x = leadId ->
      in_bucket x (GenerateAdminNotifications.uncalledLeads be' u t) ->
      value = "not_called").
Proof.
  intros Hpk Hf Hin Hv be'. subst be'.
  unfold GenerateAdminNotifications.overdueLeads, GenerateAdminNotifications.staleLeads,
    AutoGenerateNotifications.overdueLeads, AutoGenerateNotifications.staleLeads,
    GenerateAdminNotifications.uncalledLeads. cbv zeta.
  rewrite !in_bucket_after_update by (try assumption; reflexivity).
  rewrite !(in_bucket_filter be _ _ x) by (try assumption; reflexivity).
  unfold SalesmanNotifications.updateData.
  apply String.eqb_neq in Hv. rewrite Hv.
  assert (Hsame : forall t0,
             not_contacted_since u t0
               (if String.eqb (lead_id x) leadId
                then SalesmanNotifications.apply_update
                       (SalesmanNotifications.mkUpdate None (Some value) None) x
                else x)
             = not_contacted_since u t0 x).
  { intros t0. destruct (String.eqb (lead_id x) leadId); reflexivity. }
  rewrite !Hsame. repeat split; try tauto.
  intros Hid. apply String.eqb_eq in Hid. rewrite Hid. intros H.
  apply never_called_since_spec in H. destruct H as [_ [H _]]. exact H.
Qed.

Lemma other_call_results_witness :
  let be := backend_of testLeads healthy in
  let x := lead_aged "t4" "Test Lead - 3 Weeks Overdue (CRITICAL)" "Test Company D"
                     "negotiation" "no_response" (days 22) (days 30) in
  let be' := after_update be sample_now "t4" SalesmanNotifications.call_status_field
                          "voicemail" in
  in_bucket x (GenerateAdminNotifications.staleLeads be' "u1" sample_now).
Proof.
  intros be x be'.
  assert (Hin : In x (leads be)) by (vm_compute; tauto).
  assert (Hv : "voicemail" <> "answered") by discriminate.
  destruct (other_call_results_keep_the_staleness_buckets be sample_now "t4" "voicemail"
              x "u1" sample_now (testLeads_primary_key healthy) eq_refl Hin Hv)
    as [_ [Hstale _]].
  apply Hstale. vm_compute. tauto.
Defined.

(** ** The salesman screen *)

Section OrderBy.

Context {A : Type} (key : A -> Z).

Lemma insert_by_perm x l : Permutation (insert_by key x l) (x :: l).
Proof.
  induction l as [|y rest IH]; simpl; [reflexivity|].
  destruct (key x <=? key y); [reflexivity|].
  rewrite IH. apply perm_swap.
Qed.

Lemma order_by_perm l : Permutation (order_by key l) l.
Proof.
  induction l as [|x rest IH]; simpl; [reflexivity|].
  rewrite insert_by_perm. constructor. exact IH.
Qed.

Lemma insert_by_sorted x l :
  StronglySorted (fun a b => key a <= key b) l ->
  StronglySorted (fun a b => key a <= key b) (insert_by key x l).
Proof.
  induction 1 as [|y rest Hs IH Hall]; simpl.
  - constructor; constructor.
  - destruct (Z.leb_spec (key x) (key y)).
    + constructor; [constructor; assumption|].
      constructor; [assumption|].
      eapply Forall_impl; [|exact Hall]. simpl. intros. lia.
    + constructor; [exact IH|].
      apply Forall_forall. intros z Hz.
      apply (Permutation_in _ (insert_by_perm x rest)) in Hz.
      destruct Hz as [<-|Hz]; [lia|].
      rewrite Forall_forall in Hall. apply Hall. exact Hz.
Qed.

Lemma order_by_sorted l : StronglySorted (fun a b => key a <= key b) (order_by key l).
Proof.
  induction l as [|x rest IH]; simpl; [constructor|].
  apply insert_by_sorted. exact IH.
Qed.

End OrderBy.

Lemma overdue_rows_in be u t l :
  In l (SalesmanScreen.overdue_rows be u t)
  <-> In l (leads be) /\ not_contacted_since u t l = true.
Proof.
  unfold SalesmanScreen.overdue_rows. rewrite <- filter_In. split.
  - apply Permutation_in. apply order_by_perm.
  - apply Permutation_in. symmetry. apply order_by_perm.
Qed.

Lemma salesman_generate_healthy be at_ u :
  SalesmanScreen.generateNotifications be at_ (Some u) Healthy Healthy
  = ([], Normal
      (Some (SalesmanScreen.push_if_any (SalesmanScreen.recent_notification at_)
               (SalesmanScreen.overdue_rows be u (SalesmanScreen.fourDaysAgo at_))
             ++ SalesmanScreen.push_if_any (SalesmanScreen.critical_notification at_)
                  (SalesmanScreen.overdue_rows be u (SalesmanScreen.twoWeeksAgo at_))))).
Proof. reflexivity. Qed.

(** X21.  The notification list of the salesman screen is replaced only by
    a complete result.  Without a signed-in user nothing happens.  When
    either of the two queries fails, in whichever way, the list on screen is
    left as it was and one line is written on the console.  When both are
    answered the new list has at most two notifications, the 4-day one
    first, and all of them are unread: read marks are never kept across a
    regeneration. *)
Theorem salesman_list_is_all_or_nothing be at_ user recentFault criticalFault :
  (user = None ->
   SalesmanScreen.generateNotifications be at_ user recentFault criticalFault
   = ([], Normal None))
  /\ (user <> None -> recentFault <> Healthy \/ criticalFault <> Healthy ->
      exists label e,
        SalesmanScreen.generateNotifications be at_ user recentFault criticalFault
        = ([ConsoleError label e], Normal None))
  /\ (user <> None -> recentFault = Healthy -> criticalFault = Healthy ->
      exists ns,
        SalesmanScreen.generateNotifications be at_ user recentFault criticalFault
        = ([], Normal (Some ns))
        /\ (List.length ns <= 2)%nat
        /\ SalesmanScreen.unreadCount ns = List.length ns
        /\ (forall n rest, ns = n :: rest ->
                           SalesmanScreen.sn_type n = SalesmanScreen.stale_leads ->
                           rest = [])).
Proof.
  split; [|split].
  - intros ->. reflexivity.
  - intros Hu Hf. destruct user as [u|]; [|contradiction].
    unfold SalesmanScreen.generateNotifications.
    destruct recentFault, criticalFault; simpl;
      try (eexists; eexists; reflexivity).
    destruct Hf; contradiction.
  - intros Hu -> ->. destruct user as [u|]; [|contradiction].
    eexists. split; [apply salesman_generate_healthy|].
    unfold SalesmanScreen.push_if_any, SalesmanScreen.unreadCount.
    destruct (0 <? _)%nat; destruct (0 <? _)%nat; simpl;
      (split; [lia|]); (split; [reflexivity|]);
      intros n rest Heq Hk; try discriminate;
      injection Heq as <- <-; try reflexivity; discriminate.
Qed.

Lemma StronglySorted_map {A B : Type} (f : A -> B) (R : B -> B -> Prop) (l : list A) :
  StronglySorted (fun a b => R (f a) (f b)) l -> StronglySorted R (map f l).
Proof.
  induction 1 as [|x rest Hs IH Hall]; simpl; constructor; [exact IH|].
  apply Forall_forall. intros y Hy. apply in_map_iff in Hy.
  destruct Hy as [z [<- Hz]]. rewrite Forall_forall in Hall. apply Hall. exact Hz.
Qed.

Lemma salesman_notification_in be at_ u n :
  In n (SalesmanScreen.push_if_any (SalesmanScreen.recent_notification at_)
          (SalesmanScreen.overdue_rows be u (SalesmanScreen.fourDaysAgo at_))
        ++ SalesmanScreen.push_if_any (SalesmanScreen.critical_notification at_)
             (SalesmanScreen.overdue_rows be u (SalesmanScreen.twoWeeksAgo at_))) ->
  exists found,
    found = SalesmanScreen.overdue_rows be u (threshold_of at_ (SalesmanScreen.sn_type n))
    /\ found <> []
    /\ SalesmanScreen.sn_lead_count n = List.length found
    /\ SalesmanScreen.sn_leads n = map (SalesmanScreen.card_of at_) found.
Proof.
  unfold SalesmanScreen.push_if_any. intros H. apply in_app_or in H.
  destruct H as [H|H];
    match type of H with
    | In _ (if (0 <? List.length ?b)%nat then _ else _) =>
        destruct b as [|x rest] eqn:E; simpl in H; [contradiction|];
        destruct H as [<-|[]]; exists (x :: rest); simpl threshold_of;
        rewrite E; repeat split; discriminate
    end.
Qed.

(** X22.  What a notification of the salesman screen lists.  With both
    queries answered, every notification counts and lists, without
    truncation, exactly the leads of the salesman that are not closed and
    were last contacted before its threshold, the longest-waiting first;
    each card shows the whole days elapsed since the last contact, which is
    at least [d] whenever the threshold lies [d] days or more before the
    clock reading of the card. *)
Theorem salesman_cards_are_the_overdue_leads be at_ u ns :
  SalesmanScreen.generateNotifications be at_ (Some u) Healthy Healthy
  = ([], Normal (Some ns)) ->
  forall n, In n ns ->
    let threshold := threshold_of at_ (SalesmanScreen.sn_type n) in
    SalesmanScreen.sn_lead_count n = List.length (SalesmanScreen.sn_leads n)
    /\ (1 <= SalesmanScreen.sn_lead_count n)%nat
    /\ Permutation (map SalesmanScreen.card_id (SalesmanScreen.sn_leads n))
                   (map lead_id (filter (not_contacted_since u threshold) (leads be)))
    /\ StronglySorted
         (fun a b => SalesmanScreen.card_last_contact a <= SalesmanScreen.card_last_contact b)
         (SalesmanScreen.sn_leads n)
    /\ (forall c, In c (SalesmanScreen.sn_leads n) ->
          SalesmanScreen.card_last_contact c < threshold
          /\ SalesmanScreen.card_status c <> "closed-won"
          /\ SalesmanScreen.card_status c <> "closed-lost"
          /\ forall d, 0 <= d ->
               threshold <= SalesmanScreen.now_for at_ (SalesmanScreen.card_id c) - days d ->
               d <= SalesmanScreen.card_days_overdue c).
Proof.
  rewrite salesman_generate_healthy. intros Heq n Hn threshold.
  injection Heq as <-. apply salesman_notification_in in Hn.
  destruct Hn as [found [Hfound [Hne [Hcount Hleads]]]]. fold threshold in Hfound.
  rewrite Hcount, Hleads. split; [symmetry; apply length_map|].
  split; [destruct found; [contradiction|simpl; lia]|].
  split; [|split].
  - rewrite map_map. simpl. subst found. unfold SalesmanScreen.overdue_rows.
    apply Permutation_map. apply order_by_perm.
  - apply StronglySorted_map. simpl. subst found.
    apply (order_by_sorted lead_last_contact).
  - intros c Hc. apply in_map_iff in Hc. destruct Hc as [l [<- Hl]].
    subst found. apply overdue_rows_in in Hl. destruct Hl as [_ Hl].
    apply not_contacted_since_spec in Hl. destruct Hl as [_ [Ht Hcl]].
    simpl. split; [exact Ht|]. unfold closed in Hcl.
    split; [tauto|]. split; [tauto|].
    intros d Hd Hth. unfold days in Hth.
    apply Z.div_le_lower_bound; lia.
Qed.

Lemma salesman_cards_witness :
  let be := backend_of testLeads healthy in
  exists ns,
    SalesmanScreen.generateNotifications be sample_instants (Some "u1") Healthy Healthy
    = ([], Normal (Some ns))
    /\ map (fun n => map SalesmanScreen.card_days_overdue (SalesmanScreen.sn_leads n)) ns
       = [[22; 16; 15; 7; 5]; [22; 16; 15]]
    /\ forall n, In n ns ->
                 SalesmanScreen.sn_lead_count n = List.length (SalesmanScreen.sn_leads n).
Proof.
  intros be. eexists. split; [reflexivity|]. split; [vm_compute; reflexivity|].
  intros n Hn.
  exact (proj1 (salesman_cards_are_the_overdue_leads be sample_instants "u1" _
                  eq_refl n Hn)).
Defined.

Lemma unread_after_mark_le id ns :
  (SalesmanScreen.unreadCount (SalesmanScreen.markAsRead id ns)
   <= SalesmanScreen.unreadCount ns)%nat.
Proof.
  unfold SalesmanScreen.unreadCount, SalesmanScreen.markAsRead.
  induction ns as [|n rest IH]; simpl; [lia|].
  destruct (String.eqb (SalesmanScreen.sn_id n) id); simpl;
    destruct (SalesmanScreen.sn_is_read n); simpl; lia.
Qed.

(** X23.  Read marks on the salesman screen live in the list only.
    [markAllAsRead] leaves no unread notification and [markAsRead] never
    adds one.  The notifications of one generation have different ids (the
    prefixes differ even when the clock readings agree), so marking one of
    a freshly generated list as read leaves exactly the others unread. *)
Theorem salesman_read_marks be at_ u ns :
  SalesmanScreen.generateNotifications be at_ (Some u) Healthy Healthy
  = ([], Normal (Some ns)) ->
  NoDup (map SalesmanScreen.sn_id ns)
  /\ (forall n, In n ns ->
        SalesmanScreen.unreadCount (SalesmanScreen.markAsRead (SalesmanScreen.sn_id n) ns)
        = (List.length ns - 1)%nat)
  /\ (forall any, SalesmanScreen.unreadCount (SalesmanScreen.markAllAsRead any) = 0%nat)
  /\ (forall id any,
        (SalesmanScreen.unreadCount (SalesmanScreen.markAsRead id any)
         <= SalesmanScreen.unreadCount any)%nat).
Proof.
  rewrite salesman_generate_healthy. intros Heq. injection Heq as <-.
  split; [|split; [|split]].
  - unfold SalesmanScreen.push_if_any.
    destruct (0 <? _)%nat; destruct (0 <? _)%nat; simpl;
      repeat constructor; simpl; try tauto.
    intros [H|[]]. discriminate H.
  - unfold SalesmanScreen.push_if_any.
    destruct (0 <? _)%nat; destruct (0 <? _)%nat; simpl;
      intros n Hn; try contradiction;
      repeat (destruct Hn as [<-|Hn]; [|try contradiction]);
      unfold SalesmanScreen.unreadCount, SalesmanScreen.markAsRead; simpl;
      rewrite ?String.eqb_refl; simpl; reflexivity.
  - intros any. unfold SalesmanScreen.unreadCount, SalesmanScreen.markAllAsRead.
    induction any as [|n rest IH]; simpl; [reflexivity|exact IH].
  - intros id any. apply unread_after_mark_le.
Qed.

Lemma salesman_read_marks_witness :
  let be := backend_of testLeads healthy in
  exists ns,
    SalesmanScreen.generateNotifications be sample_instants (Some "u1") Healthy Healthy
    = ([], Normal (Some ns))
    /\ List.length ns = 2%nat
    /\ NoDup (map SalesmanScreen.sn_id ns).
Proof.
  intros be. eexists. split; [reflexivity|]. split; [vm_compute; reflexivity|].
  exact (proj1 (salesman_read_marks be sample_instants "u1" _ eq_refl)).
Defined.

(** X24.  The badge of the sidebar against the salesman screen.  Read
    with the same threshold over the same table, the count given to the
    badge is the number of leads the 4-day notification of the screen lists,
    and zero exactly when the screen has no 4-day notification.  When the
    query fails the badge keeps its old count and the error is logged. *)
Theorem sidebar_badge_matches_the_screen be at_ u :
  exists count,
    Sidebar.checkNotifications be (SalesmanScreen.fourDaysAgo at_) (Some u) Healthy
    = ([], Normal (Some count))
    /\ (forall ns n,
          SalesmanScreen.generateNotifications be at_ (Some u) Healthy Healthy
          = ([], Normal (Some ns)) ->
          In n ns -> SalesmanScreen.sn_type n = SalesmanScreen.overdue_calls ->
          SalesmanScreen.sn_lead_count n = count)
    /\ (forall ns,
          SalesmanScreen.generateNotifications be at_ (Some u) Healthy Healthy
          = ([], Normal (Some ns)) ->
          (count = 0%nat <->
           forall n, In n ns -> SalesmanScreen.sn_type n <> SalesmanScreen.overdue_calls))
    /\ (forall fault e,
          fault = Fails e \/ fault = Rejects e ->
          Sidebar.checkNotifications be (SalesmanScreen.fourDaysAgo at_) (Some u) fault
          = ([ConsoleError "Error checking notifications:" e], Normal None)).
Proof.
  eexists. split; [reflexivity|].
  assert (Hlen : List.length (SalesmanScreen.overdue_rows be u (SalesmanScreen.fourDaysAgo at_))
                 = List.length (map lead_id
                                    (filter (not_contacted_since u (SalesmanScreen.fourDaysAgo at_))
                                            (leads be)))).
  { rewrite length_map. unfold SalesmanScreen.overdue_rows.
    apply Permutation_length. apply order_by_perm. }
  split; [|split].
  - intros ns n Heq Hn Hk. rewrite salesman_generate_healthy in Heq. injection Heq as <-.
    rewrite <- Hlen. unfold SalesmanScreen.push_if_any in Hn.
    apply in_app_or in Hn. destruct Hn as [Hn|Hn];
      destruct (0 <? _)%nat; simpl in Hn; try contradiction;
      destruct Hn as [<-|[]]; [reflexivity|discriminate Hk].
  - intros ns Heq. rewrite salesman_generate_healthy in Heq. injection Heq as <-.
    rewrite <- Hlen. unfold SalesmanScreen.push_if_any.
    destruct (SalesmanScreen.overdue_rows be u (SalesmanScreen.fourDaysAgo at_))
      as [|x rest]; simpl.
    + split; [|reflexivity]. intros _ n Hn.
      destruct (0 <? _)%nat; simpl in Hn; [|contradiction].
      destruct Hn as [<-|[]]. discriminate.
    + split; [discriminate|]. intros H. exfalso.
      apply (H _ (or_introl eq_refl)). reflexivity.
  - intros fault e [->| ->]; reflexivity.
Qed.

(** X25.  The refresh that ends [handleStatusUpdate].  After a lead was
    marked 'answered' at a time not before the two thresholds and the
    update was accepted, the regenerated list of the salesman screen shows
    the lead in no notification. *)
Theorem answered_lead_leaves_the_salesman_list be now leadId x u at_ ns :
  primary_key be -> faults be UpdateLead = Healthy ->
  In x (leads be) -> lead_id x = leadId ->
  SalesmanScreen.fourDaysAgo at_ <= now -> SalesmanScreen.twoWeeksAgo at_ <= now ->
  SalesmanScreen.generateNotifications
    (after_update be now leadId SalesmanNotifications.call_status_field "answered")
    at_ (Some u) Healthy Healthy
  = ([], Normal (Some ns)) ->
  forall n, In n ns ->
            ~ In leadId (map SalesmanScreen.card_id (SalesmanScreen.sn_leads n)).
Proof.
  intros Hpk Hf Hin Hid H4 H14 Heq n Hn Hcard.
  rewrite salesman_generate_healthy in Heq. injection Heq as <-.
  apply salesman_notification_in in Hn.
  destruct Hn as [found [Hfound [_ [_ Hleads]]]].
  rewrite Hleads, map_map in Hcard. simpl in Hcard.
  assert (Hb : in_bucket x
                 (map select_contact
                      (filter (not_contacted_since u
                                 (threshold_of at_ (SalesmanScreen.sn_type n)))
                              (leads (after_update be now leadId
                                        SalesmanNotifications.call_status_field "answered"))))).
  { unfold in_bucket. rewrite map_map. simpl. rewrite Hid.
    apply in_map_iff in Hcard. destruct Hcard as [l [Hl Hlin]].
    apply in_map_iff. exists l. split; [exact Hl|].
    subst found. apply overdue_rows_in in Hlin. apply filter_In. exact Hlin. }
  apply in_bucket_after_update in Hb; try assumption; [|reflexivity].
  apply String.eqb_eq in Hid. rewrite Hid in Hb.
  apply not_contacted_since_spec in Hb. destruct Hb as [_ [Hb _]]. simpl in Hb.
  destruct (SalesmanScreen.sn_type n); simpl in Hb; lia.
Qed.

Lemma answered_lead_list_witness :
  let be := backend_of testLeads healthy in
  exists ns,
    SalesmanScreen.generateNotifications
      (after_update be sample_now "t4" SalesmanNotifications.call_status_field "answered")
      sample_instants (Some "u1") Healthy Healthy
    = ([], Normal (Some ns))
    /\ forall n, In n ns ->
                 ~ In "t4" (map SalesmanScreen.card_id (SalesmanScreen.sn_leads n)).
Proof.
  intros be. eexists. split; [reflexivity|].
  assert (Hin : In (lead_aged "t4" "Test Lead - 3 Weeks Overdue (CRITICAL)" "Test Company D"
                              "negotiation" "no_response" (days 22) (days 30)) (leads be))
    by (vm_compute; tauto).
  apply (answered_lead_leaves_the_salesman_list be sample_now "t4" _ "u1" sample_instants _
           (testLeads_primary_key healthy) eq_refl Hin eq_refl).
  - vm_compute. discriminate.
  - vm_compute. discriminate.
  - reflexivity.
Defined.

(** ** The CSV import *)

Section CsvImportFacts.

Variable toLowerCase : string -> string.
Variable trim : string -> string.
Variable parseDate : string -> option Timestamp.
Variable invalidTime : string.

Lemma leadData_shape userId industry now row d :
  CSVImport.leadData toLowerCase parseDate userId industry now row = Some d ->
  CSVImport.ld_user_id d = userId
  /\ CSVImport.ld_industry d = industry
  /\ CSVImport.ld_name d = CSVImport.firm row
  /\ CSVImport.ld_company d = CSVImport.firm row
  /\ CSVImport.ld_email d = ""
  /\ CSVImport.ld_value d = 0
  /\ CSVImport.ld_status d = CSVImport.mapStatus toLowerCase (CSVImport.status row)
  /\ CSVImport.ld_call_status d
     = CSVImport.mapCallStatus toLowerCase (CSVImport.called row).
Proof.
  unfold CSVImport.leadData.
  destruct (if CSVImport.truthy (CSVImport.last_contact row)
            then parseDate (CSVImport.last_contact row ++ " 2024")%string
            else Some now); [|discriminate].
  intros H. injection H as <-. simpl. repeat split; reflexivity.
Qed.

Lemma mapStatus_range s : In (CSVImport.mapStatus toLowerCase s) import_statuses.
Proof.
  unfold CSVImport.mapStatus, import_statuses. cbv zeta.
  repeat match goal with
         | |- context [if ?c then _ else _] => destruct c
         end; simpl; tauto.
Qed.

Lemma mapCallStatus_range s :
  In (CSVImport.mapCallStatus toLowerCase s) import_call_statuses.
Proof.
  unfold CSVImport.mapCallStatus, import_call_statuses. cbv zeta.
  repeat match goal with
         | |- context [if ?c then _ else _] => destruct c
         end; simpl; tauto.
Qed.

Lemma import_row_invariant userId industry now reply known done p row :
  import_invariant toLowerCase known done p ->
  import_invariant toLowerCase known (S done)
    (CSVImport.import_row toLowerCase parseDate invalidTime userId industry now reply p row).
Proof.
  intros [Hex [Hnd [Hnew [Him Hsum]]]].
  unfold CSVImport.import_row. cbv zeta.
  destruct (Js.includes (toLowerCase (CSVImport.firm row)) (CSVImport.existingCompanies p))
    eqn:Hseen.
  - unfold import_invariant. simpl. repeat split; try assumption. lia.
  - destruct (CSVImport.leadData toLowerCase parseDate userId industry now row)
      as [data|] eqn:Hdata.
    + assert (Hkey : company_key toLowerCase data = toLowerCase (CSVImport.firm row)).
      { unfold company_key. apply leadData_shape in Hdata.
        destruct Hdata as [_ [_ [_ [Hc _]]]]. rewrite Hc. reflexivity. }
      assert (Hfresh : ~ In (toLowerCase (CSVImport.firm row)) (CSVImport.existingCompanies p)).
      { intros Hin. apply includes_spec in Hin. rewrite Hin in Hseen. discriminate. }
      rewrite Hex in Hfresh.
      destruct reply as [|message|message]; unfold import_invariant; simpl.
      * repeat split.
        -- rewrite Hex, map_app. simpl. rewrite Hkey, app_assoc. reflexivity.
        -- rewrite map_app. simpl. rewrite Hkey.
           apply NoDup_app_remove_l with (l := []). simpl.
           apply Permutation_NoDup with (l := toLowerCase (CSVImport.firm row)
                                               :: map (company_key toLowerCase)
                                                      (CSVImport.inserted p)).
           ++ apply Permutation_cons_append.
           ++ constructor; [|exact Hnd].
              intros Hin. apply Hfresh. apply in_or_app. right. exact Hin.
        -- intros d Hd. apply in_app_or in Hd. destruct Hd as [Hd|[<-|[]]].
           ++ apply Hnew. exact Hd.
           ++ rewrite Hkey. intros Hin. apply Hfresh. apply in_or_app. left. exact Hin.
        -- rewrite length_app. simpl. lia.
        -- lia.
      * repeat split; try assumption. rewrite length_app. simpl. lia.
      * repeat split; try assumption. rewrite length_app. simpl. lia.
    + unfold import_invariant. simpl. repeat split; try assumption.
      rewrite length_app. simpl. lia.
Qed.

Lemma import_rows_invariant userId industry now replies known rows :
  forall index done p,
    import_invariant toLowerCase known done p ->
    import_invariant toLowerCase known (done + List.length rows)
      (CSVImport.import_rows toLowerCase parseDate invalidTime userId industry now replies
         index p rows).
Proof.
  induction rows as [|row rest IH]; intros index done p Hp; simpl.
  - rewrite Nat.add_0_r. exact Hp.
  - replace (done + S (List.length rest))%nat with (S done + List.length rest)%nat by lia.
    apply IH. apply import_row_invariant. exact Hp.
Qed.

Lemma import_row_origin userId industry now reply p row d :
  In d (CSVImport.inserted
          (CSVImport.import_row toLowerCase parseDate invalidTime userId industry now reply
             p row)) ->
  In d (CSVImport.inserted p)
  \/ CSVImport.leadData toLowerCase parseDate userId industry now row = Some d.
Proof.
  unfold CSVImport.import_row. cbv zeta.
  destruct (Js.includes _ _); [simpl; tauto|].
  destruct (CSVImport.leadData toLowerCase parseDate userId industry now row) as [data|];
    [|simpl; tauto].
  destruct reply; simpl; try tauto.
  intros Hd. apply in_app_or in Hd. destruct Hd as [Hd|[<-|[]]]; tauto.
Qed.

Lemma import_rows_origin userId industry now replies rows d :
  forall index p,
    In d (CSVImport.inserted
            (CSVImport.import_rows toLowerCase parseDate invalidTime userId industry now
               replies index p rows)) ->
    In d (CSVImport.inserted p)
    \/ exists row t, In row rows
                     /\ CSVImport.leadData toLowerCase parseDate userId industry t row
                        = Some d.
Proof.
  induction rows as [|row rest IH]; intros index p Hd; simpl in Hd.
  - left. exact Hd.
  - apply IH in Hd. destruct Hd as [Hd|[row' [t [Hin Hrow]]]].
    + apply import_row_origin in Hd. destruct Hd as [Hd|Hd].
      * left. exact Hd.
      * right. exists row, (now index). split; [left; reflexivity|exact Hd].
    + right. exists row', t. split; [right; exact Hin|exact Hrow].
Qed.

Lemma import_starts known :
  import_invariant toLowerCase known 0
    (CSVImport.mkProgress (CSVImport.mkImportResult 0 0 []) known []).
Proof.
  unfold import_invariant. simpl. rewrite app_nil_r.
  repeat split; try reflexivity; try constructor. intros d [].
Qed.

Lemma parsed_rows_have_a_company csvText row :
  In row (CSVImport.parseCSV trim csvText) -> CSVImport.firm row <> "".
Proof.
  unfold CSVImport.parseCSV. cbv zeta. intros H. apply filter_In in H.
  destruct H as [_ H]. unfold CSVImport.truthy in H.
  intros Heq. rewrite Heq in H. discriminate.
Qed.

(** X26.  The result of an import accounts for every parsed row.  Unless
    the look-up of the existing companies throws, imported + duplicates +
    number of error lines equals the number of rows [parseCSV] gives;
    imported is the number of rows the database accepted; and [onSuccess]
    is called exactly when at least one row was accepted.  When the
    look-up throws, nothing is inserted and the result is 0 / 0 with the
    one line 'Failed to parse CSV file'. *)
Theorem import_accounts_for_every_row be userId industry csvText existingFault now replies
        r ins ok :
  CSVImport.handleImport toLowerCase trim parseDate invalidTime be (Some userId) industry
    csvText existingFault now replies = Some (r, ins, ok) ->
  CSVImport.imported r = List.length ins
  /\ (ok = true <-> ins <> [])
  /\ ((forall e, existingFault <> Rejects e) ->
      (CSVImport.imported r + CSVImport.duplicates r + List.length (CSVImport.errors r)
       = List.length (CSVImport.parseCSV trim csvText))%nat)
  /\ (forall e, existingFault = Rejects e ->
                r = CSVImport.mkImportResult 0 0 ["Failed to parse CSV file"] /\ ins = []).
Proof.
  unfold CSVImport.handleImport. cbv zeta. intros H.
  assert (Hloop : (forall e, existingFault <> Rejects e) ->
                  CSVImport.imported r = List.length ins
                  /\ (ok = true <-> ins <> [])
                  /\ (CSVImport.imported r + CSVImport.duplicates r
                      + List.length (CSVImport.errors r)
                      = List.length (CSVImport.parseCSV trim csvText))%nat).
  { intros Hno.
    pose proof (import_rows_invariant userId industry now replies
                  (CSVImport.existing toLowerCase be userId existingFault)
                  (CSVImport.parseCSV trim csvText) 0 0 _
                  (import_starts _)) as Hinv.
    destruct Hinv as [_ [_ [_ [Him Hsum]]]].
    destruct existingFault as [|e|e]; [| |destruct (Hno e eq_refl)];
      injection H as <- <- <-;
      (split; [exact Him|split; [|exact Hsum]]);
      unfold CSVImport.existing in Him; rewrite Him;
      (destruct (CSVImport.inserted _); simpl; split;
       [discriminate|intros Hn; destruct Hn; reflexivity
       |intros _; discriminate|reflexivity]). }
  destruct existingFault as [|e|e].
  - destruct Hloop as [H1 [H2 H3]]; [discriminate|].
    repeat split; try tauto; discriminate.
  - destruct Hloop as [H1 [H2 H3]]; [discriminate|].
    repeat split; try tauto; discriminate.
  - injection H as <- <- <-. simpl. repeat split; try discriminate; try tauto.
Qed.

(** X27.  The import never stores one company twice.  The accepted rows
    have pairwise different lower-cased company names, and when the
    look-up of the existing companies succeeded none of them is a company
    the user already has.  A look-up that fails without throwing is not
    noticed: the import then runs as on an empty table. *)
Theorem import_never_duplicates_a_company be userId industry csvText existingFault now
        replies r ins ok :
  CSVImport.handleImport toLowerCase trim parseDate invalidTime be (Some userId) industry
    csvText existingFault now replies = Some (r, ins, ok) ->
  NoDup (map (company_key toLowerCase) ins)
  /\ (existingFault = Healthy ->
      forall d l, In d ins -> In l (leads be) -> lead_user_id l = Some userId ->
                  toLowerCase (CSVImport.ld_company d) <> toLowerCase (lead_company l))
  /\ (forall e, existingFault = Fails e ->
                Some (r, ins, ok)
                = CSVImport.handleImport toLowerCase trim parseDate invalidTime
                    (with_leads be []) (Some userId) industry csvText Healthy now replies).
Proof.
  unfold CSVImport.handleImport. cbv zeta. intros H.
  pose proof (import_rows_invariant userId industry now replies
                (CSVImport.existing toLowerCase be userId existingFault)
                (CSVImport.parseCSV trim csvText) 0 0 _
                (import_starts _)) as Hinv.
  destruct Hinv as [_ [Hnd [Hnew _]]].
  destruct existingFault as [|e|e].
  - injection H as <- <- <-. split; [exact Hnd|]. split; [|discriminate].
    intros _ d l Hd Hl Hu Heq. apply (Hnew d Hd).
    unfold company_key. rewrite Heq. simpl.
    apply in_map_iff. exists l. split; [reflexivity|].
    apply filter_In. split; [exact Hl|].
    unfold eq_user_id. rewrite Hu. apply String.eqb_refl.
  - injection H as <- <- <-. split; [exact Hnd|]. split; [discriminate|].
    intros e' _. reflexivity.
  - injection H as <- <- <-. simpl. split; [constructor|]. split; discriminate.
Qed.

(** X28.  What an imported lead looks like.  Every row the import stores
    belongs to the signed-in user and to the industry given, has the
    company of a parsed row as both name and company (never empty), an
    empty email and value 0; its status is one of closed-lost, qualified,
    proposal and prospect, and its call status one of the six values of
    [mapCallStatus]. *)
Theorem imported_leads_shape be userId industry csvText existingFault now replies
        r ins ok d :
  CSVImport.handleImport toLowerCase trim parseDate invalidTime be (Some userId) industry
    csvText existingFault now replies = Some (r, ins, ok) ->
  In d ins ->
  CSVImport.ld_user_id d = userId
  /\ CSVImport.ld_industry d = industry
  /\ CSVImport.ld_name d = CSVImport.ld_company d
  /\ CSVImport.ld_company d <> ""
  /\ (exists row, In row (CSVImport.parseCSV trim csvText)
                  /\ CSVImport.ld_company d = CSVImport.firm row)
  /\ CSVImport.ld_email d = ""
  /\ CSVImport.ld_value d = 0
  /\ In (CSVImport.ld_status d) import_statuses
  /\ In (CSVImport.ld_call_status d) import_call_statuses.
Proof.
  unfold CSVImport.handleImport. cbv zeta. intros H Hd.
  assert (Hrow : exists row t,
             In row (CSVImport.parseCSV trim csvText)
             /\ CSVImport.leadData toLowerCase parseDate userId industry t row = Some d).
  { destruct existingFault as [|e|e]; injection H as <- <- <-;
      try (apply import_rows_origin in Hd; destruct Hd as [[]|Hd]; exact Hd).
    destruct Hd. }
  destruct Hrow as [row [t [Hin Hdata]]].
  apply leadData_shape in Hdata.
  destruct Hdata as [Hu [Hi [Hn [Hc [He [Hv [Hs Hcs]]]]]]].
  pose proof (parsed_rows_have_a_company _ _ Hin) as Hfirm.
  repeat split; try assumption.
  - congruence.
  - congruence.
  - exists row. split; assumption.
  - rewrite Hs. apply mapStatus_range.
  - rewrite Hcs. apply mapCallStatus_range.
Qed.

End CsvImportFacts.

Lemma sample_import_value :
  sample_import
  = Some (CSVImport.mkImportResult 1 2 [],
          [ CSVImport.mkLeadData "u1" "Acme" "Acme" "" "0401" "ceo" "qualified" "answered"
              "hvac" 0 "" "acme.fi" "1M" "Ann" "ceo" "go" sample_now ],
          true).
Proof. vm_compute. reflexivity. Qed.

Lemma import_accounts_witness :
  let r := CSVImport.mkImportResult 1 2 [] in
  (CSVImport.imported r + CSVImport.duplicates r + List.length (CSVImport.errors r)
   = List.length (CSVImport.parseCSV trim_ascii sample_csv))%nat.
Proof.
  intros r.
  pose proof (import_accounts_for_every_row lower_ascii trim_ascii (fun _ => None)
                "Invalid time value" sample_table "u1" "hvac" sample_csv Healthy
                (fun _ => sample_now) (fun _ => Healthy) _ _ _ sample_import_value) as H.
  destruct H as [_ [_ [H3 _]]]. apply H3. discriminate.
Defined.

Lemma import_no_duplicates_witness :
  NoDup (map (company_key lower_ascii)
             [ CSVImport.mkLeadData "u1" "Acme" "Acme" "" "0401" "ceo" "qualified" "answered"
                 "hvac" 0 "" "acme.fi" "1M" "Ann" "ceo" "go" sample_now ]).
Proof.
  exact (proj1 (import_never_duplicates_a_company lower_ascii trim_ascii (fun _ => None)
                  "Invalid time value" sample_table "u1" "hvac" sample_csv Healthy
                  (fun _ => sample_now) (fun _ => Healthy) _ _ _ sample_import_value)).
Defined.

Lemma imported_leads_witness :
  let d := CSVImport.mkLeadData "u1" "Acme" "Acme" "" "0401" "ceo" "qualified" "answered"
             "hvac" 0 "" "acme.fi" "1M" "Ann" "ceo" "go" sample_now in
  CSVImport.ld_user_id d = "u1" /\ In (CSVImport.ld_status d) import_statuses.
Proof.
  intros d.
  pose proof (imported_leads_shape lower_ascii trim_ascii (fun _ => None)
                "Invalid time value" sample_table "u1" "hvac" sample_csv Healthy
                (fun _ => sample_now) (fun _ => Healthy) _ _ _ d sample_import_value
                (or_introl eq_refl)) as H.
  destruct H as [H1 [_ [_ [_ [_ [_ [_ [H8 _]]]]]]]].
  split; [exact H1|exact H8].
Defined.

(** ** Reading a file back *)

Lemma split_free c s : has_char c s = false -> CSVImport.split c s = [s].
Proof.
  induction s as [|x rest IH]; simpl; intros H; [reflexivity|].
  apply orb_false_iff in H. destruct H as [Hx Hrest].
  rewrite Hx, (IH Hrest). reflexivity.
Qed.

Lemma split_app c a b :
  has_char c a = false ->
  CSVImport.split c (a ++ String c b)%string = a :: CSVImport.split c b.
Proof.
  induction a as [|x rest IH]; simpl; intros H.
  - rewrite Ascii.eqb_refl. reflexivity.
  - apply orb_false_iff in H. destruct H as [Hx Hrest].
    rewrite Hx, (IH Hrest). reflexivity.
Qed.

Lemma split_concat c parts :
  parts <> [] -> Forall (fun p => has_char c p = false) parts ->
  CSVImport.split c (String.concat (String c EmptyString) parts) = parts.
Proof.
  induction parts as [|p ps IH]; intros Hne Hfree; [destruct Hne; reflexivity|].
  apply Forall_cons_iff in Hfree. destruct Hfree as [Hp Hps].
  destruct ps as [|q qs].
  - simpl. apply split_free. exact Hp.
  - change (String.concat (String c EmptyString) (p :: q :: qs))
      with (p ++ String c (String.concat (String c EmptyString) (q :: qs)))%string.
    rewrite split_app by exact Hp. f_equal. apply IH; [discriminate|exact Hps].
Qed.

Lemma has_char_app c a b :
  has_char c (a ++ b)%string = has_char c a || has_char c b.
Proof.
  induction a as [|x rest IH]; simpl; [reflexivity|].
  rewrite IH, orb_assoc. reflexivity.
Qed.

Lemma has_char_concat c sep parts :
  has_char c sep = false -> Forall (fun p => has_char c p = false) parts ->
  has_char c (String.concat sep parts) = false.
Proof.
  intros Hsep. induction parts as [|p ps IH]; intros Hfree; [reflexivity|].
  apply Forall_cons_iff in Hfree. destruct Hfree as [Hp Hps].
  destruct ps as [|q qs]; [exact Hp|].
  change (String.concat sep (p :: q :: qs))
    with (p ++ sep ++ String.concat sep (q :: qs))%string.
  rewrite !has_char_app, Hp, Hsep, (IH Hps). reflexivity.
Qed.

Lemma truthy_self s : (if String.eqb s "" then "" else s) = s.
Proof.
  destruct (String.eqb s "") eqn:H; [|reflexivity].
  apply String.eqb_eq in H. symmetry. exact H.
Qed.

Section ParseCSV.

Variable trim : string -> string.

Lemma plain_row_line row :
  plain_row trim row ->
  has_char newline (line_of row) = false
  /\ CSVImport.split comma (line_of row) = fields row.
Proof.
  intros [Hfields _]. split.
  - apply has_char_concat; [reflexivity|].
    eapply Forall_impl; [|exact Hfields]. simpl. tauto.
  - apply split_concat; [discriminate|].
    eapply Forall_impl; [|exact Hfields]. simpl. tauto.
Qed.

Lemma parse_plain_rows rows :
  Forall (plain_row trim) rows ->
  filter (fun row => CSVImport.truthy (CSVImport.firm row))
    (map (fun line =>
            let values := CSVImport.split ","%char line in
            CSVImport.mkCsvRow
              (CSVImport.column trim values 0) (CSVImport.column trim values 1)
              (CSVImport.column trim values 2) (CSVImport.column trim values 3)
              (CSVImport.column trim values 4) (CSVImport.column trim values 5)
              (CSVImport.column trim values 6) (CSVImport.column trim values 7)
              (CSVImport.column trim values 8) (CSVImport.column trim values 9)
              (CSVImport.column trim values 10))
         (filter (fun line => CSVImport.truthy (trim line)) (map line_of rows)))
  = rows.
Proof.
  induction rows as [|row rest IH]; intros Hrows; [reflexivity|].
  apply Forall_cons_iff in Hrows. destruct Hrows as [Hrow Hrest].
  pose proof (plain_row_line row Hrow) as [_ Hsplit].
  destruct Hrow as [Hfields [Hfirm Hline]].
  cbn [map filter].
  assert (Ht : CSVImport.truthy (trim (line_of row)) = true).
  { unfold CSVImport.truthy. apply negb_true_iff. apply String.eqb_neq. exact Hline. }
  rewrite Ht. cbn [map filter]. cbv zeta.
  change (CSVImport.split ","%char (line_of row))
    with (CSVImport.split comma (line_of row)).
  rewrite Hsplit.
  destruct row as [f0 f1 f2 f3 f4 f5 f6 f7 f8 f9 f10].
  unfold fields in *. simpl in Hfields, Hfirm |- *.
  repeat (apply Forall_cons_iff in Hfields;
          let H := fresh "Hf" in destruct Hfields as [[H _] Hfields]).
  unfold CSVImport.column. simpl.
  rewrite Hf, Hf0, Hf1, Hf2, Hf3, Hf4, Hf5, Hf6, Hf7, Hf8, Hf9, !truthy_self.
  assert (Hkeep : CSVImport.truthy f0 = true).
  { unfold CSVImport.truthy. apply negb_true_iff. apply String.eqb_neq. exact Hfirm. }
  simpl. rewrite Hkeep. f_equal. apply IH. exact Hrest.
Qed.

(** X29.  A file written one row per line is read back as it was written.
    For a header without line break and rows whose eleven columns are
    trimmed, hold no comma and no line break, have a company, and whose
    line does not trim to nothing, [parseCSV] of the file (header, then
    one comma-separated line per row) gives exactly these rows, in order. *)
Theorem parseCSV_reads_back header rows :
  has_char newline header = false ->
  Forall (plain_row trim) rows ->
  CSVImport.parseCSV trim (csv_text header rows) = rows.
Proof.
  intros Hheader Hrows. unfold CSVImport.parseCSV, csv_text. cbv zeta.
  change (CSVImport.split "010"%char) with (CSVImport.split newline).
  rewrite split_concat.
  - cbn [tl]. apply parse_plain_rows. exact Hrows.
  - discriminate.
  - constructor; [exact Hheader|].
    apply Forall_map. eapply Forall_impl; [|exact Hrows].
    intros row Hrow. apply plain_row_line. exact Hrow.
Qed.

End ParseCSV.

Lemma parseCSV_witness :
  CSVImport.parseCSV trim_ascii sample_csv = sample_rows.
Proof.
  apply (parseCSV_reads_back trim_ascii sample_header sample_rows).
  - reflexivity.
  - repeat constructor; try (vm_compute; reflexivity); vm_compute; discriminate.
Defined.

(** ** The activity list *)

Lemma in_firstn {A : Type} (n : nat) (l : list A) (a : A) : In a (firstn n l) -> In a l.
Proof.
  intros H. rewrite <- (firstn_skipn n l). apply in_or_app. left. exact H.
Qed.

Lemma in_skipn {A : Type} (n : nat) (l : list A) (a : A) : In a (skipn n l) -> In a l.
Proof.
  intros H. rewrite <- (firstn_skipn n l). apply in_or_app. right. exact H.
Qed.

Lemma sorted_firstn {A : Type} (R : A -> A -> Prop) (l : list A) :
  StronglySorted R l -> forall n, StronglySorted R (firstn n l).
Proof.
  induction 1 as [|a l Hl IH Ha]; intros [|n]; simpl; try constructor.
  - apply IH.
  - apply Forall_forall. intros b Hb. apply in_firstn in Hb.
    revert b Hb. apply Forall_forall. exact Ha.
Qed.

Lemma sorted_firstn_skipn {A : Type} (R : A -> A -> Prop) (l : list A) :
  StronglySorted R l ->
  forall n a b, In a (firstn n l) -> In b (skipn n l) -> R a b.
Proof.
  induction 1 as [|x l Hl IH Hx]; intros [|n] a b Ha Hb; simpl in Ha, Hb;
    try contradiction.
  destruct Ha as [<-|Ha].
  - apply in_skipn in Hb. revert b Hb. apply Forall_forall. exact Hx.
  - exact (IH n a b Ha Hb).
Qed.

Lemma sorted_weaken {A : Type} (R R' : A -> A -> Prop) (l : list A) :
  (forall a b, R a b -> R' a b) -> StronglySorted R l -> StronglySorted R' l.
Proof.
  intros Himp. induction 1 as [|a l Hl IH Ha]; constructor; [exact IH|].
  eapply Forall_impl; [|exact Ha]. intros b. apply Himp.
Qed.

(** X30.  The activity list of a salesman shows the newest hundred
    entries.  For a salesman of the screen and a query that succeeds,
    [fetchActivities] sets the list to entries of that salesman's email
    within the time filter, newest first, at most 100 of them and all of
    them when there are fewer; no entry left out is newer than an entry
    shown.  A query that fails or throws empties the list and reports the
    error once. *)
Theorem activity_feed_shows_the_newest_hundred be salesmen filter midnight now userId
        salesman :
  find (fun s => String.eqb (MonitoringRoom.user_id s) userId) salesmen = Some salesman ->
  let mail := MonitoringRoom.email salesman in
  let bound := ActivityFeed.since filter midnight now in
  (exists shown rest,
      ActivityFeed.fetchActivities be salesmen filter midnight now Healthy userId
      = ([], Normal (Some shown))
      /\ List.length shown = Nat.min 100 (List.length (matching be mail bound))
      /\ StronglySorted (fun a b => act_timestamp b <= act_timestamp a) shown
      /\ Permutation (shown ++ rest) (matching be mail bound)
      /\ (forall a b, In a shown -> In b rest -> act_timestamp b <= act_timestamp a)
      /\ (forall a, In a shown ->
                    In a (activity_logs be)
                    /\ act_user_email a = mail
                    /\ match bound with
                       | Some t => t <= act_timestamp a
                       | None => True
                       end))
  /\ (forall e fault,
         fault = Fails e \/ fault = Rejects e ->
         ActivityFeed.fetchActivities be salesmen filter midnight now fault userId
         = ([ConsoleError "Error fetching activities:" e], Normal (Some []))).
Proof.
  intros Hfind mail bound. split.
  - set (sorted := order_by (fun a => - act_timestamp a) (matching be mail bound)).
    assert (Hsorted : StronglySorted (fun a b => act_timestamp b <= act_timestamp a) sorted).
    { apply sorted_weaken with (R := fun a b => - act_timestamp a <= - act_timestamp b).
      - intros a b. simpl. lia.
      - apply (order_by_sorted (fun a => - act_timestamp a)). }
    assert (Hperm : Permutation sorted (matching be mail bound))
      by apply order_by_perm.
    exists (firstn 100 sorted), (skipn 100 sorted). split.
    { unfold ActivityFeed.fetchActivities. rewrite Hfind. reflexivity. }
    split.
    { rewrite length_firstn. rewrite (Permutation_length Hperm). reflexivity. }
    split; [apply sorted_firstn; exact Hsorted|].
    split; [rewrite firstn_skipn; exact Hperm|].
    split; [exact (sorted_firstn_skipn _ sorted Hsorted 100)|].
    intros a Ha. apply in_firstn in Ha.
    apply (Permutation_in _ Hperm) in Ha. unfold matching in Ha.
    apply filter_In in Ha. destruct Ha as [Hin Hsel].
    unfold ActivityFeed.selected in Hsel. apply andb_true_iff in Hsel.
    destruct Hsel as [Hmail Hbound]. apply String.eqb_eq in Hmail.
    split; [exact Hin|]. split; [exact Hmail|].
    destruct bound; [lia|exact I].
  - intros e fault [->| ->]; unfold ActivityFeed.fetchActivities;
      rewrite Hfind; reflexivity.
Qed.

Lemma activity_feed_witness :
  exists shown,
    ActivityFeed.fetchActivities (monitoring_backend 1000) sample_salesmen ActivityFeed.hour
      sample_now sample_now Healthy "u1"
    = ([], Normal (Some shown))
    /\ List.length shown = 1%nat.
Proof.
  destruct (activity_feed_shows_the_newest_hundred (monitoring_backend 1000) sample_salesmen
              ActivityFeed.hour sample_now sample_now "u1" _ eq_refl)
    as [[shown [rest [Hrun [Hlen _]]]] _].
  exists shown. split; [exact Hrun|]. rewrite Hlen. vm_compute. reflexivity.
Defined.
